(** * PID-agent: the channel model, the telemetry store, the analyzers,
      the wire protocol and the optimizer, embedded and checked.

    Conventions of the embedding.
    - Python [int] is [Z]; Python and numpy floats are the exact rationals
      [Q]: rounding is left out, comparisons of floats are [Qle_bool],
      [Qeq_bool] and the like, and numeric results are compared with [==].
    - [dict]s keyed by channel id are [gmap Z _]; lists are [list].
    - The clock ([time.time()], [datetime.now()]) and the random generator
      are inputs of the functions that read them.
    - A Python exception is the [Raised] case of [outcome]. *)

From Stdlib Require Import QArith Qminmax Qround Qabs Lqa Ascii String.
From stdpp Require Import gmap strings list pretty.

Set Warnings "-register-all".

Open Scope string_scope.
Open Scope Z_scope.

(** ** Exceptions and results *)

Inductive exn : Type :=
  | KeyError
  | TypeError
  | ValueError
  | IndexError
  | ZeroDivisionError
  | AttributeError
  | UnboundLocalError
  | Exception (msg : string).

Inductive outcome (A : Type) : Type :=
  | Returned (a : A)
  | Raised (e : exn).

Arguments Returned {A} a.
Arguments Raised {A} e.

Definition raises {A : Type} (o : outcome A) : bool :=
  match o with
  | Returned _ => false
  | Raised _ => true
  end.

(** ** Numeric helpers shared by the modules *)

(** [0 <= channel < num_channels], the guard every module writes. *)
Definition in_range (channel num_channels : Z) : bool :=
  (0 <=? channel) && (channel <? num_channels).

Definition Qlt_bool (x y : Q) : bool := negb (Qle_bool y x).

(** [np.clip(x, lo, hi)] is [minimum(maximum(x, lo), hi)]. *)
Definition Qclip (x lo hi : Q) : Q := Qmin (Qmax x lo) hi.

Definition Zclip (x lo hi : Z) : Z := Z.min (Z.max x lo) hi.

Definition Qsum (l : list Q) : Q := fold_right Qplus 0%Q l.

(** [max(l)] and [min(l)] of a sequence; only called on non-empty ones. *)
Definition Qlist_max (l : list Q) : Q :=
  match l with
  | [] => 0%Q
  | x :: xs => fold_left Qmax xs x
  end.

Definition Qlist_min (l : list Q) : Q :=
  match l with
  | [] => 0%Q
  | x :: xs => fold_left Qmin xs x
  end.

(** [l[-n:]] for a positive [n]. *)
Definition last_n {A : Type} (n : nat) (l : list A) : list A :=
  drop (length l - n)%nat l.

(** ** core/utils/data_logger.py: the per-channel telemetry store *)

Module DataLogger.

(** One logged sample, as [log_data] builds it.  [timestamp] is the
    parsed time stamp, in seconds. *)
Record record : Type := mk_record {
  temperature : Q;
  target_temp : Q;
  kp : Q;
  ki : Q;
  kd : Q;
  heating : bool;
  timestamp : Q
}.

Record t : Type := mk {
  num_channels : Z;
  data : gmap Z (list record)
}.

(** [{i: [] for i in range(num_channels)}] *)
Definition empty_data (n : Z) : gmap Z (list record) :=
  list_to_map ((fun i => (i, [])) <$> seqZ 0 n).

Definition init (n : Z) : t := mk n (empty_data n).

(** [get_channel_data(channel, hours)]; the data frame is the list of
    its rows.  [now] is [datetime.now()] in seconds. *)
Definition get_channel_data (self : t) (channel : Z) (hours : option Q)
    (now : Q) : outcome (list record) :=
  if negb (in_range channel (num_channels self)) then Returned []
  else
    match data self !! channel with
    | None => Raised KeyError
    | Some [] => Returned []
    | Some rows =>
        match hours with
        | None => Returned rows
        | Some h =>
            let cutoff := (now - h * 3600)%Q in
            Returned (List.filter (fun r => Qle_bool cutoff (timestamp r)) rows)
        end
    end.

(** The metrics dictionary without [temperature_std] (a square root). *)
Record metrics : Type := mk_metrics {
  rise_time : option Q;
  settling_time : option Q;
  overshoot : option Q;
  steady_state_error : option Q
}.

Definition no_metrics : metrics := mk_metrics None None None None.

(** [series[mask].index[0]], [None] standing for the [IndexError]. *)
Definition first_index (mask : record -> bool) (df : list record) : option Q :=
  timestamp <$> List.find mask df.

Definition metrics_of (df : list record) : metrics :=
  match last df, head df with
  | Some final, Some first =>
      let target := target_temp final in
      let temp_data := temperature <$> df in
      let temp_range := (Qlist_max temp_data - Qlist_min temp_data)%Q in
      let t_10 := (Qlist_min temp_data + (1 # 10) * temp_range)%Q in
      let t_90 := (Qlist_min temp_data + (9 # 10) * temp_range)%Q in
      let rise :=
        match first_index (fun r => Qle_bool t_10 (temperature r)) df,
              first_index (fun r => Qle_bool t_90 (temperature r)) df with
        | Some t_10_idx, Some t_90_idx => Some (t_90_idx - t_10_idx)%Q
        | _, _ => None
        end in
      let max_temp := Qlist_max temp_data in
      let over :=
        if negb (Qeq_bool target 0)
        then Some (((max_temp - target) / target) * 100)%Q
        else None in
      let tolerance := ((2 # 100) * target)%Q in
      let steady_mask r :=
        Qle_bool (target - tolerance) (temperature r)
        && Qle_bool (temperature r) (target + tolerance) in
      let settling :=
        match first_index steady_mask df with
        | Some idx => Some (idx - timestamp first)%Q
        | None => None
        end in
      let tail := last_n 10 temp_data in
      let steady_state_temp := (Qsum tail / inject_Z (Z.of_nat (length tail)))%Q in
      mk_metrics rise settling over (Some (target - steady_state_temp)%Q)
  | _, _ => no_metrics
  end.

Definition get_channel_metrics (self : t) (channel : Z) (hours : option Q)
    (now : Q) : outcome metrics :=
  match get_channel_data self channel hours now with
  | Raised e => Raised e
  | Returned df => Returned (metrics_of df)
  end.

(** [clear_channel_data(channel)]: the flag returned and the logger left. *)
Definition clear_channel_data (self : t) (channel : Z) : bool * t :=
  if negb (in_range channel (num_channels self)) then (false, self)
  else (true, mk (num_channels self) (<[channel := []]> (data self))).

Definition clear_all_data (self : t) : t :=
  mk (num_channels self) (empty_data (num_channels self)).

End DataLogger.

(** ** core/utils/data_store.py: the single-curve session log *)

Module DataStore.

(** A data point of [log_data]; [analyze_curve] reads [temperature]
    only. *)
Record data_point : Type := mk_point {
  temperature : Q;
  pid_params : list (string * Q);
  timestamp : string
}.

Record curve : Type := mk_curve {
  rise_time : option nat;
  overshoot : option Q;
  steady_state_error : option Q;
  settling_time : option nat
}.

(** The first loop: the index of the first sample at or above target. *)
Fixpoint rise_loop (target : Q) (i : nat) (temperatures : list Q) : option nat :=
  match temperatures with
  | [] => None
  | temp :: rest =>
      if Qle_bool target temp then Some i else rise_loop target (S i) rest
  end.

(** [abs(temp - target_temp) <= error_band] *)
Definition in_band (target error_band temp : Q) : bool :=
  Qle_bool (Qabs (temp - target)) error_band.

(** The last loop over [enumerate(temperatures)].  [settling_time] is the
    variable of that name: it is assigned at every sample inside the
    band, and the loop stops at the first one from which the rest of the
    list stays inside. *)
Fixpoint settling_loop (target error_band : Q) (i : nat)
    (temperatures : list Q) (settling_time : option nat) : option nat :=
  match temperatures with
  | [] => settling_time
  | temp :: rest =>
      if in_band target error_band temp then
        if forallb (in_band target error_band) (temp :: rest)
        then Some i
        else settling_loop target error_band (S i) rest (Some i)
      else settling_loop target error_band (S i) rest settling_time
  end.

Definition analyze_curve (data : list data_point) (target_temp : Q) : outcome curve :=
  match data with
  | [] => Returned (mk_curve None None None None)
  | _ :: _ =>
      let temperatures := temperature <$> data in
      let rise := rise_loop target_temp 0 temperatures in
      let max_temp := Qlist_max temperatures in
      if Qlt_bool target_temp max_temp && Qeq_bool target_temp 0
      then Raised ZeroDivisionError
      else
        let over :=
          if Qlt_bool target_temp max_temp
          then (((max_temp - target_temp) / target_temp) * 100)%Q
          else 0%Q in
        let steady_state_temp :=
          if (10 <=? length temperatures)%nat
          then (Qsum (last_n 10 temperatures)
                / inject_Z (Z.of_nat (length (last_n 10 temperatures))))%Q
          else default 0%Q (last temperatures) in
        let steady := Qabs (steady_state_temp - target_temp) in
        let error_band := (target_temp * (5 # 100))%Q in
        let settling := settling_loop target_temp error_band 0 temperatures None in
        Returned (mk_curve rise (Some over) (Some steady) settling)
  end.

(** The session log: [self.data]. *)
Definition log_data (data : list data_point) (temperature : Q)
    (pid_params : list (string * Q)) (timestamp : option string) (now : string)
    : list data_point :=
  (data ++ [mk_point temperature pid_params (default now timestamp)])%list.

(** [data[-limit:]] with Python's slice rules: a negative start counts
    from the end and is cut at the first element, a start of zero or more
    counts from the front and is cut at the length. *)
Definition slice_from_neg {A : Type} (l : list A) (limit : Z) : list A :=
  let len := Z.of_nat (length l) in
  let start := - limit in
  let start := if start <? 0 then Z.max 0 (start + len) else Z.min start len in
  drop (Z.to_nat start) l.

Definition get_history (data : list data_point) (limit : option Z) : list data_point :=
  match limit with
  | None => data
  | Some n => slice_from_neg data n
  end.

Definition get_latest (data : list data_point) : option data_point := last data.

End DataStore.

(** ** tests/mock_pid_system.py: the simulated multi-channel plant *)

Module MockPIDSystem.

Record chan : Type := mk_chan {
  current_temp : Q;
  target_temp : Q;
  kp : Q;
  ki : Q;
  kd : Q;
  control_period : Z;
  max_duty : Z;
  heating : bool;
  last_error : Q;
  integral : Q;
  last_time : Q;
  last_control_time : Q
}.

(** [self.disturbance] starts as a dict keyed by channel id;
    [set_heating] rebinds it to the float [0.0]. *)
Inductive disturbance_t : Type :=
  | DDict (d : gmap Z Q)
  | DFloat (x : Q).

Record t : Type := mk {
  num_channels : Z;
  channels : gmap Z chan;
  disturbance : disturbance_t
}.

Definition time_constant : Q := 5.
Definition sample_time : Q := 1 # 10.
Definition max_power : Q := 100.

(** The dict [__init__] builds for a channel; [now] and [now'] are its two
    readings of [time.time()]. *)
Definition default_channel (now now' : Q) : chan :=
  mk_chan 25 25 1 (1 # 10) (5 # 100) 100 100 false 0 0 now now'.

(** [__init__(num_channels)]; [clock i] and [clock' i] are the readings
    taken while channel [i] is built. *)
Definition init (n : Z) (clock clock' : Z -> Q) : t :=
  mk n
     (list_to_map ((fun i => (i, default_channel (clock i) (clock' i))) <$> seqZ 0 n))
     (DDict (list_to_map ((fun i => (i, 0%Q)) <$> seqZ 0 n))).

(** What a method leaves behind: its result or exception, and the
    object as mutated up to that point. *)
Definition run (A : Type) : Type := outcome A * t.

Definition set_channels (self : t) (chs : gmap Z chan) : t :=
  mk (num_channels self) chs (disturbance self).

Definition set_disturbance (self : t) (d : disturbance_t) : t :=
  mk (num_channels self) (channels self) d.

Definition update_params (self : t) (channel : Z) (kp ki kd target : Q)
    (control_period max_duty : Z) : run unit :=
  if in_range channel (num_channels self) then
    let control_period := Zclip control_period 10 1000 in
    let max_duty := Zclip max_duty 0 100 in
    match channels self !! channel with
    | None => (Raised KeyError, self)
    | Some ch =>
        let ch' :=
          mk_chan (current_temp ch) target kp ki kd control_period max_duty
            (heating ch) (last_error ch) (integral ch) (last_time ch)
            (last_control_time ch) in
        (Returned (), set_channels self (<[channel := ch']> (channels self)))
    end
  else (Returned (), self).

Definition with_integral (ch : chan) (x : Q) : chan :=
  mk_chan (current_temp ch) (target_temp ch) (kp ch) (ki ch) (kd ch)
    (control_period ch) (max_duty ch) (heating ch) (last_error ch) x
    (last_time ch) (last_control_time ch).

Definition with_last_time (ch : chan) (x : Q) : chan :=
  mk_chan (current_temp ch) (target_temp ch) (kp ch) (ki ch) (kd ch)
    (control_period ch) (max_duty ch) (heating ch) (last_error ch)
    (integral ch) x (last_control_time ch).

Definition with_last_control_time (ch : chan) (x : Q) : chan :=
  mk_chan (current_temp ch) (target_temp ch) (kp ch) (ki ch) (kd ch)
    (control_period ch) (max_duty ch) (heating ch) (last_error ch)
    (integral ch) (last_time ch) x.

Definition with_last_error (ch : chan) (x : Q) : chan :=
  mk_chan (current_temp ch) (target_temp ch) (kp ch) (ki ch) (kd ch)
    (control_period ch) (max_duty ch) (heating ch) x
    (integral ch) (last_time ch) (last_control_time ch).

Definition with_current_temp (ch : chan) (x : Q) : chan :=
  mk_chan x (target_temp ch) (kp ch) (ki ch) (kd ch)
    (control_period ch) (max_duty ch) (heating ch) (last_error ch)
    (integral ch) (last_time ch) (last_control_time ch).

Definition with_heating (ch : chan) (b : bool) : chan :=
  mk_chan (current_temp ch) (target_temp ch) (kp ch) (ki ch) (kd ch)
    (control_period ch) (max_duty ch) b (last_error ch)
    (integral ch) (last_time ch) (last_control_time ch).

Definition store (self : t) (channel : Z) (ch : chan) : t :=
  set_channels self (<[channel := ch]> (channels self)).

(** [_calculate_next_temp(channel)].  [current_time] is the reading of
    [time.time()] and [noise] the draw of [np.random.normal]. *)
Definition _calculate_next_temp (self : t) (channel : Z)
    (current_time noise : Q) : run Q :=
  if negb (in_range channel (num_channels self)) then (Returned 25%Q, self)
  else
    match channels self !! channel with
    | None => (Raised KeyError, self)
    | Some ch =>
        let dt := (current_time - last_time ch)%Q in
        if Qlt_bool dt sample_time then (Returned (current_temp ch), self)
        else if negb (heating ch) then
          let temp_change :=
            (- (1 # 10) * (current_temp ch - 25) * (dt / time_constant))%Q in
          let new_temp := (current_temp ch + temp_change)%Q in
          (Returned new_temp, store self channel (with_last_time ch current_time))
        else
          let error := (target_temp ch - current_temp ch)%Q in
          let p_term := (kp ch * error)%Q in
          let ch1 := with_integral ch (integral ch + error * dt)%Q in
          let i_term := (ki ch1 * integral ch1)%Q in
          let d_term :=
            if Qlt_bool 0 dt
            then (kd ch1 * (error - last_error ch1) / dt)%Q
            else 0%Q in
          if Qlt_bool (current_time - last_control_time ch1)
                      (inject_Z (control_period ch1) / 1000)
          then (Returned (current_temp ch1), store self channel ch1)
          else
            let ch2 := with_last_control_time ch1 current_time in
            let output := (p_term + i_term + d_term)%Q in
            let max_output := (max_power * (inject_Z (max_duty ch2) / 100))%Q in
            let output := Qclip output 0 max_output in
            match disturbance self with
            | DFloat _ => (Raised TypeError, store self channel ch2)
            | DDict d =>
                match d !! channel with
                | None => (Raised KeyError, store self channel ch2)
                | Some dist =>
                    let temp_change :=
                      ((output / max_power * (target_temp ch2 - current_temp ch2)
                        + dist) * (dt / time_constant))%Q in
                    let new_temp := (current_temp ch2 + temp_change + noise)%Q in
                    let ch3 := with_last_time (with_last_error ch2 error) current_time in
                    (Returned new_temp, store self channel ch3)
                end
            end
    end.

(** The four entries [reset] writes back into a channel's dict. *)
Definition reset_channel (ch : chan) : chan :=
  mk_chan 25 (target_temp ch) (kp ch) (ki ch) (kd ch)
    (control_period ch) (max_duty ch) false 0 0
    (last_time ch) (last_control_time ch).

(** One channel of [reset]: the update of the channel's dict, then
    [self.disturbance[i] = 0.0]. *)
Definition reset_one (self : t) (i : Z) : run unit :=
  match channels self !! i with
  | None => (Raised KeyError, self)
  | Some ch =>
      let self1 := store self i (reset_channel ch) in
      match disturbance self1 with
      | DFloat _ => (Raised TypeError, self1)
      | DDict d => (Returned (), set_disturbance self1 (DDict (<[i := 0%Q]> d)))
      end
  end.

Fixpoint reset_loop (self : t) (ids : list Z) : run unit :=
  match ids with
  | [] => (Returned (), self)
  | i :: rest =>
      match reset_one self i with
      | (Returned _, self') => reset_loop self' rest
      | (Raised e, self') => (Raised e, self')
      end
  end.

Definition reset (self : t) (channel : option Z) : run unit :=
  match channel with
  | Some c =>
      if in_range c (num_channels self) then reset_one self c
      else reset_loop self (seqZ 0 (num_channels self))
  | None => reset_loop self (seqZ 0 (num_channels self))
  end.

Definition set_heating (self : t) (channel : Z) (heating : bool) : run unit :=
  if in_range channel (num_channels self) then
    match channels self !! channel with
    | None => (Raised KeyError, self)
    | Some ch =>
        (Returned (),
         set_disturbance (store self channel (with_heating ch heating)) (DFloat 0))
    end
  else (Returned (), set_disturbance self (DFloat 0)).

(** [round(x, 2)], ties to the even neighbour. *)
Definition round2 (x : Q) : Q :=
  let y := (x * 100)%Q in
  let f := Qfloor y in
  let r := (y - inject_Z f)%Q in
  let n :=
    if Qlt_bool r (1 # 2) then f
    else if Qlt_bool (1 # 2) r then f + 1
    else if Z.even f then f else f + 1 in
  (inject_Z n / 100)%Q.

Record pid_params : Type := mk_params {
  p_kp : Q;
  p_ki : Q;
  p_kd : Q;
  p_target_temp : Q;
  p_control_period : Z;
  p_max_duty : Z
}.

Record channel_status : Type := mk_status {
  s_id : Z;
  s_temperature : Q;
  s_pid_params : pid_params;
  s_heating : bool
}.

(** The body of the loop of [get_current_state] for channel [i]. *)
Definition channel_state (self : t) (i : Z) (current_time noise : Q)
    : run channel_status :=
  match channels self !! i with
  | None => (Raised KeyError, self)
  | Some _ =>
      match _calculate_next_temp self i current_time noise with
      | (Raised e, self1) => (Raised e, self1)
      | (Returned temp, self1) =>
          match channels self1 !! i with
          | None => (Raised KeyError, self1)
          | Some ch =>
              let ch' := with_current_temp ch temp in
              (Returned
                 (mk_status i (round2 (current_temp ch'))
                    (mk_params (kp ch') (ki ch') (kd ch') (target_temp ch')
                       (control_period ch') (max_duty ch'))
                    (heating ch')),
               store self1 i ch')
          end
      end
  end.

(** [get_current_state()]: the [channels] list of the reply.  [clock i]
    and [noise i] are the readings taken while channel [i] is served. *)
Fixpoint get_current_state_loop (self : t) (ids : list Z) (clock noise : Z -> Q)
    : run (list channel_status) :=
  match ids with
  | [] => (Returned [], self)
  | i :: rest =>
      match channel_state self i (clock i) (noise i) with
      | (Raised e, self1) => (Raised e, self1)
      | (Returned st, self1) =>
          match get_current_state_loop self1 rest clock noise with
          | (Raised e, self2) => (Raised e, self2)
          | (Returned sts, self2) => (Returned (st :: sts), self2)
          end
      end
  end.

Definition get_current_state (self : t) (clock noise : Z -> Q)
    : run (list channel_status) :=
  get_current_state_loop self (seqZ 0 (num_channels self)) clock noise.

(** [add_disturbance(channel, magnitude)]; [draw] is the value of
    [np.random.randn()], which is taken whatever happens next. *)
Definition add_disturbance (self : t) (channel : Z) (magnitude draw : Q) : run unit :=
  if in_range channel (num_channels self) then
    match disturbance self with
    | DFloat _ => (Raised TypeError, self)
    | DDict d =>
        (Returned (), set_disturbance self (DDict (<[channel := (magnitude * draw)%Q]> d)))
    end
  else (Returned (), self).

End MockPIDSystem.

(** ** Python text primitives used by the wire protocol

    Text is a [string] of bytes (UTF-8).  [str.strip], [str.split] and
    [int] are modelled on ASCII: digits and white space outside ASCII are
    not recognised. *)

Module PyStr.

Definition is_space (c : ascii) : bool :=
  let n := nat_of_ascii c in
  ((9 <=? n) && (n <=? 13) || (28 <=? n) && (n <=? 32))%nat.

Definition is_digit (c : ascii) : bool :=
  let n := nat_of_ascii c in ((48 <=? n) && (n <=? 57))%nat.

Definition digit_val (c : ascii) : Z := Z.of_nat (nat_of_ascii c) - 48.

Fixpoint lstrip (s : string) : string :=
  match s with
  | String c r => if is_space c then lstrip r else s
  | EmptyString => EmptyString
  end.

Fixpoint rstrip (s : string) : string :=
  match s with
  | String c r =>
      match rstrip r with
      | EmptyString => if is_space c then EmptyString else String c EmptyString
      | r' => String c r'
      end
  | EmptyString => EmptyString
  end.

Definition strip (s : string) : string := rstrip (lstrip s).

(** [s.split(sep)] for a one-character separator: never empty. *)
Fixpoint split (sep : ascii) (s : string) : list string :=
  match s with
  | EmptyString => [EmptyString]
  | String c r =>
      if Ascii.eqb c sep then EmptyString :: split sep r
      else
        match split sep r with
        | p :: ps => String c p :: ps
        | [] => [String c EmptyString]
        end
  end.

(** Digits with single underscores between them, as [int] and [float]
    accept them; the value read so far is [acc]. *)
Fixpoint digits_from (s : string) (acc : Z) : option Z :=
  match s with
  | EmptyString => Some acc
  | String c r =>
      if is_digit c then digits_from r (acc * 10 + digit_val c)
      else if Ascii.eqb c "_" then
        match r with
        | String d _ => if is_digit d then digits_from r acc else None
        | EmptyString => None
        end
      else None
  end.

Definition digits (s : string) : option Z :=
  match s with
  | String c _ => if is_digit c then digits_from s 0 else None
  | EmptyString => None
  end.

(** An optional sign in front of [body]. *)
Definition signed {A : Type} (body : string -> option A) (neg : A -> A)
    (s : string) : option A :=
  match s with
  | String c r =>
      if Ascii.eqb c "+" then body r
      else if Ascii.eqb c "-" then neg <$> body r
      else body s
  | EmptyString => body s
  end.

(** [int(s)] in base ten; [None] is the [ValueError]. *)
Definition int (s : string) : option Z := signed digits Z.opp (strip s).

(** The digits of a fraction: value and number of digits read. *)
Fixpoint frac_from (s : string) (acc : Z) (n : nat) : option (Z * nat) :=
  match s with
  | EmptyString => Some (acc, n)
  | String c r =>
      if is_digit c then frac_from r (acc * 10 + digit_val c) (S n)
      else if Ascii.eqb c "_" then
        match r with
        | String d _ => if is_digit d then frac_from r acc n else None
        | EmptyString => None
        end
      else None
  end.

Definition pow10 (e : Z) : Q :=
  if 0 <=? e then inject_Z (10 ^ e) else (1 / inject_Z (10 ^ (- e)))%Q.

(** The part of a float literal before the exponent: [12], [12.], [12.5]
    or [.5]. *)
Definition mantissa (s : string) : option Q :=
  match split "." s with
  | [i] => inject_Z <$> digits i
  | [i; f] =>
      match i, f with
      | EmptyString, EmptyString => None
      | _, _ =>
          match (if decide (i = EmptyString) then Some 0 else digits i),
                (if decide (f = EmptyString) then Some (0, 0%nat)
                 else match f with
                      | String c _ => if is_digit c then frac_from f 0 0 else None
                      | EmptyString => None
                      end) with
          | Some iv, Some (fv, n) =>
              Some (inject_Z iv + inject_Z fv * pow10 (- Z.of_nat n))%Q
          | _, _ => None
          end
      end
  | _ => None
  end.

Definition to_lower (c : ascii) : ascii :=
  let n := nat_of_ascii c in
  if ((65 <=? n) && (n <=? 90))%nat then ascii_of_nat (n + 32) else c.

Fixpoint lower (s : string) : string :=
  match s with
  | EmptyString => EmptyString
  | String c r => String (to_lower c) (lower r)
  end.

Definition unsigned_float (s : string) : option Q :=
  match split "e" (lower s) with
  | [m] => mantissa m
  | [m; e] =>
      match mantissa m, signed digits Z.opp e with
      | Some mv, Some ev => Some (mv * pow10 ev)%Q
      | _, _ => None
      end
  | _ => None
  end.

(** [float(s)] on decimal literals; [None] is the [ValueError].  The
    literals [inf] and [nan] have no rational value and are not read. *)
Definition float (s : string) : option Q := signed unsigned_float Qopp (strip s).

(** [bytes.decode()]: whether the bytes are well-formed UTF-8. *)
Fixpoint utf8_valid (fuel : nat) (s : string) : bool :=
  match fuel with
  | O => false
  | S fuel =>
      let cont c := let n := N_of_ascii c in ((128 <=? n) && (n <=? 191))%N in
      let between c lo hi := let n := N_of_ascii c in ((lo <=? n) && (n <=? hi))%N in
      match s with
      | EmptyString => true
      | String a r =>
          let n := N_of_ascii a in
          if (n <? 128)%N then utf8_valid fuel r
          else if ((194 <=? n) && (n <=? 223))%N then
            match r with
            | String b r' => cont b && utf8_valid fuel r'
            | _ => false
            end
          else if ((224 <=? n) && (n <=? 239))%N then
            match r with
            | String b (String c r') =>
                (if (n =? 224)%N then between b 160%N 191%N
                 else if (n =? 237)%N then between b 128%N 159%N
                 else cont b)
                && cont c && utf8_valid fuel r'
            | _ => false
            end
          else if ((240 <=? n) && (n <=? 244))%N then
            match r with
            | String b (String c (String d r')) =>
                (if (n =? 240)%N then between b 144%N 191%N
                 else if (n =? 244)%N then between b 128%N 143%N
                 else cont b)
                && cont c && cont d && utf8_valid fuel r'
            | _ => false
            end
          else false
      end
  end.

Definition decodes (s : string) : bool := utf8_valid (S (String.length s)) s.

End PyStr.

(** ** The [json] library: values and [json.loads]

    What [json.loads] returns for a text: [None] stands for the
    [JSONDecodeError].  The text is scanned as the library's decoder does
    (white space is space, tab, line feed and carriage return; strings are
    strict: no control characters; a number is an optional minus sign, an
    integer part without leading zeros, an optional fraction and an optional
    exponent; [NaN], [Infinity] and [-Infinity] are accepted).  The limits
    of the interpreter (depth of recursion, length of an integer literal)
    are not modelled. *)

Module Json.

Inductive nonfinite : Type := NaN | PosInf | NegInf.

Inductive value : Type :=
  | JNull
  | JBool (b : bool)
  | JInt (z : Z)
  | JFloat (q : Q)
  | JNonFinite (k : nonfinite)
  | JStr (s : string)
  | JArr (l : list value)
  | JObj (kv : list (string * value)).

(** [d[k] = v] on a dict kept in insertion order. *)
Fixpoint dict_set (kv : list (string * value)) (k : string) (v : value)
    : list (string * value) :=
  match kv with
  | [] => [(k, v)]
  | (k', v') :: rest =>
      if String.eqb k' k then (k', v) :: rest
      else (k', v') :: dict_set rest k v
  end.

(** [d.get(k)] *)
Fixpoint dict_get (kv : list (string * value)) (k : string) : option value :=
  match kv with
  | [] => None
  | (k', v') :: rest => if String.eqb k' k then Some v' else dict_get rest k
  end.

(** [k in d] *)
Definition has_key (kv : list (string * value)) (k : string) : bool :=
  match dict_get kv k with Some _ => true | None => false end.

(** The truth value of [if data:]. *)
Definition truthy (v : value) : bool :=
  match v with
  | JNull => false
  | JBool b => b
  | JInt z => negb (z =? 0)
  | JFloat q => negb (Qeq_bool q 0)
  | JNonFinite _ => true
  | JStr s => negb (String.eqb s "")
  | JArr l => match l with [] => false | _ => true end
  | JObj kv => match kv with [] => false | _ => true end
  end.

Definition dquote : ascii := "034".

Definition is_ws (c : ascii) : bool :=
  Ascii.eqb c " " || Ascii.eqb c "009" || Ascii.eqb c "010" || Ascii.eqb c "013".

Fixpoint skip_ws (s : string) : string :=
  match s with
  | String c r => if is_ws c then skip_ws r else s
  | EmptyString => EmptyString
  end.

(** [s.startswith(p)], giving the rest. *)
Fixpoint strip_prefix (p s : string) : option string :=
  match p, s with
  | EmptyString, _ => Some s
  | String a p', String b s' => if Ascii.eqb a b then strip_prefix p' s' else None
  | String _ _, EmptyString => None
  end.

Definition hex_val (c : ascii) : option N :=
  let n := N_of_ascii c in
  if ((48 <=? n) && (n <=? 57))%N then Some (n - 48)%N
  else if ((97 <=? n) && (n <=? 102))%N then Some (n - 87)%N
  else if ((65 <=? n) && (n <=? 70))%N then Some (n - 55)%N
  else None.

(** The four hex digits of a [\u] escape. *)
Definition hex4 (s : string) : option (N * string) :=
  match s with
  | String a (String b (String c (String d r))) =>
      match hex_val a, hex_val b, hex_val c, hex_val d with
      | Some x, Some y, Some z, Some w =>
          Some (((x * 16 + y) * 16 + z) * 16 + w, r)%N
      | _, _, _, _ => None
      end
  | _ => None
  end.

(** The bytes of a code point. *)
Definition utf8 (cp : N) : string :=
  let byte n := String (ascii_of_N n) EmptyString in
  if (cp <? 128)%N then byte cp
  else if (cp <? 2048)%N then
    byte (192 + cp / 64)%N ++ byte (128 + cp mod 64)%N
  else if (cp <? 65536)%N then
    byte (224 + cp / 4096)%N ++ byte (128 + (cp / 64) mod 64)%N
    ++ byte (128 + cp mod 64)%N
  else
    byte (240 + cp / 262144)%N ++ byte (128 + (cp / 4096) mod 64)%N
    ++ byte (128 + (cp / 64) mod 64)%N ++ byte (128 + cp mod 64)%N.

(** The characters of a string literal after its opening quote. *)
Fixpoint scan_string (fuel : nat) (s : string) (acc : string)
    : option (string * string) :=
  match fuel with
  | O => None
  | S fuel =>
      match s with
      | EmptyString => None
      | String c r =>
          if Ascii.eqb c dquote then Some (acc, r)
          else if (N_of_ascii c <? 32)%N then None
          else if Ascii.eqb c "\" then
            match r with
            | String e r' =>
                let plain ch := scan_string fuel r' (acc ++ String ch EmptyString) in
                if Ascii.eqb e dquote then plain dquote
                else if Ascii.eqb e "\" then plain "\"%char
                else if Ascii.eqb e "/" then plain "/"%char
                else if Ascii.eqb e "b" then plain "008"%char
                else if Ascii.eqb e "f" then plain "012"%char
                else if Ascii.eqb e "n" then plain "010"%char
                else if Ascii.eqb e "r" then plain "013"%char
                else if Ascii.eqb e "t" then plain "009"%char
                else if Ascii.eqb e "u" then
                  match hex4 r' with
                  | Some (hi, r2) =>
                      let single := scan_string fuel r2 (acc ++ utf8 hi) in
                      if ((55296 <=? hi) && (hi <=? 56319))%N then
                        match strip_prefix "\u" r2 with
                        | Some r3 =>
                            match hex4 r3 with
                            | Some (lo, r4) =>
                                if ((56320 <=? lo) && (lo <=? 57343))%N
                                then scan_string fuel r4
                                       (acc ++ utf8 (65536 + (hi - 55296) * 1024
                                                     + (lo - 56320))%N)
                                else single
                            | None => single
                            end
                        | None => single
                        end
                      else single
                  | None => None
                  end
                else None
            | EmptyString => None
            end
          else scan_string fuel r (acc ++ String c EmptyString)
      end
  end.

(** A run of digits: its value, its length and the rest. *)
Fixpoint scan_digits (s : string) (acc : Z) (n : nat) : Z * nat * string :=
  match s with
  | String c r =>
      if PyStr.is_digit c then scan_digits r (acc * 10 + PyStr.digit_val c) (S n)
      else (acc, n, s)
  | EmptyString => (acc, n, s)
  end.

(** A number literal without its sign. *)
Definition scan_number (s : string) : option (value * string) :=
  let '(ipart, r0) :=
    match s with
    | String "0" r => (Some 0, r)
    | String c _ =>
        if PyStr.is_digit c
        then let '(v, _, r) := scan_digits s 0 0 in (Some v, r)
        else (None, s)
    | EmptyString => (None, s)
    end in
  match ipart with
  | None => None
  | Some iv =>
      let '(frac, r1) :=
        match r0 with
        | String "." r =>
            let '(fv, n, r') := scan_digits r 0 0 in
            match n with
            | O => (None, r0)
            | _ => (Some (inject_Z fv * PyStr.pow10 (- Z.of_nat n))%Q, r')
            end
        | _ => (None, r0)
        end in
      let '(expo, r2) :=
        match r1 with
        | String c r =>
            if Ascii.eqb c "e" || Ascii.eqb c "E" then
              let '(sign, rs) :=
                match r with
                | String "+" r' => (1, r')
                | String "-" r' => (-1, r')
                | _ => (1, r)
                end in
              let '(ev, n, r') := scan_digits rs 0 0 in
              match n with
              | O => (None, r1)
              | _ => (Some (sign * ev), r')
              end
            else (None, r1)
        | EmptyString => (None, r1)
        end in
      match frac, expo with
      | None, None => Some (JInt iv, r2)
      | _, _ =>
          let f := default 0%Q frac in
          let e := default 0%Z expo in
          Some (JFloat ((inject_Z iv + f) * PyStr.pow10 e)%Q, r2)
      end
  end.

Definition negate (v : value) : value :=
  match v with
  | JInt z => JInt (- z)
  | JFloat q => JFloat (- q)%Q
  | other => other
  end.

Fixpoint scan_value (fuel : nat) (s : string) : option (value * string) :=
  match fuel with
  | O => None
  | S fuel =>
      match s with
      | String "{" r =>
          match skip_ws r with
          | String "}" r' => Some (JObj [], r')
          | r' => scan_members fuel r' []
          end
      | String "[" r =>
          match skip_ws r with
          | String "]" r' => Some (JArr [], r')
          | r' => scan_elements fuel r' []
          end
      | String "n" _ => (fun r => (JNull, r)) <$> strip_prefix "null" s
      | String "t" _ => (fun r => (JBool true, r)) <$> strip_prefix "true" s
      | String "f" _ => (fun r => (JBool false, r)) <$> strip_prefix "false" s
      | String "N" _ => (fun r => (JNonFinite NaN, r)) <$> strip_prefix "NaN" s
      | String "I" _ => (fun r => (JNonFinite PosInf, r)) <$> strip_prefix "Infinity" s
      | String "-" r =>
          match strip_prefix "Infinity" r with
          | Some r' => Some (JNonFinite NegInf, r')
          | None =>
              match scan_number r with
              | Some (v, r') => Some (negate v, r')
              | None => None
              end
          end
      | String c r =>
          if Ascii.eqb c dquote then
            match scan_string (S (String.length r)) r "" with
            | Some (str, r') => Some (JStr str, r')
            | None => None
            end
          else scan_number s
      | EmptyString => None
      end
  end
with scan_elements (fuel : nat) (s : string) (acc : list value)
    : option (value * string) :=
  match fuel with
  | O => None
  | S fuel =>
      match scan_value fuel s with
      | Some (v, r) =>
          match skip_ws r with
          | String "]" r' => Some (JArr (acc ++ [v]), r')
          | String "," r' => scan_elements fuel (skip_ws r') (acc ++ [v])
          | _ => None
          end
      | None => None
      end
  end
with scan_members (fuel : nat) (s : string) (acc : list (string * value))
    : option (value * string) :=
  match fuel with
  | O => None
  | S fuel =>
      match s with
      | String c r =>
          if Ascii.eqb c dquote then
            match scan_string (S (String.length r)) r "" with
            | Some (key, r1) =>
                match skip_ws r1 with
                | String ":" r2 =>
                    match scan_value fuel (skip_ws r2) with
                    | Some (v, r3) =>
                        match skip_ws r3 with
                        | String "}" r4 => Some (JObj (dict_set acc key v), r4)
                        | String "," r4 =>
                            scan_members fuel (skip_ws r4) (dict_set acc key v)
                        | _ => None
                        end
                    | None => None
                    end
                | _ => None
                end
            | None => None
            end
          else None
      | EmptyString => None
      end
  end.

Definition loads (s : string) : option value :=
  match scan_value (2 * String.length s + 2) (skip_ws s) with
  | Some (v, r) =>
      match skip_ws r with
      | EmptyString => Some v
      | String _ _ => None
      end
  | None => None
  end.

End Json.

(** ** core/utils/data_logger.py: [log_data]

    [log_data] is handed the snapshot that [get_status] decoded and keeps
    the values of its entries as they come, whatever their types.  It is
    modelled on the store as written, lists of records of JSON values; the
    records of [DataLogger] are the rows a data frame has for stored
    records whose entries are numbers. *)

Module LogData.

Import Json.

Record stored : Type := mk_stored {
  temperature : value;
  target_temp : value;
  kp : value;
  ki : value;
  kd : value;
  heating : value;
  timestamp : value
}.

Record t : Type := mk {
  num_channels : Z;
  data : gmap Z (list stored)
}.

(** [__init__(num_channels)] *)
Definition init (n : Z) : t :=
  mk n (list_to_map ((fun i => (i, [])) <$> seqZ 0 n)).

(** [channel_id is not None and 0 <= channel_id < self.num_channels];
    [TypeError] when the id does not compare with an int.  A comparison
    with not-a-number is false, and an infinity fails one of the two. *)
Definition id_in_range (channel_id : value) (n : Z) : outcome bool :=
  match channel_id with
  | JNull => Returned false
  | JInt z => Returned (in_range z n)
  | JBool b => Returned (in_range (if b then 1 else 0) n)
  | JFloat q => Returned (Qle_bool 0 q && Qlt_bool q (inject_Z n))
  | JNonFinite _ => Returned false
  | JStr _ | JArr _ | JObj _ => Raised TypeError
  end.

(** The int key of [self.data] that an id selects: the int itself, or the
    int a bool or a float is equal to; a float with a fractional part is
    equal to no key. *)
Definition data_key (channel_id : value) : option Z :=
  match channel_id with
  | JInt z => Some z
  | JBool b => Some (if b then 1 else 0)
  | JFloat q =>
      if Qnum q mod Z.pos (Qden q) =? 0 then Some (Qnum q / Z.pos (Qden q)) else None
  | _ => None
  end.

(** The body of the loop for one element of [channels].  [ch.get] raises
    [AttributeError] unless [ch] is a dict, and so does the [get] on
    [pid_params] unless that is a dict; the record is built before the
    series is looked up. *)
Definition log_entry (self : t) (ch : value) (timestamp : value) : outcome unit * t :=
  match ch with
  | JObj kv =>
      let channel_id := default JNull (dict_get kv "id") in
      match id_in_range channel_id (num_channels self) with
      | Raised e => (Raised e, self)
      | Returned false => (Returned (), self)
      | Returned true =>
          match default (JObj []) (dict_get kv "pid_params") with
          | JObj params =>
              let record :=
                mk_stored (default (JFloat 25) (dict_get kv "temperature"))
                  (default (JFloat 25) (dict_get params "target_temp"))
                  (default (JFloat 1) (dict_get params "kp"))
                  (default (JFloat (1 # 10)) (dict_get params "ki"))
                  (default (JFloat (5 # 100)) (dict_get params "kd"))
                  (default (JBool false) (dict_get kv "heating"))
                  timestamp in
              match data_key channel_id ≫= (fun k => pair k <$> data self !! k) with
              | Some (k, rows) =>
                  (Returned (),
                   mk (num_channels self) (<[k := (rows ++ [record])%list]> (data self)))
              | None => (Raised KeyError, self)
              end
          | _ => (Raised AttributeError, self)
          end
      end
  | _ => (Raised AttributeError, self)
  end.

(** The loop over [channels]; the records appended before an exception
    stay. *)
Fixpoint log_loop (self : t) (entries : list value) (timestamp : value)
    : outcome unit * t :=
  match entries with
  | [] => (Returned (), self)
  | ch :: rest =>
      match log_entry self ch timestamp with
      | (Returned _, self') => log_loop self' rest timestamp
      | (Raised e, self') => (Raised e, self')
      end
  end.

(** [log_data(channel_data)]; [now] is [datetime.now().isoformat()].  The
    two [get] calls raise [AttributeError] unless [channel_data] is a
    dict.  The [for] runs over a list; over a string or a dict it runs
    over characters or keys, on which [ch.get] raises [AttributeError],
    and anything else is not iterable. *)
Definition log_data (self : t) (channel_data : value) (now : string)
    : outcome unit * t :=
  match channel_data with
  | JObj kv =>
      let timestamp := default (JStr now) (dict_get kv "timestamp") in
      match default (JArr []) (dict_get kv "channels") with
      | JArr entries => log_loop self entries timestamp
      | JStr s =>
          if String.eqb s "" then (Returned (), self) else (Raised AttributeError, self)
      | JObj m =>
          match m with
          | [] => (Returned (), self)
          | _ => (Raised AttributeError, self)
          end
      | _ => (Raised TypeError, self)
      end
  | _ => (Raised AttributeError, self)
  end.

End LogData.

(** ** fastapi_app/utils/serial_comm.py: the simulated device and the
    serial manager *)

Module SerialComm.

(** *** [MockSerial] *)

Record mock_channel : Type := mk_mock_channel {
  temperature : Q;
  target_temp : Q;
  kp : Q;
  ki : Q;
  kd : Q;
  control_period : Z;
  max_duty : Z;
  heating : bool
}.

(** The dict written by [__init__], [write] and [reset]. *)
Definition fresh_channel : mock_channel :=
  mk_mock_channel 25 25 1 (1 # 10) (5 # 100) 100 80 false.

(** [last_update] is the clock reading, in seconds, that [__init__] and
    [readline] store. *)
Record MockSerial : Type := mk_mock {
  is_open : bool;
  channels : gmap Z mock_channel;
  last_update : Q;
  mock_num_channels : Z
}.

Definition update_interval : Q := 1 # 10.

(** [__init__(num_channels)], with [now] the clock at construction. *)
Definition mock_init (n : Z) (now : Q) : MockSerial :=
  mk_mock false (list_to_map ((fun i => (i, fresh_channel)) <$> seqZ 0 n)) now n.

Definition mock_open (self : MockSerial) : MockSerial :=
  mk_mock true (channels self) (last_update self) (mock_num_channels self).

Definition mock_close (self : MockSerial) : MockSerial :=
  mk_mock false (channels self) (last_update self) (mock_num_channels self).

Definition with_channels (self : MockSerial) (chs : gmap Z mock_channel) : MockSerial :=
  mk_mock (is_open self) chs (last_update self) (mock_num_channels self).

Definition with_last_update (self : MockSerial) (now : Q) : MockSerial :=
  mk_mock (is_open self) (channels self) now (mock_num_channels self).

(** The [HEAT] branch once the state is parsed. *)
Definition apply_heat (ch : mock_channel) (heating_state : bool) : mock_channel :=
  let temp :=
    if heating_state then (temperature ch + (1 # 10))%Q
    else if Qlt_bool 25 (temperature ch) then (temperature ch - (5 # 100))%Q
    else temperature ch in
  mk_mock_channel temp (target_temp ch) (kp ch) (ki ch) (kd ch)
    (control_period ch) (max_duty ch) heating_state.

(** The six values of the [PID] branch, [None] when one of the
    conversions raises [ValueError] or a subscript raises [IndexError]. *)
Definition parse_pid (params : list string)
    : option (Q * Q * Q * Q * Z * Z) :=
  p0 ← params !! 0%nat; kp ← PyStr.float p0;
  p1 ← params !! 1%nat; ki ← PyStr.float p1;
  p2 ← params !! 2%nat; kd ← PyStr.float p2;
  p3 ← params !! 3%nat; target ← PyStr.float p3;
  p4 ← params !! 4%nat; period ← PyStr.int p4;
  p5 ← params !! 5%nat; duty ← PyStr.int p5;
  Some (kp, ki, kd, target, period, duty).

Definition apply_pid (ch : mock_channel) (v : Q * Q * Q * Q * Z * Z) : mock_channel :=
  let '(kp, ki, kd, target, period, duty) := v in
  mk_mock_channel (temperature ch) target kp ki kd period duty (heating ch).

(** [write(data)]: the device-side command parser.  Every exception is
    caught inside, so the call always returns [len(data)]. *)
Definition write (self : MockSerial) (data : string) : Z * MockSerial :=
  let len := Z.of_nat (String.length data) in
  if negb (PyStr.decodes data) then (len, self) else
  let cmd := PyStr.strip data in
  let parts := PyStr.split ":" cmd in
  if (length parts <? 2)%nat then (len, self)
  else
    match parts !! 0%nat, parts !! 1%nat with
    | Some cmd_type, Some p1 =>
        match PyStr.int p1 with
        | None => (len, self)
        | Some channel_id =>
            let chs :=
              match channels self !! channel_id with
              | Some _ => channels self
              | None => <[channel_id := fresh_channel]> (channels self)
              end in
            let ch := default fresh_channel (chs !! channel_id) in
            let self1 := with_channels self chs in
            if String.eqb cmd_type "HEAT" then
              match parts !! 2%nat with
              | Some p2 =>
                  match PyStr.int p2 with
                  | Some v =>
                      let heating_state := negb (v =? 0) in
                      (len, with_channels self
                              (<[channel_id := apply_heat ch heating_state]> chs))
                  | None => (len, self1)
                  end
              | None => (len, self1)
              end
            else if String.eqb cmd_type "PID" then
              match parts !! 2%nat with
              | Some p2 =>
                  match parse_pid (PyStr.split "," p2) with
                  | Some v =>
                      (len, with_channels self (<[channel_id := apply_pid ch v]> chs))
                  | None => (len, self1)
                  end
              | None => (len, self1)
              end
            else (len, self1)
        end
    | _, _ => (len, self)
    end.

(** [add_disturbance(magnitude)]: every dict of [self.channels] has its
    temperature moved by [random.uniform(-magnitude, magnitude)], which is
    [a + (b - a) * random()]; [draw i] is the [random()] drawn for the
    dict under id [i]. *)
Definition uniform (a b u : Q) : Q := (a + (b - a) * u)%Q.

Definition disturb (magnitude u : Q) (ch : mock_channel) : mock_channel :=
  mk_mock_channel (temperature ch + uniform (- magnitude) magnitude u)%Q
    (target_temp ch) (kp ch) (ki ch) (kd ch)
    (control_period ch) (max_duty ch) (heating ch).

Definition mock_add_disturbance (self : MockSerial) (magnitude : Q) (draw : Z -> Q)
    : MockSerial :=
  with_channels self
    (map_imap (fun i ch => Some (disturb magnitude (draw i) ch)) (channels self)).

(** [reset()]: every id of [range(num_channels)] gets the fresh dict.  The
    [print] that follows the loop reads the loop variable, which is
    unbound when the range is empty. *)
Definition mock_reset (self : MockSerial) : outcome unit * MockSerial :=
  let self' :=
    with_channels self
      (foldl (fun chs i => <[i := fresh_channel]> chs) (channels self)
             (seqZ 0 (mock_num_channels self))) in
  if 0 <? mock_num_channels self then (Returned (), self')
  else (Raised UnboundLocalError, self').

Record channel_data : Type := mk_channel_data {
  cd_id : Z;
  cd_temperature : Q;
  cd_kp : Q;
  cd_ki : Q;
  cd_kd : Q;
  cd_target_temp : Q;
  cd_control_period : Z;
  cd_max_duty : Z;
  cd_heating : bool
}.

(** The drift [readline] applies to a channel before reporting it. *)
Definition drift (ch : mock_channel) : mock_channel :=
  let temp :=
    if heating ch then (temperature ch + (5 # 100))%Q
    else if Qlt_bool 25 (temperature ch) then (temperature ch - (2 # 100))%Q
    else temperature ch in
  mk_mock_channel temp (target_temp ch) (kp ch) (ki ch) (kd ch)
    (control_period ch) (max_duty ch) (heating ch).

Definition report (channel_id : Z) (ch : mock_channel) : channel_data :=
  mk_channel_data channel_id (temperature ch) (kp ch) (ki ch) (kd ch)
    (target_temp ch) (control_period ch) (max_duty ch) (heating ch).

(** The loop of [readline] over [range(num_channels)], which builds the
    [channels] list of the report; [Raised KeyError] when an id of the
    range has no dict. *)
Fixpoint readline_loop (self : MockSerial) (ids : list Z)
    : outcome (list channel_data) * MockSerial :=
  match ids with
  | [] => (Returned [], self)
  | i :: rest =>
      match channels self !! i with
      | None => (Raised KeyError, self)
      | Some ch =>
          let ch' := drift ch in
          let self1 := with_channels self (<[i := ch']> (channels self)) in
          match readline_loop self1 rest with
          | (Returned cds, self2) => (Returned (report i ch' :: cds), self2)
          | (Raised e, self2) => (Raised e, self2)
          end
      end
  end.

(** What [readline] hands back: the empty bytes, or the line that
    [json.dumps] writes for the dict with the clock reading as
    [timestamp], the [channels] list and [status] set to [running]. *)
Inductive reading : Type :=
  | NoLine
  | Line (timestamp : Q) (chans : list channel_data).

(** [readline()], with [now] the clock reading.  Within [update_interval]
    of the last update it returns the empty bytes and changes nothing;
    otherwise it stores the reading, lets every channel of the range
    drift and reports them.  The values serialised are floats, ints,
    bools and strings, on which [json.dumps] does not fail. *)
Definition readline (self : MockSerial) (now : Q) : outcome reading * MockSerial :=
  if Qlt_bool (now - last_update self) update_interval then (Returned NoLine, self)
  else
    match readline_loop (with_last_update self now)
            (seqZ 0 (mock_num_channels self)) with
    | (Returned cds, self') => (Returned (Line now cds), self')
    | (Raised e, self') => (Raised e, self')
    end.

(** *** [SerialManager] *)

Record SerialManager : Type := mk_manager {
  num_channels : Z;
  connection : option MockSerial;
  last_data : option Json.value
}.

Definition is_connected (self : SerialManager) : bool :=
  match connection self with
  | Some c => is_open c
  | None => false
  end.

(** What [connection.readline()] handed back. *)
Inductive wire_line : Type :=
  | WBytes (b : string)
  | WDict (d : list (string * Json.value))
  | WOther (truth : bool) (str : string).

Definition line_truthy (line : wire_line) : bool :=
  match line with
  | WBytes b => negb (String.eqb b "")
  | WDict d => match d with [] => false | _ => true end
  | WOther truth _ => truth
  end.

(** The inner [try] of [get_status]: the decoded data, [None] when an
    exception was caught. *)
Definition decode (line : wire_line) : option Json.value :=
  match line with
  | WBytes b => if PyStr.decodes b then Json.loads b else None
  | WDict d => Some (Json.JObj d)
  | WOther _ str => Json.loads str
  end.

Definition with_last_data (self : SerialManager) (d : Json.value) : SerialManager :=
  mk_manager (num_channels self) (connection self) (Some d).

(** [get_status()].  [line] is what the connection's [readline] gave and
    [now] the formatted [datetime.now()]. *)
Definition get_status (self : SerialManager) (line : wire_line) (now : string)
    : outcome Json.value * SerialManager :=
  if negb (is_connected self)
  then (Raised (Exception "Device not connected"), self)
  else
    let fallback :=
      match last_data self with
      | Some d => (Returned d, self)
      | None =>
          let d := Json.JObj [("timestamp", Json.JStr now);
                              ("channels", Json.JArr [])] in
          (Returned d, with_last_data self d)
      end in
    if line_truthy line then
      match decode line with
      | Some data =>
          if Json.truthy data then (Returned data, with_last_data self data)
          else fallback
      | None => fallback
      end
    else fallback.

(** [send_command(cmd)], the later of the two definitions of the class. *)
Definition send_command (self : SerialManager) (cmd : string)
    : bool * SerialManager :=
  match connection self with
  | None => (false, self)
  | Some c =>
      if negb (is_open c) then (false, self)
      else
        let '(_, c') := write c (cmd ++ String "010" EmptyString) in
        (true, mk_manager (num_channels self) (Some c') (last_data self))
  end.

(** [str] of an [Optional[int]], as an f-string places it in a text. *)
Definition str_opt_int (v : option Z) : string :=
  match v with
  | Some z => pretty z
  | None => "None"
  end.

Section Commands.

(** [str] of a float, as an f-string places it in the text. *)
Variable str_float : Q -> string.

(** The text [set_pid_params] builds. *)
Definition pid_text (channel : Z) (kp ki kd target_temp : Q)
    (control_period max_duty : Z) : string :=
  "PID:" ++ pretty channel ++ "," ++ str_float kp ++ "," ++ str_float ki
  ++ "," ++ str_float kd ++ "," ++ str_float target_temp
  ++ "," ++ pretty control_period ++ "," ++ pretty max_duty.

Definition set_pid_params (self : SerialManager) (channel : Z)
    (kp ki kd target_temp : Q) (control_period max_duty : Z)
    : bool * SerialManager :=
  if in_range channel (num_channels self) then
    let control_period := Z.max 10 (Z.min 1000 control_period) in
    let max_duty := Z.max 0 (Z.min 100 max_duty) in
    send_command self
      (pid_text channel kp ki kd target_temp control_period max_duty)
  else (false, self).

(** The text [update_channel_pid] of routes/device_router.py builds.  The
    [control_period] and [max_duty] of [PIDParams] are [Optional[int]]: a
    request may carry [null] for them, and the f-string then prints
    [None]. *)
Definition router_pid_text (channel_id : Z) (kp ki kd target_temp : Q)
    (control_period max_duty : option Z) : string :=
  "PID:" ++ pretty channel_id ++ ":" ++ str_float kp ++ "," ++ str_float ki
  ++ "," ++ str_float kd ++ "," ++ str_float target_temp
  ++ "," ++ str_opt_int control_period ++ "," ++ str_opt_int max_duty.

End Commands.

Definition start_heating (self : SerialManager) (channel : Z) : bool * SerialManager :=
  if in_range channel (num_channels self)
  then send_command self ("HEAT:" ++ pretty channel ++ ":1")
  else (false, self).

Definition stop_heating (self : SerialManager) (channel : Z) : bool * SerialManager :=
  if in_range channel (num_channels self)
  then send_command self ("HEAT:" ++ pretty channel ++ ":0")
  else (false, self).

End SerialComm.

(** The examples write their JSON texts with ['] for the double quote. *)
Fixpoint dq (s : string) : string :=
  match s with
  | EmptyString => EmptyString
  | String c r => String (if Ascii.eqb c "'" then Json.dquote else c) (dq r)
  end.

(** ** core/utils/pid_optimizer.py: the optimizer around the advisor *)

Module PIDOptimizer.

Import Json.

(** What the prompt sent to the advisor is formatted from. *)
Record request : Type := mk_request {
  cur_kp : Q;
  cur_ki : Q;
  cur_kd : Q;
  cur_target_temp : Q;
  cur_temp : Q;
  cur_metrics : DataLogger.metrics
}.

Definition no_data_explanation : string := "没有足够的数据进行优化".
Definition failed_explanation : string := "参数优化失败，保持当前参数不变".

Definition result_dict (kp ki kd : Q) (explanation : string) : value :=
  JObj [("kp", JFloat kp); ("ki", JFloat ki); ("kd", JFloat kd);
        ("explanation", JStr explanation)].

(** [isinstance(v, (int, float))]; [bool] is a subclass of [int]. *)
Definition is_number (v : value) : bool :=
  match v with
  | JInt _ | JFloat _ | JNonFinite _ | JBool _ => true
  | _ => false
  end.

Definition is_str (v : value) : bool :=
  match v with
  | JStr _ => true
  | _ => false
  end.

(** [float(v)] raises [OverflowError] on an [int] beyond the doubles. *)
Definition float_overflows (v : value) : bool :=
  match v with
  | JInt z => 2 ^ 1024 - 2 ^ 970 <=? Z.abs z
  | _ => false
  end.

(** [np.clip(float(v), lo, hi)] on a value that passed [is_number]. *)
Definition clip_number (v : value) (lo hi : Q) : value :=
  match v with
  | JInt z => JFloat (Qclip (inject_Z z) lo hi)
  | JFloat q => JFloat (Qclip q lo hi)
  | JBool b => JFloat (Qclip (if b then 1 else 0) lo hi)
  | JNonFinite NaN => JNonFinite NaN
  | JNonFinite PosInf => JFloat hi
  | JNonFinite NegInf => JFloat lo
  | other => other
  end.

(** The body of the [try] once the response is decoded: the dict
    returned, or [None] when an exception is raised.  On a result that is
    not a dict the membership test or the subscript [result['kp']] raises
    whatever the value holds, so none gets through. *)
Definition validate (result : value) : option value :=
  match result with
  | JObj kv =>
      if forallb (has_key kv) ["kp"; "ki"; "kd"; "explanation"] then
        match dict_get kv "kp", dict_get kv "ki", dict_get kv "kd",
              dict_get kv "explanation" with
        | Some vkp, Some vki, Some vkd, Some vex =>
            if is_number vkp && is_number vki && is_number vkd && is_str vex then
              if float_overflows vkp then None
              else
                let kv1 := dict_set kv "kp" (clip_number vkp (1 # 10) 100) in
                if float_overflows vki then None
                else
                  let kv2 := dict_set kv1 "ki" (clip_number vki 0 10) in
                  if float_overflows vkd then None
                  else Some (JObj (dict_set kv2 "kd" (clip_number vkd 0 10)))
            else None
        | _, _, _, _ => None
        end
      else None
  | _ => None
  end.

(** The whole [try]: decode the advisor's text, then validate. *)
Definition parse_response (content : string) : option value :=
  loads content ≫= validate.

Section Advisor.

(** [self.llm.invoke(...)]: the text of the reply, or the exception of
    the call. *)
Variable llm : request -> outcome string.

(** [optimize_params(channel, data_logger, hours)].  [now1] and [now2]
    are the clock readings of the two look-ups of the window.  Next to
    the result comes the list of requests sent to the advisor. *)
Definition optimize_params (channel : Z) (data_logger : DataLogger.t)
    (hours : option Q) (now1 now2 : Q) : outcome value * list request :=
  match DataLogger.get_channel_data data_logger channel hours now1 with
  | Raised e => (Raised e, [])
  | Returned df =>
      match last df with
      | None =>
          (Returned (result_dict 1 (1 # 10) (5 # 100) no_data_explanation), [])
      | Some row =>
          match DataLogger.get_channel_metrics data_logger channel hours now2 with
          | Raised e => (Raised e, [])
          | Returned metrics =>
              let req :=
                mk_request (DataLogger.kp row) (DataLogger.ki row)
                  (DataLogger.kd row) (DataLogger.target_temp row)
                  (DataLogger.temperature row) metrics in
              match llm req with
              | Raised e => (Raised e, [req])
              | Returned content =>
                  match parse_response content with
                  | Some result => (Returned result, [req])
                  | None =>
                      (Returned
                         (result_dict (DataLogger.kp row) (DataLogger.ki row)
                            (DataLogger.kd row) failed_explanation),
                       [req])
                  end
              end
          end
      end
  end.

End Advisor.

End PIDOptimizer.

(** ** tests/mock_serial.py: the serial front of the simulated plant *)

Module TestMockSerial.

Record t : Type := mk {
  is_open : bool;
  pid_system : MockPIDSystem.t
}.

(** [s.startswith(p)] *)
Definition startswith (p s : string) : bool :=
  match Json.strip_prefix p s with
  | Some _ => true
  | None => false
  end.

(** [kp, ki, kd, target = map(float, params[1:])]: four values exactly,
    each a float; [None] is the [ValueError] of a conversion or of the
    unpacking. *)
Definition unpack_gains (params : list string) : option (Q * Q * Q * Q) :=
  match drop 1 params with
  | [a; b; c; d] =>
      kp ← PyStr.float a; ki ← PyStr.float b; kd ← PyStr.float c;
      target ← PyStr.float d; Some (kp, ki, kd, target)
  | _ => None
  end.

(** [write(data)]: the number answered and the object left. *)
Definition write (self : t) (data : string) : Z * t :=
  let len := Z.of_nat (String.length data) in
  if negb (is_open self) then (0, self)
  else if negb (PyStr.decodes data) then (0, self)
  else
    let command := PyStr.strip data in
    if startswith "PID:" command then
      match PyStr.split ":" command !! 1%nat with
      | None => (0, self)
      | Some body =>
          let params := PyStr.split "," body in
          match params !! 0%nat ≫= PyStr.int, unpack_gains params with
          | Some channel, Some (kp, ki, kd, target) =>
              match MockPIDSystem.update_params (pid_system self) channel
                      kp ki kd target 100 100 with
              | (Returned _, sys) => (len, mk (is_open self) sys)
              | (Raised _, sys) => (0, mk (is_open self) sys)
              end
          | _, _ => (0, self)
          end
      end
    else if startswith "HEAT_ON:" command || startswith "HEAT_OFF:" command then
      match PyStr.split ":" command with
      | [action; channel] =>
          match PyStr.int channel with
          | Some channel =>
              match MockPIDSystem.set_heating (pid_system self) channel
                      (String.eqb action "HEAT_ON") with
              | (Returned _, sys) => (len, mk (is_open self) sys)
              | (Raised _, sys) => (0, mk (is_open self) sys)
              end
          | None => (0, self)
          end
      | _ => (0, self)
      end
    else (0, self).

End TestMockSerial.

(** * Data of the examples *)

Definition sample (temp target : Q) (at_time : Q) : DataLogger.record :=
  DataLogger.mk_record temp target 2 (15 # 100) (5 # 100) true at_time.

(** A logger of four channels with two samples on channel 1 and one on
    channel 2. *)
Definition logger4 : DataLogger.t :=
  DataLogger.mk 4
    (<[1 := [sample 50 50 0; sample 100 50 1]]>
       (<[2 := [sample 40 50 0]]> (DataLogger.empty_data 4))).

(** A session log of [data_store.py] from its temperatures. *)
Definition pt (temp : Q) : DataStore.data_point := DataStore.mk_point temp [] "".

(** A plant of four channels; channel 0 tuned to a target of 50 degrees
    with a control period of one second, then switched to heating. *)
Definition plant0 : MockPIDSystem.t :=
  MockPIDSystem.init 4 (fun _ => 0%Q) (fun _ => 0%Q).

Definition plant_tuned : MockPIDSystem.t :=
  (MockPIDSystem.update_params plant0 0 2 (15 # 100) (5 # 100) 50 1000 90).2.

Definition plant_heating : MockPIDSystem.t :=
  (MockPIDSystem.set_heating plant_tuned 0 true).2.

Definition tuned_channel : MockPIDSystem.chan :=
  MockPIDSystem.mk_chan 25 50 2 (15 # 100) (5 # 100) 1000 90 false 0 0 0 0.

(** A simulated device of four channels, opened, and a manager connected
    to it. *)
Definition device4 : SerialComm.MockSerial :=
  SerialComm.mock_open (SerialComm.mock_init 4 0).

Definition manager4 : SerialComm.SerialManager :=
  SerialComm.mk_manager 4 (Some device4) None.

(** A float formatter for the examples: the decimal expansion, cut after
    17 fractional digits, with at least one of them; on numbers with a
    short expansion it prints what [str] prints ([2.0], [0.15]). *)
Fixpoint frac_digits (fuel : nat) (r d : Z) : string :=
  match fuel with
  | O => ""
  | S fuel =>
      if r =? 0 then ""
      else String (ascii_of_nat (Z.to_nat (48 + r * 10 / d)))
             (frac_digits fuel (r * 10 mod d) d)
  end.

Definition repr_decimal (q : Q) : string :=
  let n := Z.abs (Qnum q) in
  let d := Z.pos (Qden q) in
  let frac := frac_digits 17 (n mod d) d in
  (if Qnum q <? 0 then "-" else "")
  ++ pretty (n / d) ++ "." ++ (if String.eqb frac "" then "0" else frac).

(** Whether every character of a text satisfies [p]; whether one does. *)
Fixpoint all_chars (p : ascii -> bool) (s : string) : bool :=
  match s with
  | EmptyString => true
  | String c r => p c && all_chars p r
  end.

Fixpoint has_char (c : ascii) (s : string) : bool :=
  match s with
  | EmptyString => false
  | String c' r => Ascii.eqb c' c || has_char c r
  end.

(** A snapshot as the device sends it, a manager that holds it, and a
    telemetry line that is JSON but has no [channels] key. *)
Definition good_snapshot : Json.value :=
  Json.JObj
    [("timestamp", Json.JStr "2024-01-01T00:00:00");
     ("channels",
      Json.JArr
        [Json.JObj [("id", Json.JInt 0); ("temperature", Json.JFloat 25);
                    ("heating", Json.JBool false)]]);
     ("status", Json.JStr "running")].

Definition manager_with_snapshot : SerialComm.SerialManager :=
  SerialComm.mk_manager 4 (Some device4) (Some good_snapshot).

Definition line_without_channels : string :=
  dq "{'timestamp': '2024-01-01T00:00:01', 'status': 'running'}"
  ++ String "010" EmptyString.

Definition snapshot_without_channels : Json.value :=
  Json.JObj [("timestamp", Json.JStr "2024-01-01T00:00:01");
             ("status", Json.JStr "running")].

(** An advisor whose reply lacks [kd]. *)
Definition advisor_missing_kd (_ : PIDOptimizer.request) : outcome string :=
  Returned (dq "{'kp': 1.5, 'ki': 0.2, 'explanation': 'raise kp'}").

(** Every id of the range has a series: what [__init__] sets up. *)
Definition logger_wf (self : DataLogger.t) : Prop :=
  forall c, 0 <= c < DataLogger.num_channels self -> is_Some (DataLogger.data self !! c).














(** Time stamps that do not decrease along a window. *)
Definition time_ordered (df : list DataLogger.record) : Prop :=
  forall (i j : nat) ri rj, (i <= j)%nat -> df !! i = Some ri -> df !! j = Some rj ->
    (DataLogger.timestamp ri <= DataLogger.timestamp rj)%Q.

(** One call of a method of the plant, by the state it leaves. *)
Inductive plant_step (s s' : MockPIDSystem.t) : Prop :=
  | step_update_params (c : Z) (kp ki kd target : Q) (period duty : Z) :
      (MockPIDSystem.update_params s c kp ki kd target period duty).2 = s' ->
      plant_step s s'
  | step_set_heating (c : Z) (h : bool) :
      (MockPIDSystem.set_heating s c h).2 = s' -> plant_step s s'
  | step_reset (c : option Z) :
      (MockPIDSystem.reset s c).2 = s' -> plant_step s s'
  | step_add_disturbance (c : Z) (magnitude draw : Q) :
      (MockPIDSystem.add_disturbance s c magnitude draw).2 = s' -> plant_step s s'
  | step_next_temp (c : Z) (now noise : Q) :
      (MockPIDSystem._calculate_next_temp s c now noise).2 = s' -> plant_step s s'
  | step_current_state (clock noise : Z -> Q) :
      (MockPIDSystem.get_current_state s clock noise).2 = s' -> plant_step s s'.

(** The states the plant can be in after [__init__] and any calls. *)
Inductive plant_reachable : MockPIDSystem.t -> Prop :=
  | reach_init (n : Z) (clock clock' : Z -> Q) :
      plant_reachable (MockPIDSystem.init n clock clock')
  | reach_step (s s' : MockPIDSystem.t) :
      plant_reachable s -> plant_step s s' -> plant_reachable s'.

(** While the disturbance table is a dict no channel is heating. *)
Definition heating_needs_float (s : MockPIDSystem.t) : Prop :=
  match MockPIDSystem.disturbance s with
  | MockPIDSystem.DFloat _ => True
  | MockPIDSystem.DDict _ =>
      forall c ch, MockPIDSystem.channels s !! c = Some ch ->
                   MockPIDSystem.heating ch = false
  end.

(** A field of a command text: ASCII, without white space, colon or
    comma. *)
Definition clean_field (s : string) : bool :=
  all_chars (fun c => negb (PyStr.is_space c) && negb (Ascii.eqb c ":")
                      && negb (Ascii.eqb c ",") && (N_of_ascii c <? 128)%N) s.

(** No channel of the simulated device is colder than 24.95 degrees. *)
Definition mock_temp_floor (dev : SerialComm.MockSerial) : Prop :=
  forall j ch, SerialComm.channels dev !! j = Some ch ->
               (2495 # 100 <= SerialComm.temperature ch)%Q.

(** An open front over the plant of four channels, an advisor whose
    call fails, and a reply with gains outside the bounds. *)
Definition front4 : TestMockSerial.t := TestMockSerial.mk true plant0.


Definition wide_reply : Json.value :=
  Json.JObj [("kp", Json.JInt 500); ("ki", Json.JFloat (- (1)));
             ("kd", Json.JBool true); ("explanation", Json.JStr "why");
             ("confidence", Json.JFloat (9 # 10))].

(** The float a finite number of a reply converts to. *)
Definition number_value (v : Json.value) : option Q :=
  match v with
  | Json.JInt z => Some (inject_Z z)
  | Json.JFloat q => Some q
  | Json.JBool b => Some (if b then 1 else 0)%Q
  | _ => None
  end.

(** [got] is the gain [sent], as a float, brought to the nearest point of
    [lo, hi]: a finite number under [lo] gives [lo], one over [hi] gives
    [hi], one in between is kept; the infinities give the bound on their
    side and a not-a-number stays one. *)
Definition clipped_gain (lo hi : Q) (sent got : Json.value) : Prop :=
  (forall x, number_value sent = Some x ->
     exists q, got = Json.JFloat q
               /\ ((x < lo)%Q -> (q == lo)%Q)
               /\ ((lo <= x <= hi)%Q -> (q == x)%Q)
               /\ ((hi < x)%Q -> (q == hi)%Q))
  /\ (sent = Json.JNonFinite Json.NaN -> got = Json.JNonFinite Json.NaN)
  /\ (sent = Json.JNonFinite Json.PosInf -> got = Json.JFloat hi)
  /\ (sent = Json.JNonFinite Json.NegInf -> got = Json.JFloat lo).

(** A device whose channel 1 has been switched on and has drifted over
    one read. *)
Definition device_warm : SerialComm.MockSerial :=
  (SerialComm.readline (SerialComm.write device4 "HEAT:1:1").2 (1 # 2)).2.



(** * Properties *)

(** ** Shared facts *)

Lemma in_range_true (channel n : Z) :
  in_range channel n = true <-> 0 <= channel < n.
Proof. unfold in_range. rewrite andb_true_iff, Z.leb_le, Z.ltb_lt. tauto. Qed.

Lemma in_range_false (channel n : Z) :
  in_range channel n = false <-> ~ (0 <= channel < n).
Proof. rewrite <- in_range_true. destruct (in_range channel n); split; congruence. Qed.

(** ** The telemetry store *)

Section StoreFacts.

Import DataLogger.

(** C10.  [clear_channel_data] on an id of the range answers [True],
    leaves that channel's series empty and every other series as it was;
    on any other id it answers [False] and leaves the logger as it was.
    It has no exceptional exit: it is a total function to a pair. *)
Theorem clear_channel_data_frame (self : t) (channel : Z) :
  (0 <= channel < num_channels self ->
     (clear_channel_data self channel).1 = true
     /\ data (clear_channel_data self channel).2 !! channel = Some []
     /\ num_channels (clear_channel_data self channel).2 = num_channels self
     /\ forall other : Z, other <> channel ->
          data (clear_channel_data self channel).2 !! other = data self !! other)
  /\ (~ (0 <= channel < num_channels self) ->
     clear_channel_data self channel = (false, self)).
Proof.
  unfold clear_channel_data. split; intros Hr.
  - apply in_range_true in Hr. rewrite Hr. simpl.
    split; [reflexivity|]. split; [apply lookup_insert_eq|].
    split; [reflexivity|].
    intros other Hne. apply lookup_insert_ne. congruence.
  - apply in_range_false in Hr. rewrite Hr. reflexivity.
Qed.

End StoreFacts.

Lemma clear_channel_data_frame_witness :
  (DataLogger.clear_channel_data logger4 1).1 = true
  /\ DataLogger.data (DataLogger.clear_channel_data logger4 1).2 !! 1 = Some []
  /\ DataLogger.data (DataLogger.clear_channel_data logger4 1).2 !! 2
     = Some [sample 40 50 0]
  /\ DataLogger.clear_channel_data logger4 4 = (false, logger4).
Proof.
  destruct (clear_channel_data_frame logger4 1) as [Hin _].
  destruct (clear_channel_data_frame logger4 4) as [_ Hout].
  assert (Hr : 0 <= 1 < DataLogger.num_channels logger4) by (simpl; lia).
  destruct (Hin Hr) as (H1 & H2 & _ & H3).
  split; [exact H1|]. split; [exact H2|]. split.
  - rewrite H3 by lia. reflexivity.
  - apply Hout. simpl. lia.
Defined.

(** ** The analyzers *)

Section AnalyzerFacts.

(** The loop of [analyze_curve] ends without a settling time exactly when
    no sample at all lies in the band: a sample in the band gives a
    value even when a later one leaves the band. *)
Lemma settling_loop_none (target band : Q) (l : list Q) (i : nat) (acc : option nat) :
  DataStore.settling_loop target band i l acc = None
  <-> acc = None /\ forallb (fun x => negb (DataStore.in_band target band x)) l = true.
Proof.
  revert i acc. induction l as [|temp rest IH]; intros i acc; simpl.
  - tauto.
  - destruct (DataStore.in_band target band temp) eqn:Hb; simpl.
    + destruct (forallb (DataStore.in_band target band) rest).
      * split; [discriminate | intros [_ H]; discriminate].
      * rewrite IH. split; [intros [H _]; discriminate | intros [_ H]; discriminate].
    + rewrite IH. tauto.
Qed.

(** When the band is kept from sample [i] to the end and no earlier
    sample starts such a run, the loop answers that index. *)
Lemma settling_loop_sustained (target band : Q) (l : list Q) (i : nat) (acc : option nat) :
  forallb (DataStore.in_band target band) l = true -> l <> [] ->
  DataStore.settling_loop target band i l acc = Some i.
Proof.
  destruct l as [|temp rest]; [congruence|]. intros H _.
  simpl in *. apply andb_true_iff in H as [Ht Hr]. rewrite Ht, Hr. reflexivity.
Qed.

(** In [get_channel_metrics] the settling time is defined as soon as one
    sample lies in the band. *)
Lemma logger_settling_defined (df : list DataLogger.record) (r : DataLogger.record) :
  In r df ->
  (let target := DataLogger.target_temp (default r (last df)) in
   Qle_bool (target - (2 # 100) * target) (DataLogger.temperature r)
   && Qle_bool (DataLogger.temperature r) (target + (2 # 100) * target) = true) ->
  DataLogger.settling_time (DataLogger.metrics_of df) <> None.
Proof.
  intros Hin Hband. unfold DataLogger.metrics_of.
  destruct (last df) as [final|] eqn:Hl.
  2:{ destruct df; [destruct Hin|]. apply last_None in Hl. discriminate. }
  destruct (head df) as [first|] eqn:Hh.
  2:{ destruct df; [destruct Hin | discriminate]. }
  simpl in *. unfold DataLogger.first_index.
  match goal with |- context [List.find ?f df] => destruct (List.find f df) eqn:Hf end.
  - simpl. discriminate.
  - exfalso. apply (find_none _ _ Hf) in Hin. simpl in Hin. congruence.
Qed.

(** The overshoot of [get_channel_metrics] is negative whenever the
    maximum stays under a positive target. *)
Lemma logger_overshoot_negative (df : list DataLogger.record) (final : DataLogger.record) :
  last df = Some final ->
  (0 < DataLogger.target_temp final)%Q ->
  (Qlist_max (DataLogger.temperature <$> df) < DataLogger.target_temp final)%Q ->
  exists q, DataLogger.overshoot (DataLogger.metrics_of df) = Some q /\ (q < 0)%Q.
Proof.
  intros Hl Hpos Hmax. unfold DataLogger.metrics_of. rewrite Hl.
  destruct (head df) as [first|] eqn:Hh.
  2:{ destruct df; [discriminate Hl | discriminate Hh]. }
  simpl.
  destruct (Qeq_bool (DataLogger.target_temp final) 0) eqn:He.
  { apply Qeq_bool_eq in He. rewrite He in Hpos. exfalso. revert Hpos. apply Qlt_irrefl. }
  simpl. eexists. split; [reflexivity|].
  set (m := Qlist_max (DataLogger.temperature <$> df)) in *.
  set (tg := DataLogger.target_temp final) in *.
  assert (Hd : ((m - tg) / tg < 0)%Q).
  { apply Qlt_shift_div_r; [exact Hpos | lra]. }
  lra.
Qed.

(** [analyze_curve] with a target other than zero computes the overshoot
    the way the analyzer is described: the relative excess of the maximum
    when it is over the target, zero otherwise. *)
Lemma curve_overshoot_clamped (data : list DataStore.data_point) (target : Q) :
  data <> [] -> ~ (target == 0)%Q ->
  exists c, DataStore.analyze_curve data target = Returned c
    /\ DataStore.overshoot c
       = Some (if Qlt_bool target (Qlist_max (DataStore.temperature <$> data))
               then ((Qlist_max (DataStore.temperature <$> data) - target) / target * 100)%Q
               else 0%Q).
Proof.
  intros Hne Ht. unfold DataStore.analyze_curve.
  destruct data as [|d rest]; [congruence|].
  assert (He : Qeq_bool target 0 = false).
  { destruct (Qeq_bool target 0) eqn:E; [|reflexivity].
    apply Qeq_bool_eq in E. contradiction. }
  rewrite He, andb_false_r. eexists. split; reflexivity.
Qed.

(** C6.  A window whose first sample is on target and whose last sample
    is far outside the band: the band is not kept to the end of the
    window, and both analyzers still answer a number, [0], for the
    settling time. *)
Theorem settling_time_numeric_when_band_not_sustained :
  (exists m,
      DataLogger.get_channel_metrics logger4 1 None 0 = Returned m
      /\ DataLogger.settling_time m = Some 0%Q)
  /\ (exists c,
      DataStore.analyze_curve [pt 50; pt 100] 50 = Returned c
      /\ DataStore.settling_time c = Some 0%nat)
  /\ DataStore.in_band 50 (50 * (5 # 100)) 100 = false
  /\ Qle_bool 100 (50 + (2 # 100) * 50) = false.
Proof.
  split; [|split; [|split]].
  - eexists. split; [vm_compute; reflexivity | reflexivity].
  - eexists. split; [vm_compute; reflexivity | reflexivity].
  - reflexivity.
  - reflexivity.
Qed.

(** C7.  With every sample under the target [get_channel_metrics]
    answers a negative overshoot, [-20] percent for a maximum of 40 under a
    target of 50; and [analyze_curve] with target zero answers [0] or
    fails with a division by zero instead of leaving the overshoot
    undefined. *)
Theorem overshoot_negative_below_target :
  (exists m q,
      DataLogger.get_channel_metrics logger4 2 None 0 = Returned m
      /\ DataLogger.overshoot m = Some q /\ (q == -20)%Q /\ (q < 0)%Q)
  /\ (exists c,
      DataStore.analyze_curve [pt (-1)] 0 = Returned c
      /\ DataStore.overshoot c = Some 0%Q)
  /\ DataStore.analyze_curve [pt 1] 0 = Raised ZeroDivisionError.
Proof.
  split; [|split].
  - eexists. eexists. split; [vm_compute; reflexivity|].
    split; [reflexivity|]. split; reflexivity.
  - eexists. split; [vm_compute; reflexivity | reflexivity].
  - reflexivity.
Qed.

End AnalyzerFacts.

(** ** The simulated plant *)

Section PlantFacts.

Import MockPIDSystem.

Lemma round2_comp (x y : Q) : (x == y)%Q -> round2 x = round2 y.
Proof.
  intros H. unfold round2, Qlt_bool.
  assert (Hf : Qfloor (x * 100) = Qfloor (y * 100)) by (rewrite H; reflexivity).
  rewrite Hf.
  set (f := Qfloor (y * 100)).
  assert (H1 : Qle_bool (1 # 2) (x * 100 - inject_Z f)
               = Qle_bool (1 # 2) (y * 100 - inject_Z f)) by (rewrite H; reflexivity).
  assert (H2 : Qle_bool (x * 100 - inject_Z f) (1 # 2)
               = Qle_bool (y * 100 - inject_Z f) (1 # 2)) by (rewrite H; reflexivity).
  rewrite H1, H2. reflexivity.
Qed.

(** A step between two control ticks of a heating channel: the
    temperature handed back is the current one, and the channel is stored
    back with [error * dt] added to its integral. *)
Lemma hold_step (self : t) (c : Z) (ch : chan) (now noise : Q) :
  0 <= c < num_channels self ->
  channels self !! c = Some ch ->
  heating ch = true ->
  (sample_time <= now - last_time ch)%Q ->
  (now - last_control_time ch < inject_Z (control_period ch) / 1000)%Q ->
  _calculate_next_temp self c now noise
  = (Returned (current_temp ch),
     store self c
       (with_integral ch
          (integral ch + (target_temp ch - current_temp ch) * (now - last_time ch))%Q)).
Proof.
  intros Hr Hc Hh Hdt Hper. unfold _calculate_next_temp.
  apply in_range_true in Hr. rewrite Hr, Hc, Hh. simpl.
  assert (H1 : Qlt_bool (now - last_time ch) sample_time = false).
  { unfold Qlt_bool. apply negb_false_iff, Qle_bool_iff. exact Hdt. }
  rewrite H1.
  assert (H2 : Qlt_bool (now - last_control_time ch)
                 (inject_Z (control_period ch) / 1000) = true).
  { unfold Qlt_bool. apply negb_true_iff.
    destruct (Qle_bool (inject_Z (control_period ch) / 1000)
                (now - last_control_time ch)) eqn:E; [|reflexivity].
    apply Qle_bool_iff in E. exfalso. apply (Qlt_not_le _ _ Hper E). }
  rewrite H2. reflexivity.
Qed.

(** C5.  Channel 0 heats towards 50 degrees from 25 with a control period
    of one second.  A step 0.2 s after the last control tick hands back
    the unchanged temperature, and the integral has gone from 0 to 5; a
    second step at 0.4 s, still before the tick, takes it to 15. *)
Theorem hold_step_changes_integral :
  (integral <$> channels plant_heating !! 0) = Some 0%Q
  /\ (_calculate_next_temp plant_heating 0 (2 # 10) 0).1 = Returned 25%Q
  /\ (exists ch,
       channels (_calculate_next_temp plant_heating 0 (2 # 10) 0).2 !! 0 = Some ch
       /\ (integral ch == 5)%Q /\ last_error ch = 0%Q /\ last_control_time ch = 0%Q)
  /\ (exists ch,
       channels (_calculate_next_temp
                   (_calculate_next_temp plant_heating 0 (2 # 10) 0).2
                   0 (4 # 10) 0).2 !! 0 = Some ch
       /\ (integral ch == 15)%Q).
Proof.
  split; [vm_compute; reflexivity|].
  split; [vm_compute; reflexivity|].
  split.
  - eexists. split; [vm_compute; reflexivity|].
    split; [reflexivity|]. split; reflexivity.
  - eexists. split; [vm_compute; reflexivity|]. reflexivity.
Qed.

(** C8, as the code has it.  For an id outside the range
    [update_params] returns normally and leaves the whole plant as it
    was; [set_heating] returns normally and leaves every channel's dict
    and the channel count as they were, but its last statement stands
    outside the range guard, so the call still rebinds [self.disturbance]
    to the float [0.0] and the per-channel disturbance table is gone;
    [_calculate_next_temp] returns 25.0 and touches nothing, and the
    logger answers an empty window, empty metrics and [False] for a clear
    request: no access raises. *)
Theorem out_of_range_access_is_silent (self : t) (logger : DataLogger.t)
    (channel : Z) (kp ki kd target : Q) (period duty : Z) (h : bool)
    (hours : option Q) (now noise : Q) :
  ~ (0 <= channel < num_channels self) ->
  ~ (0 <= channel < DataLogger.num_channels logger) ->
  update_params self channel kp ki kd target period duty = (Returned (), self)
  /\ (set_heating self channel h).1 = Returned ()
  /\ channels (set_heating self channel h).2 = channels self
  /\ num_channels (set_heating self channel h).2 = num_channels self
  /\ disturbance (set_heating self channel h).2 = DFloat 0
  /\ _calculate_next_temp self channel now noise = (Returned 25%Q, self)
  /\ DataLogger.get_channel_data logger channel hours now = Returned []
  /\ DataLogger.get_channel_metrics logger channel hours now
     = Returned DataLogger.no_metrics
  /\ DataLogger.clear_channel_data logger channel = (false, logger).
Proof.
  intros Hs Hl. apply in_range_false in Hs, Hl.
  unfold update_params, set_heating, _calculate_next_temp,
    DataLogger.get_channel_metrics, DataLogger.get_channel_data,
    DataLogger.clear_channel_data.
  rewrite Hs, Hl. simpl. repeat (split; [reflexivity|]). reflexivity.
Qed.

End PlantFacts.

Lemma out_of_range_access_is_silent_witness :
  MockPIDSystem.update_params plant0 4 2 (15 # 100) (5 # 100) 50 100 100
  = (Returned (), plant0)
  /\ (MockPIDSystem.set_heating plant0 (-1) true).1 = Returned ()
  /\ MockPIDSystem.channels (MockPIDSystem.set_heating plant0 (-1) true).2
     = MockPIDSystem.channels plant0
  /\ MockPIDSystem.disturbance (MockPIDSystem.set_heating plant0 (-1) true).2
     = MockPIDSystem.DFloat 0
  /\ MockPIDSystem._calculate_next_temp plant0 4 1 0 = (Returned 25%Q, plant0)
  /\ DataLogger.get_channel_data logger4 4 None 1 = Returned [].
Proof.
  assert (H4 : ~ (0 <= 4 < MockPIDSystem.num_channels plant0)) by (simpl; lia).
  assert (Hm : ~ (0 <= -1 < MockPIDSystem.num_channels plant0)) by (simpl; lia).
  assert (L4 : ~ (0 <= 4 < DataLogger.num_channels logger4)) by (simpl; lia).
  destruct (out_of_range_access_is_silent plant0 logger4 4 2 (15 # 100) (5 # 100) 50
              100 100 true None 1 0 H4 L4) as (U & _ & _ & _ & _ & N & G & _).
  destruct (out_of_range_access_is_silent plant0 logger4 (-1) 2 (15 # 100) (5 # 100) 50
              100 100 true None 1 0 Hm) as (_ & S & C & _ & D & _).
  { simpl. lia. }
  split; [exact U|]. split; [exact S|]. split; [exact C|]. split; [exact D|].
  split; [exact N | exact G].
Defined.

(** C8, as stated, fails: an update, a heating switch and a temperature
    request for channel 4 of a four-channel plant all return without any
    error. *)
Lemma out_of_range_not_signaled :
  raises (MockPIDSystem.update_params plant0 4 2 (15 # 100) (5 # 100) 50 100 100).1
  = false
  /\ raises (MockPIDSystem.set_heating plant0 4 true).1 = false
  /\ raises (MockPIDSystem._calculate_next_temp plant0 4 1 0).1 = false
  /\ raises (DataLogger.get_channel_metrics logger4 4 None 1) = false.
Proof. repeat (split; [reflexivity|]). reflexivity. Qed.

(** ** Reset *)

Section ResetFacts.

Import MockPIDSystem.

(** What a status read reports for a channel that is at 25 degrees and
    not heating: 25 degrees, whatever the clock says. *)
Lemma idle_channel_state (self : t) (c : Z) (ch : chan) (now noise : Q) :
  0 <= c < num_channels self ->
  channels self !! c = Some ch ->
  current_temp ch = 25%Q -> heating ch = false ->
  exists st self',
    channel_state self c now noise = (Returned st, self')
    /\ s_id st = c
    /\ (s_temperature st == 25)%Q
    /\ s_heating st = false
    /\ s_pid_params st
       = mk_params (kp ch) (ki ch) (kd ch) (target_temp ch)
           (control_period ch) (max_duty ch).
Proof.
  intros Hr Hc Ht Hh. apply in_range_true in Hr.
  unfold channel_state, _calculate_next_temp. rewrite Hc, Hr. simpl.
  destruct (Qlt_bool (now - last_time ch) sample_time).
  - rewrite Hc. do 2 eexists. split; [reflexivity|]. simpl.
    rewrite Ht, Hh. repeat (split; [reflexivity|]). reflexivity.
  - rewrite Hh. simpl. unfold store at 1. simpl. rewrite lookup_insert_eq.
    do 2 eexists. split; [reflexivity|]. simpl.
    split; [reflexivity|]. split.
    + rewrite Ht.
      rewrite (round2_comp _ 25); [reflexivity|]. lra.
    + split; [exact Hh | reflexivity].
Qed.

Lemma mock_reset_lookup (ids : list Z) (chs : gmap Z SerialComm.mock_channel) (i : Z) :
  i ∈ ids ->
  foldl (fun m j => <[j := SerialComm.fresh_channel]> m) chs ids !! i
  = Some SerialComm.fresh_channel.
Proof.
  revert chs. induction ids as [|j rest IH] using rev_ind; intros chs Hi.
  - inversion Hi.
  - rewrite foldl_app. simpl. destruct (decide (j = i)) as [->|Hne].
    + apply lookup_insert_eq.
    + rewrite lookup_insert_ne by exact Hne. apply IH.
      apply elem_of_app in Hi as [Hi|Hi]; [exact Hi|].
      apply list_elem_of_singleton in Hi. congruence.
Qed.

(** The loop of [readline] over ids that all hold the fresh dict reports
    it for each and leaves the device as it is. *)
Lemma readline_fresh (ids : list Z) (dev : SerialComm.MockSerial) :
  (forall i, i ∈ ids -> SerialComm.channels dev !! i = Some SerialComm.fresh_channel) ->
  SerialComm.readline_loop dev ids
  = (Returned ((fun i => SerialComm.report i SerialComm.fresh_channel) <$> ids), dev).
Proof.
  induction ids as [|i rest IH]; intros Hall; simpl; [reflexivity|].
  rewrite (Hall i) by (left).
  assert (Hd : SerialComm.drift SerialComm.fresh_channel = SerialComm.fresh_channel)
    by reflexivity.
  rewrite Hd.
  assert (Hs : SerialComm.with_channels dev
                 (<[i := SerialComm.fresh_channel]> (SerialComm.channels dev)) = dev).
  { destruct dev as [o chs lu n]. unfold SerialComm.with_channels. simpl.
    f_equal. apply insert_id. apply (Hall i). left. }
  rewrite Hs. rewrite IH; [reflexivity|].
  intros j Hj. apply Hall. right. exact Hj.
Qed.

(** C4, as the code has it.  On the plant, [reset] of a channel of the
    range puts its temperature at 25.0, switches heating off and zeroes
    the integral, the last error and the disturbance; target, gains,
    control period and duty stay as they were, and the status read that
    follows reports just that.  On the simulated serial device with at
    least one channel, [reset] returns and leaves the time of the last
    update as it was; a read made at least [update_interval] (0.1 s)
    after that time reports 25.0 degrees, target 25.0, gains 1.0, 0.1 and
    0.05, period 100 and heating off for every channel of the range, with
    a duty of 80, and a read made sooner returns the empty line and
    reports nothing. *)
Theorem reset_then_status (self : t) (c : Z) (ch : chan) (d : gmap Z Q)
    (now noise : Q) (dev : SerialComm.MockSerial) (clock : Q) :
  0 <= c < num_channels self ->
  channels self !! c = Some ch ->
  disturbance self = DDict d ->
  0 < SerialComm.mock_num_channels dev ->
  (exists self' ch',
      reset self (Some c) = (Returned (), self')
      /\ disturbance self' = DDict (<[c := 0%Q]> d)
      /\ channels self' !! c = Some ch'
      /\ current_temp ch' = 25%Q /\ heating ch' = false
      /\ integral ch' = 0%Q /\ last_error ch' = 0%Q
      /\ target_temp ch' = target_temp ch
      /\ kp ch' = kp ch /\ ki ch' = ki ch /\ kd ch' = kd ch
      /\ control_period ch' = control_period ch /\ max_duty ch' = max_duty ch
      /\ (forall other, other <> c -> channels self' !! other = channels self !! other)
      /\ exists st self'',
           channel_state self' c now noise = (Returned st, self'')
           /\ s_id st = c
           /\ (s_temperature st == 25)%Q
           /\ s_heating st = false
           /\ s_pid_params st
              = mk_params (kp ch) (ki ch) (kd ch) (target_temp ch)
                  (control_period ch) (max_duty ch))
  /\ exists dev',
       SerialComm.mock_reset dev = (Returned (), dev')
       /\ SerialComm.last_update dev' = SerialComm.last_update dev
       /\ ((SerialComm.update_interval <= clock - SerialComm.last_update dev)%Q ->
           SerialComm.readline dev' clock
           = (Returned
                (SerialComm.Line clock
                   ((fun i =>
                       SerialComm.mk_channel_data i 25 1 (1 # 10) (5 # 100) 25 100 80 false)
                      <$> seqZ 0 (SerialComm.mock_num_channels dev))),
              SerialComm.with_last_update dev' clock))
       /\ ((clock - SerialComm.last_update dev < SerialComm.update_interval)%Q ->
           SerialComm.readline dev' clock = (Returned SerialComm.NoLine, dev')).
Proof.
  intros Hr Hc Hd Hn. split.
  - unfold reset, reset_one. pose proof Hr as Hr'. apply in_range_true in Hr'.
    rewrite Hr', Hc. simpl. rewrite Hd.
    do 2 eexists. split; [reflexivity|]. simpl.
    split; [reflexivity|]. split; [apply lookup_insert_eq|].
    do 10 (split; [reflexivity|]).
    split.
    + intros other Hne. apply lookup_insert_ne. congruence.
    + apply (idle_channel_state _ c (reset_channel ch) now noise).
      * simpl. exact Hr.
      * simpl. apply lookup_insert_eq.
      * reflexivity.
      * reflexivity.
  - unfold SerialComm.mock_reset.
    apply Z.ltb_lt in Hn. rewrite Hn. eexists. split; [reflexivity|].
    split; [reflexivity|]. unfold SerialComm.readline. simpl. split.
    + intros Hlate.
      assert (Hg : Qlt_bool (clock - SerialComm.last_update dev)
                     SerialComm.update_interval = false).
      { unfold Qlt_bool. apply negb_false_iff, Qle_bool_iff. exact Hlate. }
      rewrite Hg. rewrite readline_fresh; [reflexivity|].
      intros i Hi. simpl. apply mock_reset_lookup. exact Hi.
    + intros Hsoon.
      assert (Hg : Qlt_bool (clock - SerialComm.last_update dev)
                     SerialComm.update_interval = true).
      { unfold Qlt_bool. apply negb_true_iff.
        destruct (Qle_bool SerialComm.update_interval
                    (clock - SerialComm.last_update dev)) eqn:E; [|reflexivity].
        apply Qle_bool_iff in E. exfalso. apply (Qlt_not_le _ _ Hsoon E). }
      rewrite Hg. reflexivity.
Qed.

End ResetFacts.

(** ** The wire protocol *)

Section TextFacts.

Import PyStr.

Lemma app_cons (c : ascii) (a b : string) :
  (String c a ++ b = String c (a ++ b))%string.
Proof. reflexivity. Qed.

Lemma app_empty (b : string) : (EmptyString ++ b = b)%string.
Proof. reflexivity. Qed.

Lemma str_app_assoc (a b c : string) : ((a ++ b) ++ c = a ++ (b ++ c))%string.
Proof.
  induction a as [|x a IH]; [reflexivity|].
  rewrite !app_cons, IH. reflexivity.
Qed.

Lemma all_chars_app (p : ascii -> bool) (a b : string) :
  all_chars p (a ++ b) = all_chars p a && all_chars p b.
Proof.
  induction a as [|x a IH]; [reflexivity|].
  rewrite app_cons. simpl. rewrite IH, andb_assoc. reflexivity.
Qed.

Lemma has_char_app_r (c : ascii) (a b : string) :
  has_char c b = true -> has_char c (a ++ b) = true.
Proof.
  intros H. induction a as [|x a IH]; [exact H|].
  rewrite app_cons. simpl. rewrite IH. apply orb_true_r.
Qed.

Lemma has_char_app_l (c : ascii) (a b : string) :
  has_char c a = true -> has_char c (a ++ b) = true.
Proof.
  induction a as [|x a IH]; [discriminate|].
  rewrite app_cons. simpl.
  intros H. apply orb_true_iff in H as [H|H].
  - rewrite H. reflexivity.
  - rewrite (IH H). apply orb_true_r.
Qed.

(** The decimal text of an integer is made of digits and a minus sign. *)
Lemma pretty_N_go_chars (p : ascii -> bool) (x : N) (s : string) :
  (forall n, p (pretty_N_char n) = true) ->
  all_chars p s = true -> all_chars p (pretty_N_go x s) = true.
Proof.
  intros Hp. revert s. induction (N.lt_wf_0 x) as [x _ IH]; intros s Hs.
  destruct (decide (x = 0%N)) as [->|Hx].
  - rewrite pretty_N_go_0. exact Hs.
  - rewrite pretty_N_go_step by lia. apply IH.
    + apply N.div_lt; lia.
    + simpl. rewrite Hp, Hs. reflexivity.
Qed.

Lemma pretty_Z_chars (p : ascii -> bool) (z : Z) :
  (forall n, p (pretty_N_char n) = true) -> p "-"%char = true ->
  all_chars p (pretty z) = true.
Proof.
  intros Hp Hm.
  assert (H0 : p "0"%char = true) by (apply (Hp 0%N)).
  assert (Hpos : forall x : positive, all_chars p (pretty x) = true).
  { intros x. unfold pretty, pretty_positive, pretty, pretty_N.
    destruct (decide (N.pos x = 0%N)); [discriminate|].
    apply pretty_N_go_chars; [exact Hp | reflexivity]. }
  destruct z as [|x|x]; unfold pretty, pretty_Z.
  - simpl. rewrite H0. reflexivity.
  - apply Hpos.
  - simpl. rewrite Hm. apply Hpos.
Qed.

Lemma pretty_N_char_no_space (n : N) : negb (is_space (pretty_N_char n)) = true.
Proof. unfold pretty_N_char. repeat case_match; reflexivity. Qed.

Lemma pretty_N_char_no_colon (n : N) : negb (Ascii.eqb (pretty_N_char n) ":") = true.
Proof. unfold pretty_N_char. repeat case_match; reflexivity. Qed.

Lemma rstrip_app (x y : string) :
  all_chars (fun c => negb (is_space c)) x = true ->
  rstrip (x ++ y) = (x ++ rstrip y)%string.
Proof.
  induction x as [|c x IH]; [reflexivity|].
  rewrite !app_cons. simpl.
  intros H. apply andb_true_iff in H as [Hc Hx].
  rewrite (IH Hx). apply negb_true_iff in Hc. rewrite Hc.
  destruct (x ++ rstrip y)%string; reflexivity.
Qed.

Lemma split_nonempty (sep : ascii) (s : string) : split sep s <> [].
Proof.
  induction s as [|c r IH]; simpl; [discriminate|].
  destruct (Ascii.eqb c sep); [discriminate|].
  destruct (split sep r); discriminate.
Qed.

Lemma split_app (sep : ascii) (x y : string) :
  all_chars (fun c => negb (Ascii.eqb c sep)) x = true ->
  split sep (x ++ y)
  = (x ++ List.hd EmptyString (split sep y))%string :: List.tl (split sep y).
Proof.
  induction x as [|c x IH].
  - intros _. rewrite app_empty. pose proof (split_nonempty sep y) as Hn.
    destruct (split sep y); [congruence | reflexivity].
  - rewrite app_cons. simpl.
    intros H. apply andb_true_iff in H as [Hc Hx].
    apply negb_true_iff in Hc. rewrite Hc, (IH Hx). reflexivity.
Qed.

Lemma has_char_lstrip (c : ascii) (s : string) :
  is_space c = false -> has_char c s = true -> has_char c (lstrip s) = true.
Proof.
  intros Hc. induction s as [|a r IH]; simpl; [discriminate|].
  intros H. destruct (is_space a) eqn:Ha; [|exact H].
  apply orb_true_iff in H as [H|H]; [|exact (IH H)].
  apply Ascii.eqb_eq in H. congruence.
Qed.

Lemma has_char_rstrip (c : ascii) (s : string) :
  is_space c = false -> has_char c s = true -> has_char c (rstrip s) = true.
Proof.
  intros Hc. induction s as [|a r IH]; simpl; [discriminate|].
  intros H. apply orb_true_iff in H as [H|H].
  - apply Ascii.eqb_eq in H. subst a. rewrite Hc.
    destruct (rstrip r); simpl; rewrite Ascii.eqb_refl; reflexivity.
  - specialize (IH H). destruct (rstrip r) as [|b r']; [discriminate|].
    simpl in *. rewrite IH. apply orb_true_r.
Qed.

Lemma digits_from_rejects (c : ascii) (s : string) (acc : Z) :
  is_digit c = false -> c <> "_"%char ->
  has_char c s = true -> digits_from s acc = None.
Proof.
  intros Hd Hu. revert acc. induction s as [|a r IH]; intros acc; simpl; [discriminate|].
  intros H. apply orb_true_iff in H as [H|H].
  - apply Ascii.eqb_eq in H. subst a. rewrite Hd.
    destruct (Ascii.eqb c "_") eqn:E; [|reflexivity].
    apply Ascii.eqb_eq in E. contradiction.
  - destruct (is_digit a); [exact (IH _ H)|].
    destruct (Ascii.eqb a "_"); [|reflexivity].
    destruct r as [|d r']; [reflexivity|].
    destruct (is_digit d); [exact (IH _ H) | reflexivity].
Qed.

Lemma digits_rejects (c : ascii) (s : string) :
  is_digit c = false -> c <> "_"%char -> has_char c s = true -> digits s = None.
Proof.
  intros Hd Hu H. unfold digits. destruct s as [|a r]; [reflexivity|].
  destruct (is_digit a); [|reflexivity].
  exact (digits_from_rejects c _ 0 Hd Hu H).
Qed.

(** [int] raises on every text that holds a comma. *)
Lemma int_rejects_comma (s : string) : has_char "," s = true -> int s = None.
Proof.
  intros H. unfold int, strip.
  assert (Hs : has_char "," (rstrip (lstrip s)) = true).
  { apply has_char_rstrip; [reflexivity|]. apply has_char_lstrip; [reflexivity | exact H]. }
  destruct (rstrip (lstrip s)) as [|a r]; [discriminate|].
  unfold signed.
  destruct (Ascii.eqb a "+") eqn:Ep.
  { apply Ascii.eqb_eq in Ep. subst a. simpl in Hs.
    apply (digits_rejects ","); [reflexivity | discriminate | exact Hs]. }
  destruct (Ascii.eqb a "-") eqn:Em.
  { apply Ascii.eqb_eq in Em. subst a. simpl in Hs.
    rewrite (digits_rejects "," r); [reflexivity | reflexivity | discriminate | exact Hs]. }
  apply (digits_rejects ","); [reflexivity | discriminate | exact Hs].
Qed.

End TextFacts.

Section CommandFacts.

Import SerialComm.

Variable str_float : Q -> string.

(** Whatever the formatter of floats prints, the device splits the text of
    [set_pid_params] into [PID] and a second part that starts with the
    channel id and a comma. *)
Lemma pid_text_parts (channel : Z) (kp ki kd target : Q) (period duty : Z) :
  exists p1 ps,
    PyStr.split ":"
      (PyStr.strip (pid_text str_float channel kp ki kd target period duty
                    ++ String "010" EmptyString))
    = "PID" :: p1 :: ps
    /\ has_char "," p1 = true.
Proof.
  unfold pid_text.
  set (T := (str_float kp ++ "," ++ str_float ki ++ "," ++ str_float kd ++ ","
             ++ str_float target ++ "," ++ pretty period ++ "," ++ pretty duty)%string).
  set (nl := String "010" EmptyString).
  assert (Hsp : all_chars (fun c => negb (PyStr.is_space c)) (pretty channel) = true).
  { apply pretty_Z_chars; [apply pretty_N_char_no_space | reflexivity]. }
  assert (Hco : all_chars (fun c => negb (Ascii.eqb c ":")) (pretty channel) = true).
  { apply pretty_Z_chars; [apply pretty_N_char_no_colon | reflexivity]. }
  assert (Htext : (("PID:" ++ pretty channel ++ "," ++ T) ++ nl
                   = ("PID:" ++ pretty channel ++ ",") ++ (T ++ nl))%string).
  { rewrite !str_app_assoc. reflexivity. }
  assert (Hstrip : PyStr.strip (("PID:" ++ pretty channel ++ "," ++ T) ++ nl)
                   = ("PID" ++ String ":" ((pretty channel ++ ",")
                                           ++ PyStr.rstrip (T ++ nl)))%string).
  { unfold PyStr.strip. rewrite Htext.
    assert (Hl : PyStr.lstrip (("PID:" ++ pretty channel ++ ",") ++ (T ++ nl))
                 = (("PID:" ++ pretty channel ++ ",") ++ (T ++ nl))%string)
      by reflexivity.
    rewrite Hl, rstrip_app.
    - rewrite !str_app_assoc. reflexivity.
    - rewrite !all_chars_app, Hsp. reflexivity. }
  rewrite Hstrip.
  rewrite split_app by reflexivity.
  assert (Hsep : forall z, PyStr.split ":" (String ":" z) = EmptyString :: PyStr.split ":" z)
    by reflexivity.
  rewrite Hsep. simpl List.hd. simpl List.tl.
  rewrite split_app by (rewrite all_chars_app, Hco; reflexivity).
  do 2 eexists. split; [reflexivity|].
  apply has_char_app_l, has_char_app_r. reflexivity.
Qed.

(** The device drops the command of [set_pid_params]: [int] fails on the
    second part and the handler returns with the channels as they were. *)
Lemma write_drops_pid_text (dev : MockSerial) (channel : Z) (kp ki kd target : Q)
    (period duty : Z) :
  (write dev (pid_text str_float channel kp ki kd target period duty
              ++ String "010" EmptyString)).2 = dev.
Proof.
  destruct (pid_text_parts channel kp ki kd target period duty)
    as (p1 & ps & Hparts & Hcomma).
  unfold write. destruct (PyStr.decodes _); [|reflexivity].
  simpl. rewrite Hparts. simpl.
  rewrite (int_rejects_comma p1 Hcomma). reflexivity.
Qed.

(** For every channel of the range and every parameter set,
    [set_pid_params] over an open simulated device answers [True] and
    the device is exactly as before. *)
Lemma set_pid_params_no_effect (self : SerialManager) (dev : MockSerial)
    (channel : Z) (kp ki kd target : Q) (period duty : Z) :
  connection self = Some dev -> is_open dev = true ->
  0 <= channel < num_channels self ->
  set_pid_params str_float self channel kp ki kd target period duty = (true, self).
Proof.
  intros Hc Ho Hr. unfold set_pid_params, send_command.
  apply in_range_true in Hr. rewrite Hr, Hc, Ho. simpl.
  pose proof (write_drops_pid_text dev channel kp ki kd target
                (Z.max 10 (Z.min 1000 period)) (Z.max 0 (Z.min 100 duty))) as Hw.
  destruct (write dev _) as [n dev']. simpl in Hw. subst dev'.
  destruct self as [n0 c0 l0]. simpl in *. subst c0. reflexivity.
Qed.

End CommandFacts.

(** C1.  [set_pid_params(0, 2.0, 0.15, 0.05, 50.0, 100, 100)] sends
    [PID:0,2.0,0.15,0.05,50.0,100,100], with a comma after the channel id.
    The call answers [True], yet the device parser drops the text and
    channel 0 keeps its gains.  The text of [update_channel_pid], with a
    colon after the channel id, is parsed and sets the six parameters. *)
Theorem set_pid_params_dropped_by_device :
  SerialComm.pid_text repr_decimal 0 2 (15 # 100) (5 # 100) 50 100 100
  = "PID:0,2.0,0.15,0.05,50.0,100,100"
  /\ SerialComm.set_pid_params repr_decimal manager4 0 2 (15 # 100) (5 # 100) 50 100 100
     = (true, manager4)
  /\ SerialComm.channels device4 !! 0 = Some SerialComm.fresh_channel
  /\ SerialComm.router_pid_text repr_decimal 0 2 (15 # 100) (5 # 100) 50
       (Some 100) (Some 100)
     = "PID:0:2.0,0.15,0.05,50.0,100,100"
  /\ (exists ch,
       SerialComm.channels
         (SerialComm.write device4
            ("PID:0:2.0,0.15,0.05,50.0,100,100" ++ String "010" EmptyString)).2 !! 0
       = Some ch
       /\ (SerialComm.kp ch == 2)%Q /\ (SerialComm.ki ch == 15 # 100)%Q
       /\ (SerialComm.kd ch == 5 # 100)%Q /\ (SerialComm.target_temp ch == 50)%Q
       /\ SerialComm.control_period ch = 100 /\ SerialComm.max_duty ch = 100).
Proof.
  split; [vm_compute; reflexivity|].
  split; [apply (set_pid_params_no_effect repr_decimal manager4 device4);
          [reflexivity | reflexivity | simpl; lia]|].
  split; [vm_compute; reflexivity|].
  split; [vm_compute; reflexivity|].
  eexists. split; [vm_compute; reflexivity|].
  repeat (split; [reflexivity|]). reflexivity.
Qed.

(** ** Telemetry decoding *)

Section StatusFacts.

Import SerialComm.

(** C2, as the code has it.  With a snapshot stored, a line that does
    not decode (bytes that are not UTF-8, text that is not JSON), a line
    that decodes to an empty or otherwise false value, and an empty read
    all give back the stored snapshot and keep it.  A line that decodes
    to any other value is given back and stored as the new snapshot; no
    key is looked at, so an object without [channels] is taken too. *)
Theorem get_status_snapshot_policy (self : SerialManager) (line : wire_line)
    (now : string) (prev : Json.value) :
  is_connected self = true ->
  last_data self = Some prev ->
  (decode line = None -> get_status self line now = (Returned prev, self))
  /\ (line_truthy line = false -> get_status self line now = (Returned prev, self))
  /\ (forall data, decode line = Some data -> Json.truthy data = false ->
        get_status self line now = (Returned prev, self))
  /\ (forall data, line_truthy line = true -> decode line = Some data ->
        Json.truthy data = true ->
        get_status self line now = (Returned data, with_last_data self data)).
Proof.
  intros Hc Hp. unfold get_status. rewrite Hc, Hp. simpl.
  split; [|split; [|split]].
  - intros Hd. rewrite Hd. destruct (line_truthy line); reflexivity.
  - intros Hl. rewrite Hl. reflexivity.
  - intros data Hd Ht. rewrite Hd, Ht. destruct (line_truthy line); reflexivity.
  - intros data Hl Hd Ht. rewrite Hl, Hd, Ht. reflexivity.
Qed.

End StatusFacts.

Lemma get_status_snapshot_policy_witness :
  SerialComm.get_status manager_with_snapshot (SerialComm.WBytes "{not json") "now"
  = (Returned good_snapshot, manager_with_snapshot)
  /\ SerialComm.get_status manager_with_snapshot (SerialComm.WBytes "") "now"
     = (Returned good_snapshot, manager_with_snapshot)
  /\ SerialComm.get_status manager_with_snapshot (SerialComm.WBytes "{}") "now"
     = (Returned good_snapshot, manager_with_snapshot)
  /\ SerialComm.get_status manager_with_snapshot
       (SerialComm.WBytes line_without_channels) "now"
     = (Returned snapshot_without_channels,
        SerialComm.with_last_data manager_with_snapshot snapshot_without_channels).
Proof.
  assert (Hc : SerialComm.is_connected manager_with_snapshot = true) by reflexivity.
  assert (Hp : SerialComm.last_data manager_with_snapshot = Some good_snapshot)
    by reflexivity.
  pose proof (get_status_snapshot_policy manager_with_snapshot
                (SerialComm.WBytes "{not json") "now" _ Hc Hp) as (A & _).
  pose proof (get_status_snapshot_policy manager_with_snapshot
                (SerialComm.WBytes "") "now" _ Hc Hp) as (_ & B & _).
  pose proof (get_status_snapshot_policy manager_with_snapshot
                (SerialComm.WBytes "{}") "now" _ Hc Hp) as (_ & _ & C & _).
  pose proof (get_status_snapshot_policy manager_with_snapshot
                (SerialComm.WBytes line_without_channels) "now" _ Hc Hp)
    as (_ & _ & _ & D).
  split; [|split; [|split]].
  - apply A. vm_compute. reflexivity.
  - apply B. reflexivity.
  - apply (C (Json.JObj [])); [vm_compute; reflexivity | reflexivity].
  - apply D; [reflexivity | vm_compute; reflexivity | reflexivity].
Defined.

(** C2, as stated, fails: the line decodes to an object that has no
    [channels] key, and [get_status] gives back that object and stores it
    in place of the snapshot it held. *)
Lemma get_status_takes_line_without_channels :
  SerialComm.decode (SerialComm.WBytes line_without_channels)
  = Some snapshot_without_channels
  /\ Json.dict_get [("timestamp", Json.JStr "2024-01-01T00:00:01");
                    ("status", Json.JStr "running")] "channels" = None
  /\ (SerialComm.get_status manager_with_snapshot
        (SerialComm.WBytes line_without_channels) "now").1
     = Returned snapshot_without_channels
  /\ SerialComm.last_data
       (SerialComm.get_status manager_with_snapshot
          (SerialComm.WBytes line_without_channels) "now").2
     = Some snapshot_without_channels
  /\ snapshot_without_channels <> good_snapshot.
Proof.
  split; [vm_compute; reflexivity|].
  split; [reflexivity|].
  split; [vm_compute; reflexivity|].
  split; [vm_compute; reflexivity|].
  discriminate.
Qed.

(** ** The optimizer *)

Section OptimizerFacts.

Import PIDOptimizer.

Variable llm : request -> outcome string.

Lemma filter_all_false {A : Type} (f : A -> bool) (l : list A) :
  Forall (fun x => f x = false) l -> List.filter f l = [].
Proof.
  induction 1 as [|x l Hx _ IH]; simpl; [reflexivity|].
  rewrite Hx. exact IH.
Qed.

Lemma filter_nil_false {A : Type} (f : A -> bool) (l : list A) :
  List.filter f l = [] -> Forall (fun x => f x = false) l.
Proof.
  induction l as [|x l IH]; simpl; [constructor|].
  destruct (f x) eqn:E; [discriminate|]. intros H. constructor; [exact E | exact (IH H)].
Qed.

(** The window of a channel is empty exactly when the id is outside the
    range, or every sample of the series is older than the period asked
    for (in particular when the series is empty). *)
Lemma window_empty (logger : DataLogger.t) (channel : Z) (hours : option Q) (now : Q) :
  DataLogger.get_channel_data logger channel hours now = Returned []
  <-> (~ (0 <= channel < DataLogger.num_channels logger)
       \/ exists rows,
            DataLogger.data logger !! channel = Some rows
            /\ Forall (fun r => exists h, hours = Some h
                                /\ (DataLogger.timestamp r < now - h * 3600)%Q) rows).
Proof.
  unfold DataLogger.get_channel_data. split.
  - destruct (in_range channel (DataLogger.num_channels logger)) eqn:Hr.
    2:{ intros _. left. apply in_range_false. exact Hr. }
    simpl. destruct (DataLogger.data logger !! channel) as [rows|]; [|discriminate].
    intros H. right. exists rows. split; [reflexivity|].
    destruct rows as [|r rows]; [constructor|].
    destruct hours as [h|]; [|discriminate].
    injection H as H.
    change (List.filter (fun r0 => Qle_bool (now - h * 3600) (DataLogger.timestamp r0))
              (r :: rows) = []) in H.
    apply filter_nil_false in H.
    eapply Forall_impl; [exact H|]. intros x Hx. simpl in Hx.
    exists h. split; [reflexivity|].
    apply Qnot_le_lt. intros Hle. apply Qle_bool_iff in Hle. congruence.
  - intros [Hout | (rows & Hrows & Hold)].
    + apply in_range_false in Hout. rewrite Hout. reflexivity.
    + destruct (in_range channel (DataLogger.num_channels logger)); [|reflexivity].
      simpl. rewrite Hrows. destruct rows as [|r rows]; [reflexivity|].
      destruct hours as [h|].
      * f_equal. apply filter_all_false.
        eapply Forall_impl; [exact Hold|]. intros x (h' & Hh & Hlt). simpl.
        injection Hh as <-.
        destruct (Qle_bool (now - h * 3600) (DataLogger.timestamp x)) eqn:E; [|reflexivity].
        apply Qle_bool_iff in E. exfalso. apply (Qlt_not_le _ _ Hlt E).
      * apply Forall_cons in Hold as [(h' & Hh & _) _]. discriminate.
Qed.

(** C9.  When the window of the channel is empty (the id is outside the
    range, or no sample of the series falls in the period asked for)
    [optimize_params] answers the built-in gains 1.0, 0.1 and 0.05 with
    the no-data explanation, and no request goes to the advisor; the
    gains recorded in older samples play no part. *)
Theorem optimize_without_data (logger : DataLogger.t) (channel : Z)
    (hours : option Q) (now1 now2 : Q) :
  (~ (0 <= channel < DataLogger.num_channels logger)
   \/ exists rows,
        DataLogger.data logger !! channel = Some rows
        /\ Forall (fun r => exists h, hours = Some h
                            /\ (DataLogger.timestamp r < now1 - h * 3600)%Q) rows) ->
  optimize_params llm channel logger hours now1 now2
  = (Returned (Json.JObj [("kp", Json.JFloat 1); ("ki", Json.JFloat (1 # 10));
                          ("kd", Json.JFloat (5 # 100));
                          ("explanation", Json.JStr no_data_explanation)]),
     []).
Proof.
  intros H. apply window_empty in H. unfold optimize_params. rewrite H. reflexivity.
Qed.

(** A look-up of the window that returned at one reading of the clock
    returns at any other. *)
Lemma get_channel_data_returns (logger : DataLogger.t) (channel : Z)
    (hours : option Q) (now1 now2 : Q) (df : list DataLogger.record) :
  DataLogger.get_channel_data logger channel hours now1 = Returned df ->
  exists df', DataLogger.get_channel_data logger channel hours now2 = Returned df'.
Proof.
  unfold DataLogger.get_channel_data.
  destruct (negb (in_range channel (DataLogger.num_channels logger))); [eauto|].
  destruct (DataLogger.data logger !! channel) as [[|r rows]|]; [eauto| |discriminate].
  destruct hours; eauto.
Qed.

(** Replies the validation turns down: a field is missing, a gain is not
    a number, the explanation is not text, or the reply is no object. *)
Lemma validate_missing (kv : list (string * Json.value)) (field : string) :
  field ∈ ["kp"; "ki"; "kd"; "explanation"] ->
  Json.has_key kv field = false -> validate (Json.JObj kv) = None.
Proof.
  intros Hf Hk. unfold validate.
  assert (Hall : forallb (Json.has_key kv) ["kp"; "ki"; "kd"; "explanation"] = false).
  { apply not_true_is_false. intros Hall.
    rewrite forallb_forall in Hall. specialize (Hall field).
    rewrite Hall in Hk; [discriminate|]. apply list_elem_of_In. exact Hf. }
  rewrite Hall. reflexivity.
Qed.

Lemma validate_wrong_type (kv : list (string * Json.value)) (vkp vki vkd vex : Json.value) :
  Json.dict_get kv "kp" = Some vkp -> Json.dict_get kv "ki" = Some vki ->
  Json.dict_get kv "kd" = Some vkd -> Json.dict_get kv "explanation" = Some vex ->
  is_number vkp && is_number vki && is_number vkd && is_str vex = false ->
  validate (Json.JObj kv) = None.
Proof.
  intros H1 H2 H3 H4 Ht. unfold validate.
  destruct (forallb _ _); [|reflexivity].
  rewrite H1, H2, H3, H4, Ht. reflexivity.
Qed.

Lemma validate_not_object (v : Json.value) :
  (forall kv, v <> Json.JObj kv) -> validate v = None.
Proof. intros H. destruct v; try reflexivity. destruct (H kv). reflexivity. Qed.

(** C3, as the code has it.  When the window is not empty and the
    advisor's reply is turned down (it is not JSON, or the validation
    fails), [optimize_params] answers the gains of the latest sample of
    the window, unchanged, with the explanation
    [参数优化失败，保持当前参数不变]; one request went to the advisor.
    The function is handed the logger and the advisor only and returns
    nothing but its answer: no channel state is within its reach. *)
Theorem optimize_falls_back (logger : DataLogger.t) (channel : Z)
    (hours : option Q) (now1 now2 : Q) (df : list DataLogger.record)
    (row : DataLogger.record) (m : DataLogger.metrics) (content : string) :
  DataLogger.get_channel_data logger channel hours now1 = Returned df ->
  last df = Some row ->
  DataLogger.get_channel_metrics logger channel hours now2 = Returned m ->
  llm (mk_request (DataLogger.kp row) (DataLogger.ki row) (DataLogger.kd row)
         (DataLogger.target_temp row) (DataLogger.temperature row) m)
  = Returned content ->
  parse_response content = None ->
  optimize_params llm channel logger hours now1 now2
  = (Returned
       (Json.JObj [("kp", Json.JFloat (DataLogger.kp row));
                   ("ki", Json.JFloat (DataLogger.ki row));
                   ("kd", Json.JFloat (DataLogger.kd row));
                   ("explanation", Json.JStr failed_explanation)]),
     [mk_request (DataLogger.kp row) (DataLogger.ki row) (DataLogger.kd row)
        (DataLogger.target_temp row) (DataLogger.temperature row) m]).
Proof.
  intros Hdf Hrow Hm Hllm Hparse. unfold optimize_params.
  rewrite Hdf, Hrow, Hm, Hllm, Hparse. reflexivity.
Qed.

End OptimizerFacts.

Lemma optimize_without_data_witness :
  DataLogger.data logger4 !! 1 = Some [sample 50 50 0; sample 100 50 1]
  /\ PIDOptimizer.optimize_params advisor_missing_kd 1 logger4 (Some 1%Q) 10000 10000
     = (Returned (Json.JObj [("kp", Json.JFloat 1); ("ki", Json.JFloat (1 # 10));
                             ("kd", Json.JFloat (5 # 100));
                             ("explanation",
                              Json.JStr PIDOptimizer.no_data_explanation)]),
        []).
Proof.
  assert (Hrows : DataLogger.data logger4 !! 1 = Some [sample 50 50 0; sample 100 50 1])
    by (vm_compute; reflexivity).
  split; [exact Hrows|].
  apply optimize_without_data. right.
  exists [sample 50 50 0; sample 100 50 1]. split; [exact Hrows|].
  repeat constructor; exists 1%Q; split; reflexivity.
Defined.

Lemma optimize_falls_back_witness :
  PIDOptimizer.parse_response
    (dq "{'kp': 1.5, 'ki': 0.2, 'explanation': 'raise kp'}") = None
  /\ PIDOptimizer.optimize_params advisor_missing_kd 1 logger4 None 0 0
     = (Returned
          (Json.JObj [("kp", Json.JFloat 2); ("ki", Json.JFloat (15 # 100));
                      ("kd", Json.JFloat (5 # 100));
                      ("explanation", Json.JStr PIDOptimizer.failed_explanation)]),
        [PIDOptimizer.mk_request 2 (15 # 100) (5 # 100) 50 100
           (DataLogger.metrics_of [sample 50 50 0; sample 100 50 1])]).
Proof.
  assert (Hp : PIDOptimizer.parse_response
                 (dq "{'kp': 1.5, 'ki': 0.2, 'explanation': 'raise kp'}") = None)
    by (vm_compute; reflexivity).
  split; [exact Hp|].
  apply (optimize_falls_back advisor_missing_kd logger4 1 None 0 0
           [sample 50 50 0; sample 100 50 1] (sample 100 50 1)
           (DataLogger.metrics_of [sample 50 50 0; sample 100 50 1])
           (dq "{'kp': 1.5, 'ki': 0.2, 'explanation': 'raise kp'}")).
  - vm_compute. reflexivity.
  - reflexivity.
  - unfold DataLogger.get_channel_metrics.
    assert (Hd : DataLogger.get_channel_data logger4 1 None 0
                 = Returned [sample 50 50 0; sample 100 50 1]) by (vm_compute; reflexivity).
    rewrite Hd. reflexivity.
  - reflexivity.
  - exact Hp.
Defined.

(** C3, as stated, fails on the explanation: for a reply without [kd]
    the fallback carries the gains of the latest sample and the text
    [参数优化失败，保持当前参数不变], which is not the quoted English
    sentence. *)
Lemma optimize_fallback_explanation_differs :
  (PIDOptimizer.optimize_params advisor_missing_kd 1 logger4 None 0 0).1
  = Returned
      (Json.JObj [("kp", Json.JFloat 2); ("ki", Json.JFloat (15 # 100));
                  ("kd", Json.JFloat (5 # 100));
                  ("explanation", Json.JStr "参数优化失败，保持当前参数不变")])
  /\ (PIDOptimizer.optimize_params advisor_missing_kd 1 logger4 None 0 0).1
     <> Returned
          (Json.JObj [("kp", Json.JFloat 2); ("ki", Json.JFloat (15 # 100));
                      ("kd", Json.JFloat (5 # 100));
                      ("explanation",
                       Json.JStr "optimization failed, parameters unchanged")]).
Proof.
  assert (H : (PIDOptimizer.optimize_params advisor_missing_kd 1 logger4 None 0 0).1
              = Returned
                  (Json.JObj [("kp", Json.JFloat 2); ("ki", Json.JFloat (15 # 100));
                              ("kd", Json.JFloat (5 # 100));
                              ("explanation",
                               Json.JStr "参数优化失败，保持当前参数不变")]))
    by (vm_compute; reflexivity).
  split; [exact H|]. rewrite H. discriminate.
Qed.

Lemma reset_then_status_witness :
  (exists self' ch',
    MockPIDSystem.reset plant_tuned (Some 0) = (Returned (), self')
    /\ MockPIDSystem.channels self' !! 0 = Some ch'
    /\ MockPIDSystem.current_temp ch' = 25%Q
    /\ MockPIDSystem.heating ch' = false
    /\ MockPIDSystem.kp ch' = 2%Q
    /\ MockPIDSystem.target_temp ch' = 50%Q)
  /\ (exists dev cds,
        SerialComm.mock_reset device_warm = (Returned (), dev)
        /\ SerialComm.readline dev 1
           = (Returned (SerialComm.Line 1 cds), SerialComm.with_last_update dev 1)
        /\ cds !! 1%nat
           = Some (SerialComm.mk_channel_data 1 25 1 (1 # 10) (5 # 100) 25 100 80 false)
        /\ SerialComm.readline dev (55 # 100) = (Returned SerialComm.NoLine, dev)).
Proof.
  split.
  assert (Hr : 0 <= 0 < MockPIDSystem.num_channels plant_tuned)
    by (change (0 <= 0 < 4); lia).
  assert (Hc : MockPIDSystem.channels plant_tuned !! 0 = Some tuned_channel)
    by (vm_compute; reflexivity).
  assert (Hd : MockPIDSystem.disturbance plant_tuned
               = MockPIDSystem.DDict (list_to_map ((fun i => (i, 0%Q)) <$> seqZ 0 4)))
    by reflexivity.
  destruct (reset_then_status plant_tuned 0 tuned_channel _ 1 0 device4 1 Hr Hc Hd)
    as ((self' & ch' & Hreset & _ & Hch & Ht & Hh & _ & _ & Htg & Hkp & _) & _).
  { change (0 < 4). lia. }
  exists self', ch'.
  split; [exact Hreset|]. split; [exact Hch|]. split; [exact Ht|].
  split; [exact Hh|]. split; [exact Hkp | exact Htg].
  - assert (Hr : 0 <= 0 < MockPIDSystem.num_channels plant_tuned)
      by (change (0 <= 0 < 4); lia).
    assert (Hc : MockPIDSystem.channels plant_tuned !! 0 = Some tuned_channel)
      by (vm_compute; reflexivity).
    assert (Hd : MockPIDSystem.disturbance plant_tuned
                 = MockPIDSystem.DDict (list_to_map ((fun i => (i, 0%Q)) <$> seqZ 0 4)))
      by reflexivity.
    assert (Hn : 0 < SerialComm.mock_num_channels device_warm)
      by (change (0 < 4); lia).
    destruct (reset_then_status plant_tuned 0 tuned_channel _ 1 0 device_warm 1
                Hr Hc Hd Hn) as (_ & dev & Hreset & _ & Hlate & _).
    destruct (reset_then_status plant_tuned 0 tuned_channel _ 1 0 device_warm (55 # 100)
                Hr Hc Hd Hn) as (_ & dev2 & Hreset2 & _ & _ & Hsoon).
    assert (Hsame : dev2 = dev) by congruence. subst dev2.
    exists dev. eexists.
    split; [exact Hreset|].
    split; [apply Hlate; vm_compute; discriminate|].
    split; [reflexivity|].
    apply Hsoon. vm_compute. reflexivity.
Defined.

(** C4, as stated, fails: after [update_params] has tuned channel 0,
    [reset(0)] followed by a status read reports the tuned gains 2.0, 0.15
    and 0.05, the target 50, the period 1000 and the duty 90; and the
    simulated serial device reports a duty of 80 after its [reset]. *)
Lemma reset_keeps_tuning :
  (MockPIDSystem.reset plant_tuned (Some 0)).1 = Returned ()
  /\ (exists st,
       (MockPIDSystem.channel_state (MockPIDSystem.reset plant_tuned (Some 0)).2 0 1 0).1
       = Returned st
       /\ MockPIDSystem.s_pid_params st
          = MockPIDSystem.mk_params 2 (15 # 100) (5 # 100) 50 1000 90)
  /\ (exists cds,
       (SerialComm.readline (SerialComm.mock_reset device4).2 1).1
       = Returned (SerialComm.Line 1 cds)
       /\ SerialComm.cd_max_duty <$> cds !! 0%nat = Some 80).
Proof.
  split; [vm_compute; reflexivity|]. split.
  - eexists. split; [vm_compute; reflexivity | reflexivity].
  - eexists. split; [vm_compute; reflexivity | reflexivity].
Qed.


(** * Further properties of the modelled code *)

(** ** Logging a snapshot *)

Section LogDataFacts.

Import Json LogData.







End LogDataFacts.

(** ** The logger of data_logger.py *)

Section LoggerFacts.

Import DataLogger.

Lemma lookup_tabulate {A : Type} (f : Z -> A) (l : list Z) (c : Z) :
  (list_to_map ((fun i => (i, f i)) <$> l) : gmap Z A) !! c
  = if decide (c ∈ l) then Some (f c) else None.
Proof.
  induction l as [|x l IH].
  - simpl. rewrite lookup_empty. destruct (decide (c ∈ [])) as [H|_]; [inversion H | reflexivity].
  - rewrite fmap_cons, list_to_map_cons. simpl.
    destruct (decide (x = c)) as [->|Hne].
    + rewrite lookup_insert_eq. destruct (decide (c ∈ c :: l)) as [_|H]; [reflexivity|].
      exfalso. apply H. left.
    + rewrite lookup_insert_ne by exact Hne. rewrite IH.
      destruct (decide (c ∈ l)) as [H|H], (decide (c ∈ x :: l)) as [H'|H'];
        try reflexivity.
      * exfalso. apply H'. right. exact H.
      * exfalso. inversion H'; subst; [congruence | contradiction].
Qed.

Lemma empty_data_lookup (n c : Z) :
  empty_data n !! c = if decide (0 <= c < n) then Some [] else None.
Proof.
  unfold empty_data. rewrite (lookup_tabulate (fun _ => [])).
  destruct (decide (c ∈ seqZ 0 n)) as [H|H], (decide (0 <= c < n)) as [H'|H'];
    try reflexivity; exfalso.
  - apply elem_of_seqZ in H. lia.
  - apply H. apply elem_of_seqZ. lia.
Qed.

(** X2.  The loggers built by [__init__] and left by [clear_channel_data]
    and [clear_all_data] have a series for every id of the range, and on
    such a logger neither the window look-up nor the metrics raise. *)
Theorem logger_series_invariant (self : t) (n channel : Z) (hours : option Q) (now : Q) :
  logger_wf (init n)
  /\ logger_wf (clear_all_data self)
  /\ (logger_wf self ->
      logger_wf (clear_channel_data self channel).2
      /\ (exists df, get_channel_data self channel hours now = Returned df)
      /\ (exists m, get_channel_metrics self channel hours now = Returned m)).
Proof.
  split; [|split].
  - intros c Hc. simpl in *. rewrite empty_data_lookup.
    destruct (decide (0 <= c < n)); [eauto | contradiction].
  - intros c Hc. simpl in *. rewrite empty_data_lookup.
    destruct (decide (0 <= c < num_channels self)); [eauto | contradiction].
  - intros Hwf.
    assert (Hdf : exists df, get_channel_data self channel hours now = Returned df).
    { unfold get_channel_data.
      destruct (in_range channel (num_channels self)) eqn:Hr; simpl; [|eauto].
      destruct (Hwf channel) as [rows Hrows]; [apply in_range_true; exact Hr|].
      rewrite Hrows. destruct rows; [eauto|]. destruct hours; eauto. }
    split; [|split; [exact Hdf|]].
    + intros c Hc. unfold clear_channel_data in *.
      destruct (negb (in_range channel (num_channels self))); simpl in *.
      * apply Hwf. exact Hc.
      * destruct (decide (channel = c)) as [->|Hne].
        -- rewrite lookup_insert_eq. eauto.
        -- rewrite lookup_insert_ne by exact Hne. apply Hwf. exact Hc.
    + destruct Hdf as [df Hdf]. unfold get_channel_metrics. rewrite Hdf. eauto.
Qed.

(** X3.  After [clear_all_data] the window of every channel is empty
    whatever period is asked for, and so are its metrics; after
    [clear_channel_data] of a channel of the range the same holds for that
    channel. *)
Theorem cleared_windows_are_empty (self : t) (channel c : Z) (hours : option Q) (now : Q) :
  get_channel_data (clear_all_data self) c hours now = Returned []
  /\ get_channel_metrics (clear_all_data self) c hours now = Returned no_metrics
  /\ (0 <= channel < num_channels self ->
      get_channel_data (clear_channel_data self channel).2 channel hours now = Returned []
      /\ get_channel_metrics (clear_channel_data self channel).2 channel hours now
         = Returned no_metrics).
Proof.
  assert (H1 : get_channel_data (clear_all_data self) c hours now = Returned []).
  { unfold get_channel_data. simpl.
    destruct (in_range c (num_channels self)) eqn:Hr; simpl; [|reflexivity].
    rewrite empty_data_lookup. apply in_range_true in Hr.
    destruct (decide (0 <= c < num_channels self)); [reflexivity | contradiction]. }
  split; [exact H1|]. split.
  - unfold get_channel_metrics. rewrite H1. reflexivity.
  - intros Hr.
    assert (H2 : get_channel_data (clear_channel_data self channel).2 channel hours now
                 = Returned []).
    { unfold clear_channel_data, get_channel_data. apply in_range_true in Hr.
      rewrite Hr. simpl. rewrite Hr. simpl. rewrite lookup_insert_eq. reflexivity. }
    split; [exact H2|]. unfold get_channel_metrics. rewrite H2. reflexivity.
Qed.

End LoggerFacts.

Lemma logger4_wf : logger_wf logger4.
Proof.
  intros c Hc. change (0 <= c < 4) in Hc.
  assert (Hcases : c = 0 \/ c = 1 \/ c = 2 \/ c = 3) by lia.
  destruct Hcases as [-> | [-> | [-> | ->]]]; vm_compute; eauto.
Qed.




Lemma logger_series_invariant_witness :
  logger_wf (DataLogger.clear_channel_data logger4 1).2
  /\ (exists df, DataLogger.get_channel_data logger4 1 (Some 1%Q) 10 = Returned df).
Proof.
  destruct (logger_series_invariant logger4 4 1 (Some 1%Q) 10) as (_ & _ & H).
  destruct (H logger4_wf) as (Hwf & Hdf & _).
  split; [exact Hwf | exact Hdf].
Defined.

Lemma cleared_windows_are_empty_witness :
  DataLogger.get_channel_data (DataLogger.clear_channel_data logger4 1).2 1 None 0
  = Returned []
  /\ DataLogger.get_channel_metrics (DataLogger.clear_channel_data logger4 1).2 1 None 0
     = Returned DataLogger.no_metrics.
Proof.
  destruct (cleared_windows_are_empty logger4 1 0 None 0) as (_ & _ & H).
  apply H. change (0 <= 1 < 4). lia.
Defined.


(** ** The metrics of get_channel_metrics *)

Section MetricFacts.

Import DataLogger.

Lemma Qmax_cases (x y : Q) : Qmax x y = x \/ Qmax x y = y.
Proof. unfold Qmax, GenericMinMax.gmax. destruct (x ?= y)%Q; auto. Qed.

Lemma Qmin_cases (x y : Q) : Qmin x y = x \/ Qmin x y = y.
Proof. unfold Qmin, GenericMinMax.gmin. destruct (x ?= y)%Q; auto. Qed.

Lemma fold_Qmax_in (xs : list Q) (x : Q) :
  fold_left Qmax xs x = x \/ In (fold_left Qmax xs x) xs.
Proof.
  revert x. induction xs as [|y xs IH]; intros x; simpl; [auto|].
  destruct (IH (Qmax x y)) as [H|H]; [|auto].
  rewrite H. destruct (Qmax_cases x y) as [E|E]; rewrite E; auto.
Qed.

Lemma fold_Qmax_ge (xs : list Q) (x : Q) :
  (x <= fold_left Qmax xs x)%Q
  /\ forall y, In y xs -> (y <= fold_left Qmax xs x)%Q.
Proof.
  revert x. induction xs as [|y xs IH]; intros x; simpl.
  - split; [apply Qle_refl | intros y []].
  - destruct (IH (Qmax x y)) as [H1 H2]. split.
    + eapply Qle_trans; [apply Q.le_max_l | exact H1].
    + intros z [<-|Hz]; [|exact (H2 z Hz)].
      eapply Qle_trans; [apply Q.le_max_r | exact H1].
Qed.

Lemma fold_Qmin_le (xs : list Q) (x : Q) : (fold_left Qmin xs x <= x)%Q.
Proof.
  revert x. induction xs as [|y xs IH]; intros x; simpl; [apply Qle_refl|].
  eapply Qle_trans; [apply IH | apply Q.le_min_l].
Qed.

(** The largest sample is one of the samples and bounds them all; the
    smallest is not above it. *)
Lemma Qlist_max_spec (l : list Q) :
  l <> [] ->
  In (Qlist_max l) l
  /\ (forall y, In y l -> (y <= Qlist_max l)%Q)
  /\ (Qlist_min l <= Qlist_max l)%Q.
Proof.
  destruct l as [|x xs]; [congruence|]. intros _. simpl.
  destruct (fold_Qmax_ge xs x) as [H1 H2]. split; [|split].
  - destruct (fold_Qmax_in xs x) as [H|H]; [left; symmetry; exact H | right; exact H].
  - intros y [<-|Hy]; [exact H1 | exact (H2 y Hy)].
  - eapply Qle_trans; [apply fold_Qmin_le | exact H1].
Qed.

(** Where [find] stops: at the first element that passes. *)
Lemma find_first {A : Type} (f : A -> bool) (l : list A) (x : A) :
  List.find f l = Some x ->
  exists i : nat, l !! i = Some x /\ f x = true
    /\ forall (j : nat) y, (j < i)%nat -> l !! j = Some y -> f y = false.
Proof.
  induction l as [|a l IH]; simpl; [discriminate|].
  destruct (f a) eqn:Ha.
  - intros [= ->]. exists 0%nat. split; [reflexivity|]. split; [exact Ha|].
    intros j y Hj. lia.
  - intros H. destruct (IH H) as (i & Hi & Hx & Hmin).
    exists (S i). split; [exact Hi|]. split; [exact Hx|].
    intros [|j] y Hj Hy; simpl in Hy.
    + injection Hy as <-. exact Ha.
    + apply (Hmin j y); [lia | exact Hy].
Qed.

(** X4.  On every window that is not empty and whose temperatures are
    finite numbers with a finite spread between the largest and the
    smallest (what the rationals of [record] stand for; a not-a-number
    sample or a spread that overflows the doubles is outside this
    statement, and there the levels are not numbers and the rise time is
    [None]), the rise time of [get_channel_metrics] is defined: the
    largest sample reaches both the 10 % and the 90 % level of the
    window's own range.  When the time stamps of the window do not
    decrease it is not negative. *)
Theorem rise_time_defined (df : list record) :
  df <> [] ->
  exists q, rise_time (metrics_of df) = Some q /\ (time_ordered df -> (0 <= q)%Q).
Proof.
  intros Hne. unfold metrics_of.
  destruct (last df) as [final|] eqn:Hl.
  2:{ apply last_None in Hl. contradiction. }
  destruct (head df) as [first|] eqn:Hh.
  2:{ destruct df; [contradiction | discriminate]. }
  cbv zeta. simpl rise_time.
  set (temps := temperature <$> df).
  assert (Htne : temps <> []).
  { unfold temps. destruct df; [contradiction | discriminate]. }
  destruct (Qlist_max_spec temps Htne) as (Hin & _ & Hmm).
  set (mx := Qlist_max temps) in *. set (mn := Qlist_min temps) in *.
  assert (Hr : exists r, In r df /\ temperature r = mx).
  { unfold temps in Hin. apply list_elem_of_In, list_elem_of_fmap in Hin.
    destruct Hin as (r & Hr1 & Hr2). exists r. split; [|symmetry; exact Hr1].
    apply list_elem_of_In. exact Hr2. }
  destruct Hr as (r & Hrin & Hrt).
  set (p10 := fun r0 : record => Qle_bool (mn + (1 # 10) * (mx - mn)) (temperature r0)).
  set (p90 := fun r0 : record => Qle_bool (mn + (9 # 10) * (mx - mn)) (temperature r0)).
  assert (Himp : forall x, p90 x = true -> p10 x = true).
  { intros x Hx. unfold p10, p90 in *. apply Qle_bool_iff in Hx. apply Qle_bool_iff. lra. }
  assert (Hr90 : p90 r = true).
  { unfold p90. apply Qle_bool_iff. rewrite Hrt. lra. }
  unfold first_index.
  destruct (List.find p90 df) as [b|] eqn:Hb.
  2:{ apply (find_none _ _ Hb) in Hrin. congruence. }
  destruct (List.find p10 df) as [a|] eqn:Ha.
  2:{ apply (find_none _ _ Ha) in Hrin. rewrite (Himp r Hr90) in Hrin. discriminate. }
  simpl. eexists. split; [reflexivity|]. intros Hord.
  destruct (find_first _ _ _ Ha) as (i & Hi & _ & Hmin).
  destruct (find_first _ _ _ Hb) as (j & Hj & Hpb & _).
  assert (Hij : (i <= j)%nat).
  { destruct (le_lt_dec i j) as [H|H]; [exact H|].
    specialize (Hmin j b H Hj). rewrite (Himp b Hpb) in Hmin. discriminate. }
  specialize (Hord i j a b Hij Hi Hj). lra.
Qed.

End MetricFacts.

Lemma window_is_time_ordered : time_ordered [sample 50 50 0; sample 100 50 1].
Proof.
  intros i j ri rj Hij Hi Hj.
  destruct i as [|[|i]], j as [|[|j]]; simpl in Hi, Hj;
    try discriminate; try lia;
    injection Hi as <-; injection Hj as <-; simpl; lra.
Qed.

Lemma rise_time_defined_witness :
  exists q,
    DataLogger.rise_time (DataLogger.metrics_of [sample 50 50 0; sample 100 50 1]) = Some q
    /\ (0 <= q)%Q.
Proof.
  destruct (rise_time_defined [sample 50 50 0; sample 100 50 1]) as (q & Hq & Hpos).
  - discriminate.
  - exists q. split; [exact Hq | exact (Hpos window_is_time_ordered)].
Defined.

(** ** The session log of data_store.py *)

Section SessionFacts.

Import DataStore.

Lemma slice_last {A : Type} (l : list A) (n : Z) :
  0 < n -> slice_from_neg l n = last_n (Z.to_nat n) l.
Proof.
  intros Hn. unfold slice_from_neg, last_n.
  assert (Hlt : (- n <? 0) = true) by (apply Z.ltb_lt; lia).
  rewrite Hlt.
  assert (Hs : Z.to_nat (Z.max 0 (- n + Z.of_nat (length l)))
               = (length l - Z.to_nat n)%nat) by lia.
  rewrite Hs. reflexivity.
Qed.

(** X5.  [get_history] without a limit or with the limit 0 gives the
    whole log (the slice [data[-0:]] starts at the front); with a limit
    [n] above zero it gives the last [n] points, all of them when the log
    is shorter; with a limit below zero it drops the first [-n] points. *)
Theorem get_history_slices (data : list data_point) (n : Z) :
  get_history data None = data
  /\ get_history data (Some 0) = data
  /\ (0 < n ->
      get_history data (Some n) = last_n (Z.to_nat n) data
      /\ Z.of_nat (length (get_history data (Some n))) = Z.min n (Z.of_nat (length data)))
  /\ (n < 0 -> get_history data (Some n) = drop (Z.to_nat (- n)) data).
Proof.
  split; [reflexivity|]. split.
  { unfold get_history, slice_from_neg.
    change (drop (Z.to_nat (Z.min 0 (Z.of_nat (length data)))) data = data).
    rewrite Z.min_l by lia. reflexivity. }
  split.
  - intros Hn. unfold get_history. rewrite slice_last by exact Hn.
    split; [reflexivity|]. unfold last_n. rewrite length_drop. lia.
  - intros Hn. unfold get_history, slice_from_neg.
    assert (Hlt : (- n <? 0) = false) by (apply Z.ltb_ge; lia).
    rewrite Hlt.
    destruct (Z.le_gt_cases (- n) (Z.of_nat (length data))) as [H|H].
    + rewrite Z.min_l by exact H. reflexivity.
    + rewrite Z.min_r by lia. rewrite Nat2Z.id.
      rewrite !drop_ge by lia. reflexivity.
Qed.

(** X6.  A point recorded by [log_data] is the latest one, it is what
    [get_history(1)] gives, and the log is one point longer; an absent
    time stamp is replaced by the current time. *)
Theorem log_data_is_latest (data : list data_point) (temperature : Q)
    (pid_params : list (string * Q)) (timestamp : option string) (now : string) :
  get_latest (log_data data temperature pid_params timestamp now)
  = Some (mk_point temperature pid_params (default now timestamp))
  /\ get_history (log_data data temperature pid_params timestamp now) (Some 1)
     = [mk_point temperature pid_params (default now timestamp)]
  /\ length (log_data data temperature pid_params timestamp now) = S (length data)
  /\ get_history (log_data data temperature pid_params timestamp now)
       (Some (Z.of_nat (length data) + 1))
     = (data ++ [mk_point temperature pid_params (default now timestamp)])%list.
Proof.
  unfold get_latest, log_data. split; [apply last_snoc|].
  assert (Hlen : forall x : data_point, length (data ++ [x]) = S (length data)).
  { intros x. rewrite length_app. simpl. lia. }
  split; [|split; [apply Hlen|]].
  - unfold get_history. rewrite slice_last by lia. unfold last_n. rewrite Hlen.
    replace (S (length data) - Z.to_nat 1)%nat with (length data) by lia.
    rewrite drop_app_length. reflexivity.
  - unfold get_history. rewrite slice_last by lia. unfold last_n. rewrite Hlen.
    replace (S (length data) - Z.to_nat (Z.of_nat (length data) + 1))%nat with 0%nat by lia.
    reflexivity.
Qed.

Lemma settling_loop_first (target band : Q) (l : list Q) (i k : nat) (acc : option nat) :
  (k < length l)%nat ->
  forallb (in_band target band) (drop k l) = true ->
  (forall j, (j < k)%nat -> forallb (in_band target band) (drop j l) = false) ->
  settling_loop target band i l acc = Some (i + k)%nat.
Proof.
  revert i k acc. induction l as [|temp rest IH]; intros i k acc Hk Hsus Hmin.
  - simpl in Hk. lia.
  - destruct k as [|k].
    + simpl in Hsus. simpl. apply andb_true_iff in Hsus as [Ht Hr].
      rewrite Ht, Hr. simpl. f_equal. lia.
    + assert (H0 : forallb (in_band target band) (temp :: rest) = false)
        by (apply (Hmin 0%nat); lia).
      assert (Hrec : forall acc', settling_loop target band (S i) rest acc'
                                  = Some (i + S k)%nat).
      { intros acc'. replace (i + S k)%nat with (S i + k)%nat by lia.
        apply IH.
        - simpl in Hk. lia.
        - exact Hsus.
        - intros j Hj. apply (Hmin (S j)). lia. }
      simpl in H0. simpl.
      destruct (in_band target band temp); simpl in *.
      * rewrite H0. apply Hrec.
      * apply Hrec.
Qed.

(** X7.  When from sample [k] on every sample of the session lies within
    5 % of the target, and no earlier sample starts such a run,
    [analyze_curve] answers [k] for the settling time. *)
Theorem analyze_curve_settling_first_sustained (data : list data_point) (target : Q)
    (k : nat) (c : curve) :
  analyze_curve data target = Returned c ->
  (k < length data)%nat ->
  forallb (in_band target (target * (5 # 100))) (drop k (temperature <$> data)) = true ->
  (forall j, (j < k)%nat ->
     forallb (in_band target (target * (5 # 100))) (drop j (temperature <$> data)) = false) ->
  settling_time c = Some k.
Proof.
  intros Hrun Hk Hsus Hmin. unfold analyze_curve in Hrun.
  destruct data as [|d rest]; [simpl in Hk; lia|].
  destruct (Qlt_bool target (Qlist_max (temperature <$> d :: rest))
            && Qeq_bool target 0); [discriminate|].
  injection Hrun as <-.
  change (settling_loop target (target * (5 # 100)) 0 (temperature <$> d :: rest) None
          = Some (0 + k)%nat).
  apply settling_loop_first.
  - rewrite length_fmap. exact Hk.
  - exact Hsus.
  - exact Hmin.
Qed.

(** X8.  For a target above zero and a session that is not empty
    [analyze_curve] returns an overshoot that is never negative, and that
    is zero exactly when the largest sample does not exceed the target. *)
Theorem analyze_curve_overshoot_sign (data : list data_point) (target : Q) :
  data <> [] -> (0 < target)%Q ->
  exists c q,
    analyze_curve data target = Returned c
    /\ overshoot c = Some q
    /\ (0 <= q)%Q
    /\ ((q == 0)%Q <-> (Qlist_max (temperature <$> data) <= target)%Q).
Proof.
  intros Hne Hpos. unfold analyze_curve.
  destruct data as [|d rest]; [congruence|].
  set (mx := Qlist_max (temperature <$> d :: rest)).
  assert (He : Qeq_bool target 0 = false).
  { destruct (Qeq_bool target 0) eqn:E; [|reflexivity].
    apply Qeq_bool_eq in E. lra. }
  rewrite He, andb_false_r.
  do 2 eexists. split; [reflexivity|]. split; [reflexivity|].
  unfold Qlt_bool. destruct (Qle_bool mx target) eqn:E; simpl.
  - apply Qle_bool_iff in E. split; [lra|]. split; [intros _; exact E | reflexivity].
  - assert (Hgt : (target < mx)%Q).
    { apply Qnot_le_lt. intros H. apply Qle_bool_iff in H. congruence. }
    assert (Hd : (0 < (mx - target) / target)%Q).
    { apply Qlt_shift_div_l; [exact Hpos | lra]. }
    split; [lra|]. split; [intros H; lra | intros H; lra].
Qed.

(** X9.  [analyze_curve] raises, with [ZeroDivisionError], exactly when
    the session is not empty, the target is zero and some sample is above
    zero; in every other case it returns. *)
Theorem analyze_curve_raises_iff (data : list data_point) (target : Q) :
  (analyze_curve data target = Raised ZeroDivisionError
   <-> data <> [] /\ (target == 0)%Q /\ (0 < Qlist_max (temperature <$> data))%Q)
  /\ (raises (analyze_curve data target) = true
      -> analyze_curve data target = Raised ZeroDivisionError).
Proof.
  unfold analyze_curve. destruct data as [|d rest].
  - split; [|simpl; discriminate]. split; [discriminate | intros [H _]; congruence].
  - set (mx := Qlist_max (temperature <$> d :: rest)).
    destruct (Qlt_bool target mx) eqn:Hlt, (Qeq_bool target 0) eqn:Heq; simpl.
    + apply Qeq_bool_eq in Heq. unfold Qlt_bool in Hlt. apply negb_true_iff in Hlt.
      split; [|reflexivity]. split; [|reflexivity]. intros _.
      split; [discriminate|]. split; [exact Heq|].
      apply Qnot_le_lt. intros H. rewrite <- Heq in H. apply Qle_bool_iff in H. congruence.
    + split; [|discriminate]. split; [discriminate|].
      intros (_ & H & _). apply Qeq_bool_iff in H. congruence.
    + split; [|discriminate]. split; [discriminate|].
      intros (_ & H & Hm). unfold Qlt_bool in Hlt. apply negb_false_iff in Hlt.
      apply Qle_bool_iff in Hlt. lra.
    + split; [|discriminate]. split; [discriminate|].
      intros (_ & H & _). apply Qeq_bool_iff in H. congruence.
Qed.

Lemma rise_loop_first (target : Q) (l : list Q) (i k : nat) :
  rise_loop target i l = Some k
  <-> exists j x, k = (i + j)%nat /\ l !! j = Some x /\ (target <= x)%Q
        /\ forall j' y, (j' < j)%nat -> l !! j' = Some y -> (y < target)%Q.
Proof.
  revert i. induction l as [|temp rest IH]; intros i; simpl.
  - split; [discriminate | intros (j & x & _ & H & _); discriminate].
  - destruct (Qle_bool target temp) eqn:E.
    + apply Qle_bool_iff in E. split.
      * intros [= <-]. exists 0%nat, temp. split; [lia|]. split; [reflexivity|].
        split; [exact E|]. intros j' y Hj. lia.
      * intros (j & x & -> & Hx & Hle & Hmin). destruct j as [|j]; [f_equal; lia|].
        exfalso. specialize (Hmin 0%nat temp ltac:(lia) eq_refl). lra.
    + assert (Hlt : (temp < target)%Q).
      { apply Qnot_le_lt. intros H. apply Qle_bool_iff in H. congruence. }
      rewrite IH. split.
      * intros (j & x & -> & Hx & Hle & Hmin). exists (S j), x.
        split; [lia|]. split; [exact Hx|]. split; [exact Hle|].
        intros [|j'] y Hj Hy; simpl in Hy.
        -- injection Hy as <-. exact Hlt.
        -- apply (Hmin j' y); [lia | exact Hy].
      * intros (j & x & -> & Hx & Hle & Hmin). destruct j as [|j].
        -- simpl in Hx. injection Hx as <-. lra.
        -- exists j, x. split; [lia|]. split; [exact Hx|]. split; [exact Hle|].
           intros j' y Hj Hy. apply (Hmin (S j') y); [lia | exact Hy].
Qed.

(** X10.  The rise time of [analyze_curve] is the index of the first
    sample at or above the target, and it is undefined exactly when every
    sample is below the target. *)
Theorem analyze_curve_rise_time_first (data : list data_point) (target : Q) (c : curve) :
  analyze_curve data target = Returned c ->
  (forall k, rise_time c = Some k
     <-> exists x, (temperature <$> data) !! k = Some x /\ (target <= x)%Q
           /\ forall j y, (j < k)%nat -> (temperature <$> data) !! j = Some y
                -> (y < target)%Q)
  /\ (rise_time c = None
      <-> forall j y, (temperature <$> data) !! j = Some y -> (y < target)%Q).
Proof.
  intros Hrun.
  assert (Hrise : rise_time c = rise_loop target 0 (temperature <$> data)).
  { unfold analyze_curve in Hrun. destruct data as [|d rest].
    - injection Hrun as <-. reflexivity.
    - destruct (_ && _); [discriminate|]. injection Hrun as <-. reflexivity. }
  rewrite Hrise. split.
  - intros k. rewrite rise_loop_first. split.
    + intros (j & x & -> & H). exists x. exact H.
    + intros (x & H). exists k, x. split; [reflexivity | exact H].
  - split.
    + intros Hnone j.
      induction j as [j IHj] using lt_wf_ind. intros y Hy.
      destruct (Qlt_le_dec y target) as [H|H]; [exact H|].
      exfalso.
      assert (Hsome : rise_loop target 0 (temperature <$> data) = Some (0 + j)%nat).
      { apply rise_loop_first. exists j, y. split; [reflexivity|].
        split; [exact Hy|]. split; [exact H|]. intros j' y' Hj' Hy'.
        exact (IHj j' Hj' y' Hy'). }
      congruence.
    + intros Hall. destruct (rise_loop target 0 (temperature <$> data)) as [k|] eqn:E;
        [|reflexivity].
      apply rise_loop_first in E. destruct E as (j & x & _ & Hx & Hle & _).
      specialize (Hall j x Hx). lra.
Qed.

End SessionFacts.


(** ** The plant of mock_pid_system.py *)

Section PlantMoreFacts.

Import MockPIDSystem.

(** X11.  [update_params] on a channel of the range stores the gains and
    the target as given, the control period clipped to 10..1000 and the
    duty clipped to 0..100: a value under the lower bound becomes the
    lower bound, a value over the upper bound becomes the upper bound, and
    a value inside the bounds is kept.  Temperature, heating flag,
    integral, last error and time stamps of the channel, the other
    channels and the disturbance stay as they were. *)
Theorem update_params_clamps (self : t) (c : Z) (ch : chan) (gp gi gd target : Q)
    (period duty : Z) :
  0 <= c < num_channels self ->
  channels self !! c = Some ch ->
  exists self' ch',
    update_params self c gp gi gd target period duty = (Returned (), self')
    /\ channels self' !! c = Some ch'
    /\ kp ch' = gp /\ ki ch' = gi /\ kd ch' = gd /\ target_temp ch' = target
    /\ (period < 10 -> control_period ch' = 10)
    /\ (10 <= period <= 1000 -> control_period ch' = period)
    /\ (1000 < period -> control_period ch' = 1000)
    /\ (duty < 0 -> max_duty ch' = 0)
    /\ (0 <= duty <= 100 -> max_duty ch' = duty)
    /\ (100 < duty -> max_duty ch' = 100)
    /\ current_temp ch' = current_temp ch /\ heating ch' = heating ch
    /\ integral ch' = integral ch /\ last_error ch' = last_error ch
    /\ last_time ch' = last_time ch /\ last_control_time ch' = last_control_time ch
    /\ disturbance self' = disturbance self
    /\ num_channels self' = num_channels self
    /\ forall other, other <> c -> channels self' !! other = channels self !! other.
Proof.
  intros Hr Hc. unfold update_params. apply in_range_true in Hr. rewrite Hr, Hc.
  do 2 eexists. split; [reflexivity|]. simpl.
  split; [apply lookup_insert_eq|]. simpl. unfold Zclip.
  do 4 (split; [reflexivity|]).
  do 6 (split; [lia|]).
  do 8 (split; [reflexivity|]).
  intros other Hne. apply lookup_insert_ne. congruence.
Qed.


End PlantMoreFacts.

Section PlantInvariant.

Import MockPIDSystem.

Lemma inv_store (s : t) (c : Z) (ch' : chan) :
  heating_needs_float s ->
  (heating ch' = false
   \/ exists ch, channels s !! c = Some ch /\ heating ch' = heating ch) ->
  heating_needs_float (store s c ch').
Proof.
  unfold heating_needs_float, store. simpl. intros Hinv Hch.
  destruct (disturbance s) as [d|x]; [|exact I].
  intros c0 ch0 Hl. destruct (decide (c = c0)) as [->|Hne].
  - rewrite lookup_insert_eq in Hl. injection Hl as <-.
    destruct Hch as [H|(ch & Hc & H)]; [exact H|].
    rewrite H. exact (Hinv c0 ch Hc).
  - rewrite lookup_insert_ne in Hl by exact Hne. exact (Hinv c0 ch0 Hl).
Qed.

Lemma inv_set_disturbance_dict (s : t) (d d' : gmap Z Q) :
  disturbance s = DDict d -> heating_needs_float s ->
  heating_needs_float (set_disturbance s (DDict d')).
Proof. unfold heating_needs_float. simpl. intros ->. auto. Qed.

Lemma inv_init (n : Z) (clock clock' : Z -> Q) : heating_needs_float (init n clock clock').
Proof.
  unfold heating_needs_float, init. simpl. intros c ch.
  rewrite (lookup_tabulate (fun i => default_channel (clock i) (clock' i))).
  destruct (decide (c ∈ seqZ 0 n)); [|discriminate].
  intros [= <-]. reflexivity.
Qed.

Lemma inv_update_params (s : t) (c : Z) (gp gi gd target : Q) (period duty : Z) :
  heating_needs_float s ->
  heating_needs_float (update_params s c gp gi gd target period duty).2.
Proof.
  intros Hinv. unfold update_params.
  destruct (in_range c (num_channels s)); [|exact Hinv].
  destruct (channels s !! c) as [ch|] eqn:Hc; [|exact Hinv].
  simpl. apply (inv_store s c); [exact Hinv|]. right. exists ch. split; [exact Hc | reflexivity].
Qed.

Lemma inv_set_heating (s : t) (c : Z) (h : bool) :
  heating_needs_float s -> heating_needs_float (set_heating s c h).2.
Proof.
  intros Hinv. unfold set_heating.
  destruct (in_range c (num_channels s)); [|exact I].
  destruct (channels s !! c); [exact I | exact Hinv].
Qed.

Lemma inv_reset_one (s : t) (i : Z) :
  heating_needs_float s -> heating_needs_float (reset_one s i).2.
Proof.
  intros Hinv. unfold reset_one.
  destruct (channels s !! i) as [ch|] eqn:Hc; [|exact Hinv].
  assert (H1 : heating_needs_float (store s i (reset_channel ch))).
  { apply inv_store; [exact Hinv | left; reflexivity]. }
  destruct (disturbance (store s i (reset_channel ch))) as [d|x] eqn:Hd; simpl.
  - exact (inv_set_disturbance_dict _ d _ Hd H1).
  - exact H1.
Qed.

Lemma inv_reset_loop (ids : list Z) (s : t) :
  heating_needs_float s -> heating_needs_float (reset_loop s ids).2.
Proof.
  revert s. induction ids as [|i rest IH]; intros s Hinv; simpl; [exact Hinv|].
  pose proof (inv_reset_one s i Hinv) as H1.
  destruct (reset_one s i) as [[u|e] s1]; simpl in *; [apply IH; exact H1 | exact H1].
Qed.

Lemma inv_reset (s : t) (c : option Z) :
  heating_needs_float s -> heating_needs_float (reset s c).2.
Proof.
  intros Hinv. unfold reset. destruct c as [c|].
  - destruct (in_range c (num_channels s)).
    + apply inv_reset_one. exact Hinv.
    + apply inv_reset_loop. exact Hinv.
  - apply inv_reset_loop. exact Hinv.
Qed.

Lemma inv_add_disturbance (s : t) (c : Z) (magnitude draw : Q) :
  heating_needs_float s -> heating_needs_float (add_disturbance s c magnitude draw).2.
Proof.
  intros Hinv. unfold add_disturbance.
  destruct (in_range c (num_channels s)); [|exact Hinv].
  destruct (disturbance s) as [d|x] eqn:Hd; simpl; [|exact Hinv].
  exact (inv_set_disturbance_dict _ d _ Hd Hinv).
Qed.

(** A step leaves the plant as it was or stores the channel back with the
    same heating flag. *)
Lemma next_temp_state (s : t) (c : Z) (now noise : Q) :
  (_calculate_next_temp s c now noise).2 = s
  \/ exists ch ch',
       channels s !! c = Some ch /\ heating ch' = heating ch
       /\ (_calculate_next_temp s c now noise).2 = store s c ch'.
Proof.
  unfold _calculate_next_temp.
  destruct (negb (in_range c (num_channels s))); [left; reflexivity|].
  destruct (channels s !! c) as [ch|] eqn:Hc; [|left; reflexivity].
  destruct (Qlt_bool (now - last_time ch) sample_time); [left; reflexivity|].
  destruct (negb (heating ch)).
  { right. exists ch. eexists. split; [reflexivity|]. split; [|reflexivity]. reflexivity. }
  cbv zeta.
  destruct (Qlt_bool _ _).
  { right. exists ch. eexists. split; [reflexivity|]. split; [|reflexivity]. reflexivity. }
  destruct (disturbance s) as [d|x].
  - destruct (d !! c).
    + right. exists ch. eexists. split; [reflexivity|]. split; [|reflexivity]. reflexivity.
    + right. exists ch. eexists. split; [reflexivity|]. split; [|reflexivity]. reflexivity.
  - right. exists ch. eexists. split; [reflexivity|]. split; [|reflexivity]. reflexivity.
Qed.

Lemma inv_next_temp (s : t) (c : Z) (now noise : Q) :
  heating_needs_float s -> heating_needs_float (_calculate_next_temp s c now noise).2.
Proof.
  intros Hinv. destruct (next_temp_state s c now noise) as [H|(ch & ch' & Hc & Hh & H)];
    rewrite H; [exact Hinv|].
  apply inv_store; [exact Hinv|]. right. exists ch. split; [exact Hc | exact Hh].
Qed.

Lemma inv_channel_state (s : t) (i : Z) (now noise : Q) :
  heating_needs_float s -> heating_needs_float (channel_state s i now noise).2.
Proof.
  intros Hinv. unfold channel_state.
  destruct (channels s !! i); [|exact Hinv].
  pose proof (inv_next_temp s i now noise Hinv) as H1.
  destruct (_calculate_next_temp s i now noise) as [[temp|e] s1]; simpl in *; [|exact H1].
  destruct (channels s1 !! i) as [ch|] eqn:Hc; [|exact H1].
  simpl. apply inv_store; [exact H1|]. right. exists ch. split; [exact Hc | reflexivity].
Qed.

Lemma inv_current_state_loop (ids : list Z) (s : t) (clock noise : Z -> Q) :
  heating_needs_float s ->
  heating_needs_float (get_current_state_loop s ids clock noise).2.
Proof.
  revert s. induction ids as [|i rest IH]; intros s Hinv; simpl; [exact Hinv|].
  pose proof (inv_channel_state s i (clock i) (noise i) Hinv) as H1.
  destruct (channel_state s i (clock i) (noise i)) as [[st|e] s1]; simpl in *; [|exact H1].
  pose proof (IH s1 H1) as H2.
  destruct (get_current_state_loop s1 rest clock noise) as [[sts|e] s2]; exact H2.
Qed.

Lemma reachable_invariant (s : t) : plant_reachable s -> heating_needs_float s.
Proof.
  induction 1 as [n clock clock'|s s' _ IH Hstep]; [apply inv_init|].
  destruct Hstep as [c gp gi gd tg p d <-|c h <-|c <-|c m d <-|c now noise <-|clock noise <-].
  - apply inv_update_params. exact IH.
  - apply inv_set_heating. exact IH.
  - apply inv_reset. exact IH.
  - apply inv_add_disturbance. exact IH.
  - apply inv_next_temp. exact IH.
  - apply inv_current_state_loop. exact IH.
Qed.

(** X13.  In every state the plant can reach from [__init__] through
    its methods, a channel that is heating goes with a disturbance
    attribute rebound to a float (the only method that switches heating on
    rebinds it).  Hence a control tick of a heating channel never
    completes: once the sample interval and the control period have
    passed, [_calculate_next_temp] raises [TypeError] at the subscript
    [self.disturbance[channel]]. *)
Theorem control_tick_raises (s : t) (c : Z) (ch : chan) (now noise : Q) :
  plant_reachable s ->
  0 <= c < num_channels s ->
  channels s !! c = Some ch ->
  heating ch = true ->
  (exists x, disturbance s = DFloat x)
  /\ ((sample_time <= now - last_time ch)%Q ->
      (inject_Z (control_period ch) / 1000 <= now - last_control_time ch)%Q ->
      (_calculate_next_temp s c now noise).1 = Raised TypeError).
Proof.
  intros Hreach Hr Hc Hh. apply reachable_invariant in Hreach.
  unfold heating_needs_float in Hreach.
  destruct (disturbance s) as [d|x] eqn:Hd.
  { specialize (Hreach c ch Hc). congruence. }
  split; [eauto|]. intros Hdt Hper.
  unfold _calculate_next_temp. apply in_range_true in Hr. rewrite Hr, Hc, Hh. simpl.
  assert (H1 : Qlt_bool (now - last_time ch) sample_time = false).
  { unfold Qlt_bool. apply negb_false_iff, Qle_bool_iff. exact Hdt. }
  assert (H2 : Qlt_bool (now - last_control_time ch)
                 (inject_Z (control_period ch) / 1000) = false).
  { unfold Qlt_bool. apply negb_false_iff, Qle_bool_iff. exact Hper. }
  rewrite H1, H2, Hd. reflexivity.
Qed.

End PlantInvariant.

Section ResetAllFacts.

Import MockPIDSystem.

Lemma reset_channel_twice (ch : chan) : reset_channel (reset_channel ch) = reset_channel ch.
Proof. reflexivity. Qed.



End ResetAllFacts.

(** ** Numbers in command texts *)

Section NumberTextFacts.

Import PyStr.

Lemma str_app_nil_r (s : string) : (s ++ "")%string = s.
Proof. induction s as [|c s IH]; [reflexivity|]. rewrite app_cons, IH. reflexivity. Qed.

Lemma pretty_N_char_digit (n : N) : is_digit (pretty_N_char n) = true.
Proof. unfold pretty_N_char. repeat case_match; reflexivity. Qed.

Lemma pretty_N_char_val (n : N) : (n < 10)%N -> digit_val (pretty_N_char n) = Z.of_N n.
Proof.
  intros Hn.
  assert (H : In n (map N.of_nat (seq 0 10))).
  { apply in_map_iff. exists (N.to_nat n). split; [lia|]. apply in_seq. lia. }
  simpl in H. repeat (destruct H as [<- | H]; [reflexivity|]). destruct H.
Qed.

Lemma pretty_N_char_ascii (n : N) : (N_of_ascii (pretty_N_char n) <? 128)%N = true.
Proof. unfold pretty_N_char. repeat case_match; reflexivity. Qed.

Lemma pretty_N_char_no_comma (n : N) : negb (Ascii.eqb (pretty_N_char n) ",") = true.
Proof. unfold pretty_N_char. repeat case_match; reflexivity. Qed.

(** Reading back the digits that [pretty] wrote in front of [s]. *)
Lemma digits_from_pretty (x : N) (s : string) :
  digits_from (pretty_N_go x s) 0 = digits_from s (Z.of_N x).
Proof.
  revert s. induction (N.lt_wf_0 x) as [x _ IH]; intros s.
  destruct (decide (x = 0%N)) as [->|Hx]; [rewrite pretty_N_go_0; reflexivity|].
  rewrite pretty_N_go_step by lia. rewrite IH by (apply N.div_lt; lia).
  simpl. rewrite pretty_N_char_digit, pretty_N_char_val by (apply N.mod_lt; lia).
  f_equal. pose proof (N.div_mod x 10 ltac:(lia)) as Hdm. lia.
Qed.

Lemma pretty_N_go_nonempty (x : N) (s : string) : s <> "" -> pretty_N_go x s <> "".
Proof.
  revert s. induction (N.lt_wf_0 x) as [x _ IH]; intros s Hs.
  destruct (decide (x = 0%N)) as [->|Hx]; [rewrite pretty_N_go_0; exact Hs|].
  rewrite pretty_N_go_step by lia. apply IH; [apply N.div_lt; lia | discriminate].
Qed.

Lemma digits_pretty_pos (p : positive) : digits (pretty p) = Some (Z.pos p).
Proof.
  unfold pretty, pretty_positive, pretty, pretty_N.
  destruct (decide (N.pos p = 0%N)); [discriminate|].
  assert (Hne : pretty_N_go (N.pos p) "" <> "").
  { rewrite pretty_N_go_step by lia. apply pretty_N_go_nonempty. discriminate. }
  assert (Hd : all_chars is_digit (pretty_N_go (N.pos p) "") = true).
  { apply pretty_N_go_chars; [apply pretty_N_char_digit | reflexivity]. }
  pose proof (digits_from_pretty (N.pos p) "") as Hv. simpl in Hv.
  unfold digits. destruct (pretty_N_go (N.pos p) "") as [|c r]; [congruence|].
  simpl in Hd. apply andb_true_iff in Hd as [Hc _]. rewrite Hc. exact Hv.
Qed.

Lemma pretty_pos_first_digit (p : positive) :
  exists c r, pretty p = String c r /\ is_digit c = true.
Proof.
  assert (Hd : all_chars is_digit (pretty p) = true).
  { unfold pretty, pretty_positive, pretty, pretty_N.
    destruct (decide (N.pos p = 0%N)); [discriminate|].
    apply pretty_N_go_chars; [apply pretty_N_char_digit | reflexivity]. }
  pose proof (digits_pretty_pos p) as Hv.
  destruct (pretty p) as [|c r]; [discriminate|].
  simpl in Hd. apply andb_true_iff in Hd as [Hc _]. eauto.
Qed.

Lemma lstrip_id (s : string) :
  all_chars (fun c => negb (is_space c)) s = true -> lstrip s = s.
Proof.
  destruct s as [|c r]; [reflexivity|]. simpl. intros H.
  apply andb_true_iff in H as [Hc _]. apply negb_true_iff in Hc. rewrite Hc. reflexivity.
Qed.

Lemma rstrip_id (s : string) :
  all_chars (fun c => negb (is_space c)) s = true -> rstrip s = s.
Proof.
  intros H. rewrite <- (str_app_nil_r s) at 1. rewrite rstrip_app by exact H.
  apply str_app_nil_r.
Qed.

(** [int(str(z))] is [z]. *)
Lemma int_pretty (z : Z) : PyStr.int (pretty z) = Some z.
Proof.
  unfold PyStr.int, strip.
  assert (Hsp : all_chars (fun c => negb (is_space c)) (pretty z) = true).
  { apply pretty_Z_chars; [apply pretty_N_char_no_space | reflexivity]. }
  rewrite lstrip_id, rstrip_id by exact Hsp.
  destruct z as [|p|p]; unfold pretty, pretty_Z.
  - reflexivity.
  - destruct (pretty_pos_first_digit p) as (c & r & Hs & Hc).
    pose proof (digits_pretty_pos p) as Hv. rewrite Hs in *. unfold signed.
    destruct (Ascii.eqb c "+") eqn:E1.
    { apply Ascii.eqb_eq in E1. subst c. discriminate. }
    destruct (Ascii.eqb c "-") eqn:E2.
    { apply Ascii.eqb_eq in E2. subst c. discriminate. }
    exact Hv.
  - change ("-" +:+ pretty p) with (String "-" (pretty p)). unfold signed.
    simpl. rewrite digits_pretty_pos. reflexivity.
Qed.

(** A text of ASCII characters decodes. *)
Lemma utf8_valid_ascii (s : string) (fuel : nat) :
  all_chars (fun c => (N_of_ascii c <? 128)%N) s = true ->
  (String.length s < fuel)%nat -> utf8_valid fuel s = true.
Proof.
  revert fuel. induction s as [|c r IH]; intros fuel Hall Hf.
  - destruct fuel; [simpl in Hf; lia | reflexivity].
  - destruct fuel as [|fuel]; [simpl in Hf; lia|].
    simpl in Hall. apply andb_true_iff in Hall as [Hc Hr].
    simpl. rewrite Hc. apply IH; [exact Hr | simpl in Hf; lia].
Qed.

Lemma decodes_ascii (s : string) :
  all_chars (fun c => (N_of_ascii c <? 128)%N) s = true -> decodes s = true.
Proof. intros H. unfold decodes. apply utf8_valid_ascii; [exact H | lia]. Qed.

Lemma split_none (sep : ascii) (s : string) :
  all_chars (fun c => negb (Ascii.eqb c sep)) s = true -> split sep s = [s].
Proof.
  intros H. rewrite <- (str_app_nil_r s) at 1. rewrite split_app by exact H.
  simpl. rewrite str_app_nil_r. reflexivity.
Qed.

End NumberTextFacts.

(** ** Heating commands over the serial device *)

Section HeatFacts.

Import SerialComm.

Lemma pretty_Z_clean (z : Z) :
  all_chars (fun c => negb (PyStr.is_space c)) (pretty z) = true
  /\ all_chars (fun c => negb (Ascii.eqb c ":")) (pretty z) = true
  /\ all_chars (fun c => negb (Ascii.eqb c ",")) (pretty z) = true
  /\ all_chars (fun c => (N_of_ascii c <? 128)%N) (pretty z) = true.
Proof.
  split; [|split; [|split]]; apply pretty_Z_chars;
    first [apply pretty_N_char_no_space | apply pretty_N_char_no_colon
          | apply pretty_N_char_no_comma | apply pretty_N_char_ascii | reflexivity].
Qed.

Lemma heat_text_parts (c v : Z) :
  PyStr.split ":" (PyStr.strip ("HEAT:" ++ pretty c ++ ":" ++ pretty v
                               ++ String "010" EmptyString))
  = ["HEAT"; pretty c; pretty v].
Proof.
  destruct (pretty_Z_clean c) as (Hc1 & Hc2 & _).
  destruct (pretty_Z_clean v) as (Hv1 & Hv2 & _).
  set (nl := String "010" EmptyString).
  assert (Hstrip : PyStr.strip ("HEAT:" ++ pretty c ++ ":" ++ pretty v ++ nl)
                   = ("HEAT" ++ String ":" (pretty c ++ String ":" (pretty v)))%string).
  { unfold PyStr.strip.
    assert (Hl : PyStr.lstrip ("HEAT:" ++ pretty c ++ ":" ++ pretty v ++ nl)
                 = ("HEAT:" ++ pretty c ++ ":" ++ pretty v ++ nl)%string) by reflexivity.
    rewrite Hl.
    assert (Ht : ("HEAT:" ++ pretty c ++ ":" ++ pretty v ++ nl
                  = ("HEAT:" ++ pretty c ++ ":" ++ pretty v) ++ nl)%string).
    { rewrite !str_app_assoc. reflexivity. }
    rewrite Ht, rstrip_app.
    - change (PyStr.rstrip nl) with EmptyString. rewrite str_app_nil_r. reflexivity.
    - rewrite !all_chars_app, Hc1, Hv1. reflexivity. }
  rewrite Hstrip. rewrite split_app by reflexivity.
  assert (Hsep : forall z, PyStr.split ":" (String ":" z) = EmptyString :: PyStr.split ":" z)
    by reflexivity.
  rewrite Hsep. simpl List.hd. simpl List.tl.
  rewrite split_app by exact Hc2. rewrite Hsep. simpl List.hd. simpl List.tl.
  rewrite split_none by exact Hv2. rewrite !str_app_nil_r. reflexivity.
Qed.

Lemma heat_text_decodes (c v : Z) :
  PyStr.decodes ("HEAT:" ++ pretty c ++ ":" ++ pretty v ++ String "010" EmptyString) = true.
Proof.
  destruct (pretty_Z_clean c) as (_ & _ & _ & Hc).
  destruct (pretty_Z_clean v) as (_ & _ & _ & Hv).
  apply decodes_ascii. rewrite !all_chars_app, Hc, Hv. reflexivity.
Qed.

(** X15.  The device applies every command [HEAT:<id>:<v>] written with
    decimal integers: the channel addressed, taken from the defaults when
    the device has none under that id, gets heating on when [v] is not zero
    and off when it is, with its temperature raised by 0.1 when switched on
    and lowered by 0.05 when switched off above 25 degrees; its target,
    gains, period and duty and all other channels stay as they were. *)
Theorem write_heat_command (dev : MockSerial) (c v : Z) :
  exists ch',
    (write dev ("HEAT:" ++ pretty c ++ ":" ++ pretty v ++ String "010" EmptyString)).2
    = with_channels dev (<[c := ch']> (channels dev))
    /\ ch' = apply_heat (default fresh_channel (channels dev !! c)) (negb (v =? 0))
    /\ heating ch' = negb (v =? 0)
    /\ (temperature ch'
        == let t := temperature (default fresh_channel (channels dev !! c)) in
           if negb (v =? 0) then t + (1 # 10)
           else if Qlt_bool 25 t then t - (5 # 100) else t)%Q
    /\ target_temp ch' = target_temp (default fresh_channel (channels dev !! c))
    /\ kp ch' = kp (default fresh_channel (channels dev !! c))
    /\ ki ch' = ki (default fresh_channel (channels dev !! c))
    /\ kd ch' = kd (default fresh_channel (channels dev !! c))
    /\ control_period ch' = control_period (default fresh_channel (channels dev !! c))
    /\ max_duty ch' = max_duty (default fresh_channel (channels dev !! c)).
Proof.
  eexists. split; [|split; [reflexivity|]].
  - unfold write. rewrite heat_text_decodes, heat_text_parts. simpl.
    rewrite !int_pretty.
    destruct (channels dev !! c) as [ch|] eqn:Hc; simpl.
    + rewrite Hc. reflexivity.
    + rewrite lookup_insert_eq. simpl. rewrite insert_insert_eq. reflexivity.
  - simpl. split; [reflexivity|]. split.
    + destruct (negb (v =? 0)); [reflexivity|]. destruct (Qlt_bool _ _); reflexivity.
    + repeat (split; [reflexivity|]). reflexivity.
Qed.

(** X16.  Over an open simulated device [start_heating] and
    [stop_heating] of a channel of the range answer [True] and leave that
    channel heating, respectively not heating, the rest of the manager
    untouched.  Without a connection, on a closed connection or for an id
    outside the range they answer [False] and change nothing. *)
Theorem heating_commands (self : SerialManager) (channel : Z) :
  (forall dev, connection self = Some dev -> is_open dev = true ->
     0 <= channel < num_channels self ->
     (exists dev',
        start_heating self channel
        = (true, mk_manager (num_channels self) (Some dev') (last_data self))
        /\ (heating <$> channels dev' !! channel) = Some true
        /\ forall other, other <> channel ->
             channels dev' !! other = channels dev !! other)
     /\ (exists dev',
        stop_heating self channel
        = (true, mk_manager (num_channels self) (Some dev') (last_data self))
        /\ (heating <$> channels dev' !! channel) = Some false
        /\ forall other, other <> channel ->
             channels dev' !! other = channels dev !! other))
  /\ ((is_connected self = false \/ ~ (0 <= channel < num_channels self)) ->
      start_heating self channel = (false, self)
      /\ stop_heating self channel = (false, self)).
Proof.
  split.
  - intros dev Hc Ho Hr. apply in_range_true in Hr.
    unfold start_heating, stop_heating, send_command. rewrite Hr, Hc, Ho. simpl.
    split.
    + destruct (write_heat_command dev channel 1) as (ch' & Hw & _ & Hh & _).
      change (pretty 1) with "1" in Hw.
      assert (Ht : (("HEAT:" ++ pretty channel ++ ":1") ++ String "010" EmptyString
                    = "HEAT:" ++ pretty channel ++ ":" ++ "1" ++ String "010" EmptyString)%string).
      { rewrite !str_app_assoc. reflexivity. }
      rewrite Ht. destruct (write dev _) as [n dev']. simpl in Hw. subst dev'.
      eexists. split; [reflexivity|]. simpl. split.
      * rewrite lookup_insert_eq. simpl. rewrite Hh. reflexivity.
      * intros other Hne. apply lookup_insert_ne. congruence.
    + destruct (write_heat_command dev channel 0) as (ch' & Hw & _ & Hh & _).
      change (pretty 0) with "0" in Hw.
      assert (Ht : (("HEAT:" ++ pretty channel ++ ":0") ++ String "010" EmptyString
                    = "HEAT:" ++ pretty channel ++ ":" ++ "0" ++ String "010" EmptyString)%string).
      { rewrite !str_app_assoc. reflexivity. }
      rewrite Ht. destruct (write dev _) as [n dev']. simpl in Hw. subst dev'.
      eexists. split; [reflexivity|]. simpl. split.
      * rewrite lookup_insert_eq. simpl. rewrite Hh. reflexivity.
      * intros other Hne. apply lookup_insert_ne. congruence.
  - intros [Hc|Hr]; unfold start_heating, stop_heating, send_command.
    + unfold is_connected in Hc.
      destruct (in_range channel (num_channels self)); [|split; reflexivity].
      destruct (connection self) as [dev|]; [|split; reflexivity].
      rewrite Hc. split; reflexivity.
    + apply in_range_false in Hr. rewrite Hr. split; reflexivity.
Qed.

End HeatFacts.


(** ** Parameter commands over the serial device *)

Section PidCommandFacts.

Import SerialComm.

Variable str_float : Q -> string.

Lemma all_chars_impl (p q : ascii -> bool) (s : string) :
  (forall c, p c = true -> q c = true) -> all_chars p s = true -> all_chars q s = true.
Proof.
  intros Hpq. induction s as [|c r IH]; simpl; [reflexivity|].
  intros H. apply andb_true_iff in H as [Hc Hr]. rewrite (Hpq c Hc), (IH Hr). reflexivity.
Qed.

Lemma clean_field_parts (s : string) :
  clean_field s = true ->
  all_chars (fun c => negb (PyStr.is_space c)) s = true
  /\ all_chars (fun c => negb (Ascii.eqb c ":")) s = true
  /\ all_chars (fun c => negb (Ascii.eqb c ",")) s = true
  /\ all_chars (fun c => (N_of_ascii c <? 128)%N) s = true.
Proof.
  unfold clean_field. intros H.
  split; [|split; [|split]]; revert H; apply all_chars_impl; intros c Hc;
    repeat (apply andb_true_iff in Hc as [Hc ?]); assumption.
Qed.

Lemma split_cons (sep : ascii) (x y : string) :
  all_chars (fun c => negb (Ascii.eqb c sep)) x = true ->
  PyStr.split sep (x ++ String sep y) = x :: PyStr.split sep y.
Proof.
  intros H. rewrite split_app by exact H. simpl PyStr.split at 1 2.
  rewrite Ascii.eqb_refl. simpl. rewrite str_app_nil_r. reflexivity.
Qed.

Lemma str_opt_int_clean (v : option Z) :
  all_chars (fun ch => negb (PyStr.is_space ch)) (str_opt_int v) = true
  /\ all_chars (fun ch => negb (Ascii.eqb ch ":")) (str_opt_int v) = true
  /\ all_chars (fun ch => negb (Ascii.eqb ch ",")) (str_opt_int v) = true
  /\ all_chars (fun ch => (N_of_ascii ch <? 128)%N) (str_opt_int v) = true.
Proof.
  destruct v as [z|]; [apply pretty_Z_clean|].
  repeat split; reflexivity.
Qed.

(** What the device makes of the router's text: the id is read, the
    channel is created when unknown, and the six fields go to the
    conversions of the [PID] branch. *)
Lemma router_text_parsed (dev : MockSerial) (c : Z) (gp gi gd tg : Q)
    (period duty : option Z) :
  clean_field (str_float gp) = true -> clean_field (str_float gi) = true ->
  clean_field (str_float gd) = true -> clean_field (str_float tg) = true ->
  (write dev (router_pid_text str_float c gp gi gd tg period duty
              ++ String "010" EmptyString)).2
  = match parse_pid [str_float gp; str_float gi; str_float gd; str_float tg;
                     str_opt_int period; str_opt_int duty] with
    | Some v =>
        with_channels dev
          (<[c := apply_pid (default fresh_channel (channels dev !! c)) v]>
             (channels dev))
    | None =>
        with_channels dev
          (match channels dev !! c with
           | Some _ => channels dev
           | None => <[c := fresh_channel]> (channels dev)
           end)
    end.
Proof.
  intros Cp Ci Cd Ct.
  destruct (clean_field_parts _ Cp) as (Sp1 & Sp2 & Sp3 & Sp4).
  destruct (clean_field_parts _ Ci) as (Si1 & Si2 & Si3 & Si4).
  destruct (clean_field_parts _ Cd) as (Sd1 & Sd2 & Sd3 & Sd4).
  destruct (clean_field_parts _ Ct) as (St1 & St2 & St3 & St4).
  destruct (pretty_Z_clean c) as (Zc1 & Zc2 & Zc3 & Zc4).
  destruct (str_opt_int_clean period) as (Zp1 & Zp2 & Zp3 & Zp4).
  destruct (str_opt_int_clean duty) as (Zd1 & Zd2 & Zd3 & Zd4).
  unfold router_pid_text.
  set (body := (str_float gp ++ "," ++ str_float gi ++ "," ++ str_float gd ++ ","
                ++ str_float tg ++ "," ++ str_opt_int period ++ ","
                ++ str_opt_int duty)%string).
  set (nl := String "010" EmptyString).
  assert (Hb1 : all_chars (fun ch => negb (PyStr.is_space ch)) body = true).
  { unfold body. rewrite !all_chars_app, Sp1, Si1, Sd1, St1, Zp1, Zd1. reflexivity. }
  assert (Hb2 : all_chars (fun ch => negb (Ascii.eqb ch ":")) body = true).
  { unfold body. rewrite !all_chars_app, Sp2, Si2, Sd2, St2, Zp2, Zd2. reflexivity. }
  assert (Hb4 : all_chars (fun ch => (N_of_ascii ch <? 128)%N) body = true).
  { unfold body. rewrite !all_chars_app, Sp4, Si4, Sd4, St4, Zp4, Zd4. reflexivity. }
  assert (Hdec : PyStr.decodes (("PID:" ++ pretty c ++ ":" ++ body) ++ nl) = true).
  { apply decodes_ascii. rewrite !all_chars_app, Zc4, Hb4. reflexivity. }
  assert (Hstrip : PyStr.strip (("PID:" ++ pretty c ++ ":" ++ body) ++ nl)
                   = ("PID" ++ String ":" (pretty c ++ String ":" body))%string).
  { unfold PyStr.strip.
    assert (Hl : PyStr.lstrip (("PID:" ++ pretty c ++ ":" ++ body) ++ nl)
                 = (("PID:" ++ pretty c ++ ":" ++ body) ++ nl)%string) by reflexivity.
    rewrite Hl, rstrip_app.
    - change (PyStr.rstrip nl) with EmptyString. rewrite str_app_nil_r. reflexivity.
    - rewrite !all_chars_app, Zc1, Hb1. reflexivity. }
  assert (Hparts : PyStr.split ":" ("PID" ++ String ":" (pretty c ++ String ":" body))
                   = ["PID"; pretty c; body]).
  { rewrite split_cons by reflexivity. rewrite split_cons by exact Zc2.
    rewrite split_none by exact Hb2. reflexivity. }
  assert (Hfields : PyStr.split "," body
                    = [str_float gp; str_float gi; str_float gd; str_float tg;
                       str_opt_int period; str_opt_int duty]).
  { unfold body.
    change ("," ++ ?x)%string with (String "," x).
    rewrite split_cons by exact Sp3.
    change ("," ++ ?x)%string with (String "," x).
    rewrite split_cons by exact Si3.
    change ("," ++ ?x)%string with (String "," x).
    rewrite split_cons by exact Sd3.
    change ("," ++ ?x)%string with (String "," x).
    rewrite split_cons by exact St3.
    change ("," ++ ?x)%string with (String "," x).
    rewrite split_cons by exact Zp3.
    rewrite split_none by exact Zd3. reflexivity. }
  unfold write. rewrite Hdec, Hstrip, Hparts. simpl.
  rewrite int_pretty, Hfields.
  destruct (parse_pid _) as [v|]; [|reflexivity].
  destruct (channels dev !! c) as [ch|] eqn:Hc; simpl.
  - rewrite Hc. reflexivity.
  - rewrite lookup_insert_eq. simpl. rewrite insert_insert_eq. reflexivity.
Qed.

(** X17.  The text built by [update_channel_pid], with a colon after the
    channel id, sent over an open connection by [send_command], which
    answers [True] in every case below.  The four floats are printed as
    fields the device reads back (ASCII text without white space, colon
    or comma that [float] accepts).  When the request carries both the
    control period and the duty, the channel addressed gets the four
    values read, that period and that duty, and keeps its temperature
    and heating flag; the other channels are untouched.  When the request
    carries [null] for the period or the duty, the text holds [None],
    the device's [int] rejects it and the command is dropped: no channel
    changes (a channel unknown so far is created with the defaults). *)
Theorem router_pid_command_applied (self : SerialManager) (dev : MockSerial) (c : Z)
    (gp gi gd tg : Q) (period duty : option Z) (vp vi vd vt : Q) :
  connection self = Some dev -> is_open dev = true ->
  clean_field (str_float gp) = true -> PyStr.float (str_float gp) = Some vp ->
  clean_field (str_float gi) = true -> PyStr.float (str_float gi) = Some vi ->
  clean_field (str_float gd) = true -> PyStr.float (str_float gd) = Some vd ->
  clean_field (str_float tg) = true -> PyStr.float (str_float tg) = Some vt ->
  (forall p d, period = Some p -> duty = Some d ->
     send_command self (router_pid_text str_float c gp gi gd tg period duty)
     = (true,
        mk_manager (num_channels self)
          (Some (with_channels dev
                   (<[c := mk_mock_channel
                             (temperature (default fresh_channel (channels dev !! c)))
                             vt vp vi vd p d
                             (heating (default fresh_channel (channels dev !! c)))]>
                      (channels dev))))
          (last_data self)))
  /\ (period = None \/ duty = None ->
      send_command self (router_pid_text str_float c gp gi gd tg period duty)
      = (true,
         mk_manager (num_channels self)
           (Some (with_channels dev
                    (match channels dev !! c with
                     | Some _ => channels dev
                     | None => <[c := fresh_channel]> (channels dev)
                     end)))
           (last_data self))).
Proof.
  intros Hconn Hopen Cp Fp Ci Fi Cd Fd Ct Ft.
  pose proof (router_text_parsed dev c gp gi gd tg period duty Cp Ci Cd Ct) as Hw.
  assert (Hsend : send_command self (router_pid_text str_float c gp gi gd tg period duty)
                  = (true,
                     mk_manager (num_channels self)
                       (Some (write dev (router_pid_text str_float c gp gi gd tg period duty
                                         ++ String "010" EmptyString)).2)
                       (last_data self))).
  { unfold send_command. rewrite Hconn, Hopen. simpl.
    destruct (write dev _) as [n dev']. reflexivity. }
  rewrite Hsend, Hw. unfold parse_pid. simpl. rewrite Fp, Fi, Fd, Ft. simpl.
  split.
  - intros p d -> ->. simpl. rewrite !int_pretty. reflexivity.
  - intros [-> | ->].
    + reflexivity.
    + destruct period as [p|]; simpl; [rewrite int_pretty|]; reflexivity.
Qed.

End PidCommandFacts.


(** ** The simulated serial device as a whole *)

Section DeviceFacts.

Import SerialComm.

(** What [write] can leave behind: the device as it was, the device with
    the channel addressed created from the defaults, or the device with
    that channel rewritten by the command. *)
Lemma write_cases (dev : MockSerial) (data : string) :
  (write dev data).1 = Z.of_nat (String.length data)
  /\ ((write dev data).2 = dev
      \/ exists c,
           (write dev data).2
           = with_channels dev
               (match channels dev !! c with
                | Some _ => channels dev
                | None => <[c := fresh_channel]> (channels dev)
                end)
           \/ (exists v,
                (write dev data).2
                = with_channels dev
                    (<[c := apply_heat (default fresh_channel (channels dev !! c)) v]>
                       (channels dev)))
           \/ (exists v,
                (write dev data).2
                = with_channels dev
                    (<[c := apply_pid (default fresh_channel (channels dev !! c)) v]>
                       (channels dev)))).
Proof.
  unfold write.
  destruct (negb (PyStr.decodes data)); [split; [reflexivity | left; reflexivity]|].
  destruct (length (PyStr.split ":" (PyStr.strip data)) <? 2)%nat;
    [split; [reflexivity | left; reflexivity]|].
  destruct (PyStr.split ":" (PyStr.strip data) !! 0%nat) as [cmd_type|];
    [|split; [reflexivity | left; reflexivity]].
  destruct (PyStr.split ":" (PyStr.strip data) !! 1%nat) as [p1|];
    [|split; [reflexivity | left; reflexivity]].
  destruct (PyStr.int p1) as [c|]; [|split; [reflexivity | left; reflexivity]].
  assert (Hch : default fresh_channel
                  (match channels dev !! c with
                   | Some _ => channels dev
                   | None => <[c := fresh_channel]> (channels dev)
                   end !! c)
                = default fresh_channel (channels dev !! c)).
  { destruct (channels dev !! c) eqn:E; [rewrite E; reflexivity|].
    rewrite lookup_insert_eq. reflexivity. }
  assert (Hins : forall x,
            <[c := x]> (match channels dev !! c with
                        | Some _ => channels dev
                        | None => <[c := fresh_channel]> (channels dev)
                        end)
            = <[c := x]> (channels dev)).
  { intros x. destruct (channels dev !! c); [reflexivity | apply insert_insert_eq]. }
  cbv zeta. rewrite Hch.
  destruct (String.eqb cmd_type "HEAT").
  - destruct (PyStr.split ":" (PyStr.strip data) !! 2%nat) as [p2|];
      [|split; [reflexivity | right; exists c; left; reflexivity]].
    destruct (PyStr.int p2) as [v|];
      [|split; [reflexivity | right; exists c; left; reflexivity]].
    rewrite Hins. split; [reflexivity|]. right. exists c. right. left. eexists. reflexivity.
  - destruct (String.eqb cmd_type "PID");
      [|split; [reflexivity | right; exists c; left; reflexivity]].
    destruct (PyStr.split ":" (PyStr.strip data) !! 2%nat) as [p2|];
      [|split; [reflexivity | right; exists c; left; reflexivity]].
    destruct (parse_pid (PyStr.split "," p2)) as [v|];
      [|split; [reflexivity | right; exists c; left; reflexivity]].
    rewrite Hins. split; [reflexivity|]. right. exists c. right. right. eexists. reflexivity.
Qed.

(** X18.  Whatever bytes are written to the device, [write] answers
    their number, keeps the device open or closed as it was, removes no
    channel and changes or creates at most one. *)
Theorem write_touches_one_channel (dev : MockSerial) (data : string) :
  (write dev data).1 = Z.of_nat (String.length data)
  /\ is_open (write dev data).2 = is_open dev
  /\ mock_num_channels (write dev data).2 = mock_num_channels dev
  /\ (forall j, is_Some (channels dev !! j) -> is_Some (channels (write dev data).2 !! j))
  /\ exists c, forall j, j <> c ->
       channels (write dev data).2 !! j = channels dev !! j.
Proof.
  destruct (write_cases dev data) as [Hlen Hst]. split; [exact Hlen|].
  destruct Hst as [H | (c & [H | [(v & H) | (v & H)]])]; rewrite H.
  - split; [reflexivity|]. split; [reflexivity|]. split; [auto|].
    exists 0. reflexivity.
  - simpl. split; [reflexivity|]. split; [reflexivity|]. split.
    + intros j Hj. destruct (channels dev !! c) eqn:E; [exact Hj|].
      destruct (decide (c = j)) as [->|Hne];
        [rewrite lookup_insert_eq; eauto | rewrite lookup_insert_ne by exact Hne; exact Hj].
    + exists c. intros j Hne. destruct (channels dev !! c); [reflexivity|].
      apply lookup_insert_ne. congruence.
  - simpl. split; [reflexivity|]. split; [reflexivity|]. split.
    + intros j Hj. destruct (decide (c = j)) as [->|Hne];
        [rewrite lookup_insert_eq; eauto | rewrite lookup_insert_ne by exact Hne; exact Hj].
    + exists c. intros j Hne. apply lookup_insert_ne. congruence.
  - simpl. split; [reflexivity|]. split; [reflexivity|]. split.
    + intros j Hj. destruct (decide (c = j)) as [->|Hne];
        [rewrite lookup_insert_eq; eauto | rewrite lookup_insert_ne by exact Hne; exact Hj].
    + exists c. intros j Hne. apply lookup_insert_ne. congruence.
Qed.

Lemma floor_insert (dev : MockSerial) (c : Z) (x : mock_channel) :
  mock_temp_floor dev -> (2495 # 100 <= temperature x)%Q ->
  mock_temp_floor (with_channels dev (<[c := x]> (channels dev))).
Proof.
  intros Hf Hx j ch. simpl. destruct (decide (c = j)) as [->|Hne].
  - rewrite lookup_insert_eq. intros [= <-]. exact Hx.
  - rewrite lookup_insert_ne by exact Hne. apply Hf.
Qed.

Lemma floor_default (dev : MockSerial) (c : Z) :
  mock_temp_floor dev ->
  (2495 # 100 <= temperature (default fresh_channel (channels dev !! c)))%Q.
Proof.
  intros Hf. destruct (channels dev !! c) as [ch|] eqn:E; simpl.
  - exact (Hf c ch E).
  - unfold Qle. simpl. lia.
Qed.

Lemma floor_readline (ids : list Z) (dev : MockSerial) :
  mock_temp_floor dev -> mock_temp_floor (readline_loop dev ids).2.
Proof.
  revert dev. induction ids as [|i rest IH]; intros dev Hf; simpl; [exact Hf|].
  destruct (channels dev !! i) as [ch|] eqn:E; [|exact Hf].
  assert (H1 : mock_temp_floor (with_channels dev (<[i := drift ch]> (channels dev)))).
  { apply floor_insert; [exact Hf|]. pose proof (Hf i ch E) as Hch.
    unfold drift. simpl. destruct (heating ch); [lra|].
    unfold Qlt_bool. destruct (Qle_bool (temperature ch) 25) eqn:E2; simpl; [exact Hch|].
    assert (Hgt : (25 < temperature ch)%Q).
    { apply Qnot_le_lt. intros H. apply Qle_bool_iff in H. congruence. }
    lra. }
  specialize (IH _ H1).
  destruct (readline_loop _ rest) as [[cds|e] dev2]; exact IH.
Qed.

Lemma uniform_within (m u : Q) :
  (0 <= u <= 1)%Q -> (- Qabs m <= uniform (- m) m u <= Qabs m)%Q.
Proof.
  intros [H0 H1]. unfold uniform.
  destruct (Qlt_le_dec m 0) as [Hm|Hm].
  - rewrite (Qabs_neg m) by lra.
    assert (Hp : (0 <= (- m) * u)%Q) by (apply Qmult_le_0_compat; lra).
    assert (Hq : (0 <= (- m) * (1 - u))%Q) by (apply Qmult_le_0_compat; lra).
    lra.
  - rewrite (Qabs_pos m) by exact Hm.
    assert (Hp : (0 <= m * u)%Q) by (apply Qmult_le_0_compat; lra).
    assert (Hq : (0 <= m * (1 - u))%Q) by (apply Qmult_le_0_compat; lra).
    lra.
Qed.

(** X19.  The channels of a new device are at 25 degrees, and [write] of
    any bytes, [readline] at any clock reading and [reset] keep every
    channel at or above 24.95 degrees once all of them are.  The one other
    method that changes a temperature, [add_disturbance], keeps the set of
    channels and moves each temperature by at most the absolute value of
    its magnitude, leaving everything else of the channel as it was: it
    alone can take a channel under 24.95. *)
Theorem device_temperature_floor (dev : MockSerial) (n : Z) (start : Q)
    (data : string) (now magnitude : Q) (draw : Z -> Q) :
  (forall i, (0 <= draw i <= 1)%Q) ->
  mock_temp_floor (mock_init n start)
  /\ (mock_temp_floor dev ->
      mock_temp_floor (write dev data).2
      /\ mock_temp_floor (readline dev now).2
      /\ mock_temp_floor (mock_reset dev).2)
  /\ (forall j,
        match channels dev !! j with
        | Some ch =>
            exists ch',
              channels (mock_add_disturbance dev magnitude draw) !! j = Some ch'
              /\ (temperature ch - Qabs magnitude <= temperature ch'
                  <= temperature ch + Qabs magnitude)%Q
              /\ target_temp ch' = target_temp ch
              /\ kp ch' = kp ch /\ ki ch' = ki ch /\ kd ch' = kd ch
              /\ control_period ch' = control_period ch
              /\ max_duty ch' = max_duty ch
              /\ heating ch' = heating ch
        | None => channels (mock_add_disturbance dev magnitude draw) !! j = None
        end).
Proof.
  intros Hdraw. split; [|split].
  - intros j ch. unfold mock_init. simpl.
    rewrite (lookup_tabulate (fun _ => fresh_channel)).
    destruct (decide (j ∈ seqZ 0 n)); [|discriminate].
    intros [= <-]. unfold Qle. simpl. lia.
  - intros Hf. split; [|split].
    + destruct (write_cases dev data) as [_ Hst].
      destruct Hst as [H | (c & [H | [(v & H) | (v & H)]])]; rewrite H.
      * exact Hf.
      * destruct (channels dev !! c) eqn:E.
        -- intros j ch. simpl. apply Hf.
        -- apply floor_insert; [exact Hf|]. unfold Qle. simpl. lia.
      * apply floor_insert; [exact Hf|].
        pose proof (floor_default dev c Hf) as Hd.
        unfold apply_heat. simpl. destruct v; [lra|].
        unfold Qlt_bool.
        destruct (Qle_bool (temperature (default fresh_channel (channels dev !! c))) 25)
          eqn:E2; simpl; [exact Hd|].
        assert (Hgt : (25 < temperature (default fresh_channel (channels dev !! c)))%Q).
        { apply Qnot_le_lt. intros Hle. apply Qle_bool_iff in Hle. congruence. }
        lra.
      * apply floor_insert; [exact Hf|].
        pose proof (floor_default dev c Hf) as Hd.
        destruct v as [[[[[a b] c0] d] e] f]. exact Hd.
    + unfold readline.
      destruct (Qlt_bool (now - last_update dev) update_interval); [exact Hf|].
      assert (Hf' : mock_temp_floor (with_last_update dev now)) by exact Hf.
      pose proof (floor_readline (seqZ 0 (mock_num_channels dev)) _ Hf') as Hl.
      destruct (readline_loop _ _) as [[cds|e] dev2]; exact Hl.
    + assert (Hgen : forall (ids : list Z) (chs : gmap Z mock_channel),
                 (forall j ch, chs !! j = Some ch -> (2495 # 100 <= temperature ch)%Q) ->
                 forall j ch,
                   foldl (fun m i => <[i := fresh_channel]> m) chs ids !! j = Some ch ->
                   (2495 # 100 <= temperature ch)%Q).
      { induction ids as [|i rest IH]; intros chs Hc; simpl; [exact Hc|].
        apply IH. intros j ch. destruct (decide (i = j)) as [->|Hne].
        - rewrite lookup_insert_eq. intros [= <-]. unfold Qle. simpl. lia.
        - rewrite lookup_insert_ne by exact Hne. apply Hc. }
      unfold mock_reset.
      destruct (0 <? mock_num_channels dev); intros j ch; simpl; apply Hgen; exact Hf.
  - intros j. unfold mock_add_disturbance. simpl. rewrite map_lookup_imap.
    destruct (channels dev !! j) as [ch|]; simpl; [|reflexivity].
    eexists. split; [reflexivity|]. simpl.
    pose proof (uniform_within magnitude (draw j) (Hdraw j)) as [Hlo Hhi].
    split; [split; lra|]. repeat (split; [reflexivity|]). reflexivity.
Qed.

Lemma mock_reset_other (ids : list Z) (chs : gmap Z mock_channel) (i : Z) :
  i ∉ ids ->
  foldl (fun m j => <[j := fresh_channel]> m) chs ids !! i = chs !! i.
Proof.
  revert chs. induction ids as [|j rest IH]; intros chs Hi; simpl; [reflexivity|].
  rewrite IH by (intros H; apply Hi; right; exact H).
  apply lookup_insert_ne. intros ->. apply Hi. left.
Qed.

(** X20.  On a device with at least one channel [reset] returns, puts
    the default dict under every id of the range, whether one was there
    or not, leaves the channels that commands created under ids outside
    the range, the open flag and the time of the last update as they
    are, and a second [reset] changes nothing more.  On a device whose
    channel count is zero or negative the loop does not run and the
    [print] after it raises [UnboundLocalError], the device unchanged. *)
Theorem mock_reset_range (dev : MockSerial) (i : Z) :
  (0 < mock_num_channels dev ->
     (mock_reset dev).1 = Returned ()
     /\ (0 <= i < mock_num_channels dev ->
         channels (mock_reset dev).2 !! i = Some fresh_channel)
     /\ (~ (0 <= i < mock_num_channels dev) ->
         channels (mock_reset dev).2 !! i = channels dev !! i)
     /\ is_open (mock_reset dev).2 = is_open dev
     /\ last_update (mock_reset dev).2 = last_update dev
     /\ mock_num_channels (mock_reset dev).2 = mock_num_channels dev
     /\ mock_reset (mock_reset dev).2 = mock_reset dev)
  /\ (mock_num_channels dev <= 0 ->
     mock_reset dev = (Raised UnboundLocalError, dev)).
Proof.
  assert (Hst : forall d, (mock_reset d).2
                 = with_channels d
                     (foldl (fun chs j => <[j := fresh_channel]> chs) (channels d)
                        (seqZ 0 (mock_num_channels d)))).
  { intros d. unfold mock_reset. destruct (0 <? mock_num_channels d); reflexivity. }
  assert (Hin : forall d j, 0 <= j < mock_num_channels d ->
                  channels (mock_reset d).2 !! j = Some fresh_channel).
  { intros d j Hj. rewrite Hst. simpl. apply mock_reset_lookup.
    apply elem_of_seqZ. lia. }
  assert (Hout : forall d j, ~ (0 <= j < mock_num_channels d) ->
                   channels (mock_reset d).2 !! j = channels d !! j).
  { intros d j Hj. rewrite Hst. simpl. apply mock_reset_other.
    intros H. apply elem_of_seqZ in H. lia. }
  assert (Hn : mock_num_channels (mock_reset dev).2 = mock_num_channels dev)
    by (rewrite Hst; reflexivity).
  split.
  - intros Hpos. apply Z.ltb_lt in Hpos.
    split; [unfold mock_reset; rewrite Hpos; reflexivity|].
    split; [apply Hin|]. split; [apply Hout|].
    split; [rewrite Hst; reflexivity|]. split; [rewrite Hst; reflexivity|].
    split; [exact Hn|].
    assert (Hm : channels (mock_reset (mock_reset dev).2).2 = channels (mock_reset dev).2).
    { apply map_eq. intros j.
      destruct (decide (0 <= j < mock_num_channels dev)) as [Hj|Hj].
      - rewrite Hin by (rewrite Hn; exact Hj). rewrite Hin by exact Hj. reflexivity.
      - rewrite Hout by (rewrite Hn; exact Hj). reflexivity. }
    assert (Hs2 : (mock_reset (mock_reset dev).2).2 = (mock_reset dev).2).
    { rewrite (Hst (mock_reset dev).2) in Hm |- *.
      destruct (mock_reset dev).2 as [o chs lu m]. unfold with_channels in *.
      simpl in *. rewrite Hm. reflexivity. }
    assert (Hfst : forall d, (0 <? mock_num_channels d) = true ->
                     (mock_reset d).1 = Returned ()).
    { intros d Hd. unfold mock_reset. rewrite Hd. reflexivity. }
    rewrite (surjective_pairing (mock_reset (mock_reset dev).2)).
    rewrite (surjective_pairing (mock_reset dev)) at 3.
    rewrite Hs2, (Hfst dev Hpos), (Hfst (mock_reset dev).2) by (rewrite Hn; exact Hpos).
    reflexivity.
  - intros Hle. unfold mock_reset.
    assert (Hz : (0 <? mock_num_channels dev) = false) by (apply Z.ltb_ge; lia).
    rewrite Hz. f_equal.
    assert (Hs : seqZ 0 (mock_num_channels dev) = []).
    { unfold seqZ. replace (Z.to_nat (mock_num_channels dev)) with 0%nat by lia.
      reflexivity. }
    rewrite Hs. destruct dev as [o chs lu m]. reflexivity.
Qed.


End DeviceFacts.

(** ** The serial front of the plant (tests/mock_serial.py) *)

Section PlantFrontFacts.

Variable str_float : Q -> string.

Lemma strip_line (t : string) :
  all_chars (fun c => negb (PyStr.is_space c)) t = true ->
  PyStr.strip (t ++ String "010" EmptyString) = t.
Proof.
  intros H. unfold PyStr.strip. destruct t as [|c r]; [reflexivity|].
  assert (Hl : PyStr.lstrip (String c r ++ String "010" EmptyString)
               = (String c r ++ String "010" EmptyString)%string).
  { rewrite app_cons. simpl.
    simpl in H. apply andb_true_iff in H as [Hc _]. apply negb_true_iff in Hc.
    rewrite Hc. reflexivity. }
  rewrite Hl, rstrip_app by exact H.
  change (PyStr.rstrip (String "010" EmptyString)) with EmptyString.
  apply str_app_nil_r.
Qed.

(** X22.  The serial front of the plant takes neither of the manager's
    command texts.  The text of [set_pid_params] carries six values after
    the channel id where [write] unpacks exactly four, and the text of
    [start_heating] and [stop_heating] begins with [HEAT:] where [write]
    looks for [HEAT_ON:] or [HEAT_OFF:]: in both cases [write] answers 0
    and the plant is as before. *)
Theorem plant_front_rejects_manager_texts (self : TestMockSerial.t) (c : Z)
    (gp gi gd tg : Q) (period duty v : Z) :
  clean_field (str_float gp) = true -> clean_field (str_float gi) = true ->
  clean_field (str_float gd) = true -> clean_field (str_float tg) = true ->
  TestMockSerial.write self
    (SerialComm.pid_text str_float c gp gi gd tg period duty ++ String "010" EmptyString)
  = (0, self)
  /\ TestMockSerial.write self
       ("HEAT:" ++ pretty c ++ ":" ++ pretty v ++ String "010" EmptyString)
     = (0, self).
Proof.
  intros Cp Ci Cd Ct.
  destruct (clean_field_parts _ Cp) as (Sp1 & Sp2 & Sp3 & Sp4).
  destruct (clean_field_parts _ Ci) as (Si1 & Si2 & Si3 & Si4).
  destruct (clean_field_parts _ Cd) as (Sd1 & Sd2 & Sd3 & Sd4).
  destruct (clean_field_parts _ Ct) as (St1 & St2 & St3 & St4).
  destruct (pretty_Z_clean c) as (Zc1 & Zc2 & Zc3 & Zc4).
  destruct (pretty_Z_clean period) as (Zp1 & Zp2 & Zp3 & Zp4).
  destruct (pretty_Z_clean duty) as (Zd1 & Zd2 & Zd3 & Zd4).
  destruct (pretty_Z_clean v) as (Zv1 & Zv2 & Zv3 & Zv4).
  split.
  - unfold TestMockSerial.write.
    destruct (negb (TestMockSerial.is_open self)); [reflexivity|].
    destruct (negb (PyStr.decodes _)); [reflexivity|].
    unfold SerialComm.pid_text.
    set (body := (pretty c ++ "," ++ str_float gp ++ "," ++ str_float gi ++ ","
                  ++ str_float gd ++ "," ++ str_float tg ++ "," ++ pretty period
                  ++ "," ++ pretty duty)%string).
    assert (Hb1 : all_chars (fun ch => negb (PyStr.is_space ch)) body = true).
    { unfold body. rewrite !all_chars_app, Zc1, Sp1, Si1, Sd1, St1, Zp1, Zd1. reflexivity. }
    assert (Hb2 : all_chars (fun ch => negb (Ascii.eqb ch ":")) body = true).
    { unfold body. rewrite !all_chars_app, Zc2, Sp2, Si2, Sd2, St2, Zp2, Zd2. reflexivity. }
    change ("PID:" ++ body)%string with ("PID" ++ String ":" body)%string.
    rewrite strip_line by (rewrite all_chars_app; simpl; exact Hb1).
    assert (Hsw : TestMockSerial.startswith "PID:" ("PID" ++ String ":" body) = true)
      by reflexivity.
    rewrite Hsw.
    rewrite split_cons by reflexivity. rewrite split_none by exact Hb2. simpl.
    assert (Hfields : PyStr.split "," body
                      = [pretty c; str_float gp; str_float gi; str_float gd;
                         str_float tg; pretty period; pretty duty]).
    { unfold body.
      change ("," ++ ?x)%string with (String "," x).
      rewrite split_cons by exact Zc3.
      change ("," ++ ?x)%string with (String "," x).
      rewrite split_cons by exact Sp3.
      change ("," ++ ?x)%string with (String "," x).
      rewrite split_cons by exact Si3.
      change ("," ++ ?x)%string with (String "," x).
      rewrite split_cons by exact Sd3.
      change ("," ++ ?x)%string with (String "," x).
      rewrite split_cons by exact St3.
      change ("," ++ ?x)%string with (String "," x).
      rewrite split_cons by exact Zp3.
      rewrite split_none by exact Zd3. reflexivity. }
    rewrite Hfields. simpl. rewrite int_pretty. reflexivity.
  - unfold TestMockSerial.write.
    destruct (negb (TestMockSerial.is_open self)); [reflexivity|].
    destruct (negb (PyStr.decodes _)); [reflexivity|].
    assert (Ht : ("HEAT:" ++ pretty c ++ ":" ++ pretty v ++ String "010" EmptyString
                  = ("HEAT:" ++ pretty c ++ ":" ++ pretty v)
                    ++ String "010" EmptyString)%string).
    { rewrite !str_app_assoc. reflexivity. }
    rewrite Ht.
    rewrite strip_line by (rewrite !all_chars_app, Zc1, Zv1; reflexivity).
    reflexivity.
Qed.

(** X23.  On an open front, [HEAT_ON:<id>] and [HEAT_OFF:<id>] for a
    channel of the plant's range set that channel's heating flag, leave
    its other entries and the other channels as they were, and answer the
    number of bytes written; either command rebinds the plant's
    disturbance attribute to the float 0.0. *)
Theorem plant_front_heat_commands (self : TestMockSerial.t) (c : Z)
    (ch : MockPIDSystem.chan) (on : bool) :
  TestMockSerial.is_open self = true ->
  0 <= c < MockPIDSystem.num_channels (TestMockSerial.pid_system self) ->
  MockPIDSystem.channels (TestMockSerial.pid_system self) !! c = Some ch ->
  let text := ((if on then "HEAT_ON:" else "HEAT_OFF:") ++ pretty c
               ++ String "010" EmptyString)%string in
  exists sys,
    TestMockSerial.write self text
    = (Z.of_nat (String.length text), TestMockSerial.mk true sys)
    /\ MockPIDSystem.channels sys !! c = Some (MockPIDSystem.with_heating ch on)
    /\ MockPIDSystem.disturbance sys = MockPIDSystem.DFloat 0
    /\ forall other, other <> c ->
         MockPIDSystem.channels sys !! other
         = MockPIDSystem.channels (TestMockSerial.pid_system self) !! other.
Proof.
  intros Ho Hr Hc text.
  destruct (pretty_Z_clean c) as (Zc1 & Zc2 & Zc3 & Zc4).
  apply in_range_true in Hr.
  assert (Hdec : PyStr.decodes text = true).
  { apply decodes_ascii. unfold text. destruct on; rewrite !all_chars_app, Zc4; reflexivity. }
  unfold TestMockSerial.write. rewrite Ho, Hdec. simpl negb. cbv iota.
  set (len := Z.of_nat (String.length text)).
  destruct on.
  - assert (Ht : text = (("HEAT_ON" ++ String ":" (pretty c))
                         ++ String "010" EmptyString)%string).
    { unfold text. rewrite !str_app_assoc. reflexivity. }
    rewrite Ht. rewrite strip_line by (rewrite all_chars_app; simpl; exact Zc1).
    assert (Hsw : TestMockSerial.startswith "PID:" ("HEAT_ON" ++ String ":" (pretty c))
                  = false) by reflexivity.
    assert (Hsw2 : TestMockSerial.startswith "HEAT_ON:" ("HEAT_ON" ++ String ":" (pretty c))
                   = true) by reflexivity.
    rewrite Hsw, Hsw2. simpl orb. cbv iota.
    rewrite split_cons by reflexivity. rewrite split_none by exact Zc2.
    rewrite int_pretty. unfold MockPIDSystem.set_heating. rewrite Hr, Hc.
    eexists. split; [reflexivity|]. simpl.
    split; [apply lookup_insert_eq|]. split; [reflexivity|].
    intros other Hne. apply lookup_insert_ne. congruence.
  - assert (Ht : text = (("HEAT_OFF" ++ String ":" (pretty c))
                         ++ String "010" EmptyString)%string).
    { unfold text. rewrite !str_app_assoc. reflexivity. }
    rewrite Ht. rewrite strip_line by (rewrite all_chars_app; simpl; exact Zc1).
    assert (Hsw : TestMockSerial.startswith "PID:" ("HEAT_OFF" ++ String ":" (pretty c))
                  = false) by reflexivity.
    assert (Hsw2 : TestMockSerial.startswith "HEAT_ON:" ("HEAT_OFF" ++ String ":" (pretty c))
                   = false) by reflexivity.
    assert (Hsw3 : TestMockSerial.startswith "HEAT_OFF:" ("HEAT_OFF" ++ String ":" (pretty c))
                   = true) by reflexivity.
    rewrite Hsw, Hsw2, Hsw3. simpl orb. cbv iota.
    rewrite split_cons by reflexivity. rewrite split_none by exact Zc2.
    rewrite int_pretty. unfold MockPIDSystem.set_heating. rewrite Hr, Hc.
    eexists. split; [reflexivity|]. simpl.
    split; [apply lookup_insert_eq|]. split; [reflexivity|].
    intros other Hne. apply lookup_insert_ne. congruence.
Qed.

End PlantFrontFacts.

Section PlantFrontPid.

(** X24.  On an open front the command [PID:<id>,<kp>,<ki>,<kd>,<target>]
    for a channel of the plant's range, with four fields that [float]
    reads, stores the four values read and answers the number of bytes
    written; since the front passes no period and no duty on, the channel's
    control period and duty are put back to 100 whatever they were. *)
Theorem plant_front_pid_command (self : TestMockSerial.t) (c : Z)
    (ch : MockPIDSystem.chan) (a b g d : string) (va vb vg vd : Q) :
  TestMockSerial.is_open self = true ->
  0 <= c < MockPIDSystem.num_channels (TestMockSerial.pid_system self) ->
  MockPIDSystem.channels (TestMockSerial.pid_system self) !! c = Some ch ->
  clean_field a = true -> PyStr.float a = Some va ->
  clean_field b = true -> PyStr.float b = Some vb ->
  clean_field g = true -> PyStr.float g = Some vg ->
  clean_field d = true -> PyStr.float d = Some vd ->
  let text := ("PID:" ++ pretty c ++ "," ++ a ++ "," ++ b ++ "," ++ g ++ "," ++ d
               ++ String "010" EmptyString)%string in
  exists sys ch',
    TestMockSerial.write self text
    = (Z.of_nat (String.length text), TestMockSerial.mk true sys)
    /\ MockPIDSystem.channels sys !! c = Some ch'
    /\ MockPIDSystem.kp ch' = va /\ MockPIDSystem.ki ch' = vb
    /\ MockPIDSystem.kd ch' = vg /\ MockPIDSystem.target_temp ch' = vd
    /\ MockPIDSystem.control_period ch' = 100 /\ MockPIDSystem.max_duty ch' = 100
    /\ MockPIDSystem.current_temp ch' = MockPIDSystem.current_temp ch
    /\ MockPIDSystem.heating ch' = MockPIDSystem.heating ch
    /\ MockPIDSystem.integral ch' = MockPIDSystem.integral ch.
Proof.
  intros Ho Hr Hc Ca Fa Cb Fb Cg Fg Cd Fd text.
  destruct (clean_field_parts _ Ca) as (Sa1 & Sa2 & Sa3 & Sa4).
  destruct (clean_field_parts _ Cb) as (Sb1 & Sb2 & Sb3 & Sb4).
  destruct (clean_field_parts _ Cg) as (Sg1 & Sg2 & Sg3 & Sg4).
  destruct (clean_field_parts _ Cd) as (Sd1 & Sd2 & Sd3 & Sd4).
  destruct (pretty_Z_clean c) as (Zc1 & Zc2 & Zc3 & Zc4).
  apply in_range_true in Hr.
  set (body := (pretty c ++ "," ++ a ++ "," ++ b ++ "," ++ g ++ "," ++ d)%string).
  assert (Hb1 : all_chars (fun x => negb (PyStr.is_space x)) body = true).
  { unfold body. rewrite !all_chars_app, Zc1, Sa1, Sb1, Sg1, Sd1. reflexivity. }
  assert (Hb2 : all_chars (fun x => negb (Ascii.eqb x ":")) body = true).
  { unfold body. rewrite !all_chars_app, Zc2, Sa2, Sb2, Sg2, Sd2. reflexivity. }
  assert (Hb4 : all_chars (fun x => (N_of_ascii x <? 128)%N) body = true).
  { unfold body. rewrite !all_chars_app, Zc4, Sa4, Sb4, Sg4, Sd4. reflexivity. }
  assert (Ht : text = (("PID" ++ String ":" body) ++ String "010" EmptyString)%string).
  { assert (Hbn : (body ++ String "010" EmptyString
                   = pretty c ++ "," ++ a ++ "," ++ b ++ "," ++ g ++ "," ++ d
                     ++ String "010" EmptyString)%string).
    { unfold body. rewrite !str_app_assoc. reflexivity. }
    unfold text. rewrite <- Hbn. rewrite str_app_assoc. reflexivity. }
  assert (Hdec : PyStr.decodes text = true).
  { rewrite Ht. apply decodes_ascii. rewrite !all_chars_app. simpl. rewrite Hb4. reflexivity. }
  unfold TestMockSerial.write. rewrite Ho, Hdec. simpl negb. cbv iota.
  set (len := Z.of_nat (String.length text)).
  rewrite Ht. rewrite strip_line by (rewrite all_chars_app; simpl; exact Hb1).
  assert (Hsw : TestMockSerial.startswith "PID:" ("PID" ++ String ":" body) = true)
    by reflexivity.
  rewrite Hsw.
  rewrite split_cons by reflexivity. rewrite split_none by exact Hb2. simpl.
  assert (Hfields : PyStr.split "," body = [pretty c; a; b; g; d]).
  { unfold body.
    change ("," ++ ?x)%string with (String "," x).
    rewrite split_cons by exact Zc3.
    change ("," ++ ?x)%string with (String "," x).
    rewrite split_cons by exact Sa3.
    change ("," ++ ?x)%string with (String "," x).
    rewrite split_cons by exact Sb3.
    change ("," ++ ?x)%string with (String "," x).
    rewrite split_cons by exact Sg3.
    rewrite split_none by exact Sd3. reflexivity. }
  rewrite Hfields. simpl. rewrite int_pretty.
  unfold TestMockSerial.unpack_gains. simpl. rewrite Fa, Fb, Fg, Fd. simpl.
  unfold MockPIDSystem.update_params. rewrite Hr, Hc.
  do 2 eexists. split; [reflexivity|]. simpl.
  split; [apply lookup_insert_eq|]. simpl.
  repeat (split; [reflexivity|]). reflexivity.
Qed.

End PlantFrontPid.

(** ** The optimizer's validation *)

Section ValidationFacts.

Import Json PIDOptimizer.

Lemma dict_get_set (kv : list (string * value)) (k k' : string) (v : value) :
  dict_get (dict_set kv k v) k'
  = if String.eqb k k' then Some v else dict_get kv k'.
Proof.
  induction kv as [|[k0 v0] rest IH]; simpl.
  - destruct (String.eqb k k'); reflexivity.
  - destruct (String.eqb k0 k) eqn:E0; simpl.
    + apply String.eqb_eq in E0. subst k0.
      destruct (String.eqb k k'); reflexivity.
    + rewrite IH. destruct (String.eqb k k') eqn:E1; [|reflexivity].
      apply String.eqb_eq in E1. subst k'. rewrite E0. reflexivity.
Qed.

Lemma Qclip_nearest (x lo hi : Q) :
  (lo <= hi)%Q ->
  ((x < lo)%Q -> (Qclip x lo hi == lo)%Q)
  /\ ((lo <= x <= hi)%Q -> (Qclip x lo hi == x)%Q)
  /\ ((hi < x)%Q -> (Qclip x lo hi == hi)%Q).
Proof.
  intros H. unfold Qclip. split; [|split].
  - intros Hx. rewrite (Q.max_r x lo) by lra. apply Q.min_l. exact H.
  - intros [H1 H2]. rewrite (Q.max_l x lo) by exact H1. apply Q.min_l. exact H2.
  - intros Hx. apply Q.min_r. apply Qle_trans with x; [lra|]. apply Q.le_max_l.
Qed.

(** What the optimizer's clip makes of a number. *)
Lemma clip_number_nearest (v : value) (lo hi : Q) :
  (lo <= hi)%Q -> clipped_gain lo hi v (clip_number v lo hi).
Proof.
  intros H. unfold clipped_gain. split; [|split; [|split]].
  - intros x Hx. destruct v as [|b|z|q|k|s|l|kv]; try discriminate;
      injection Hx as <-; simpl; eexists; (split; [reflexivity|]);
      apply Qclip_nearest; exact H.
  - intros ->. reflexivity.
  - intros ->. reflexivity.
  - intros ->. reflexivity.
Qed.

(** X25.  A reply the validation accepts is an object whose [kp], [ki]
    and [kd] are numbers, and what is returned for it is that object with
    each gain converted to a float and brought to the nearest point of
    its bounds, 0.1..100 for [kp] and 0..10 for [ki] and [kd]: a gain
    under the lower bound comes back as the lower bound, one over the
    upper bound as the upper bound, one inside is kept, an infinity gives
    the bound on its side and a gain sent as [NaN] stays [NaN].  The
    explanation is the text the advisor sent and every other key of the
    reply is passed on unchanged. *)
Theorem validate_clamps (v r : value) :
  validate v = Some r ->
  exists kv kv',
    v = JObj kv /\ r = JObj kv'
    /\ (exists sent got,
          dict_get kv "kp" = Some sent /\ dict_get kv' "kp" = Some got
          /\ is_number sent = true /\ clipped_gain (1 # 10) 100 sent got)
    /\ (exists sent got,
          dict_get kv "ki" = Some sent /\ dict_get kv' "ki" = Some got
          /\ is_number sent = true /\ clipped_gain 0 10 sent got)
    /\ (exists sent got,
          dict_get kv "kd" = Some sent /\ dict_get kv' "kd" = Some got
          /\ is_number sent = true /\ clipped_gain 0 10 sent got)
    /\ (exists text, dict_get kv "explanation" = Some (JStr text)
                     /\ dict_get kv' "explanation" = Some (JStr text))
    /\ forall k, k <> "kp" -> k <> "ki" -> k <> "kd" -> dict_get kv' k = dict_get kv k.
Proof.
  unfold validate. destruct v as [| | | | | | |kv]; try discriminate.
  destruct (forallb _ _); [|discriminate].
  destruct (dict_get kv "kp") as [vkp|] eqn:Hkp; [|discriminate].
  destruct (dict_get kv "ki") as [vki|] eqn:Hki; [|discriminate].
  destruct (dict_get kv "kd") as [vkd|] eqn:Hkd; [|discriminate].
  destruct (dict_get kv "explanation") as [vex|] eqn:Hex; [|discriminate].
  destruct (is_number vkp && is_number vki && is_number vkd && is_str vex) eqn:Ht;
    [|discriminate].
  apply andb_true_iff in Ht as [Ht Hs]. apply andb_true_iff in Ht as [Ht Hnd].
  apply andb_true_iff in Ht as [Hnp Hni].
  destruct (float_overflows vkp); [discriminate|].
  destruct (float_overflows vki); [discriminate|].
  destruct (float_overflows vkd); [discriminate|].
  intros [= <-]. do 2 eexists. split; [reflexivity|]. split; [reflexivity|].
  assert (Hget : forall k,
            dict_get (dict_set (dict_set (dict_set kv "kp" (clip_number vkp (1 # 10) 100))
                                  "ki" (clip_number vki 0 10))
                        "kd" (clip_number vkd 0 10)) k
            = if String.eqb "kd" k then Some (clip_number vkd 0 10)
              else if String.eqb "ki" k then Some (clip_number vki 0 10)
              else if String.eqb "kp" k then Some (clip_number vkp (1 # 10) 100)
              else dict_get kv k).
  { intros k. rewrite !dict_get_set. reflexivity. }
  split; [|split; [|split; [|split]]].
  - exists vkp, (clip_number vkp (1 # 10) 100). rewrite Hget. simpl.
    split; [exact Hkp|]. split; [reflexivity|]. split; [exact Hnp|].
    apply clip_number_nearest. lra.
  - exists vki, (clip_number vki 0 10). rewrite Hget. simpl.
    split; [exact Hki|]. split; [reflexivity|]. split; [exact Hni|].
    apply clip_number_nearest. lra.
  - exists vkd, (clip_number vkd 0 10). rewrite Hget. simpl.
    split; [exact Hkd|]. split; [reflexivity|]. split; [exact Hnd|].
    apply clip_number_nearest. lra.
  - rewrite Hget. simpl. destruct vex; try discriminate. eauto.
  - intros k H1 H2 H3. rewrite Hget.
    destruct (String.eqb "kd" k) eqn:E1; [apply String.eqb_eq in E1; congruence|].
    destruct (String.eqb "ki" k) eqn:E2; [apply String.eqb_eq in E2; congruence|].
    destruct (String.eqb "kp" k) eqn:E3; [apply String.eqb_eq in E3; congruence|].
    reflexivity.
Qed.

Variable llm : request -> outcome string.


End ValidationFacts.


(** ** The further properties at concrete inputs *)

Lemma get_history_slices_witness :
  DataStore.get_history [pt 1; pt 2; pt 3] (Some 2) = [pt 2; pt 3]
  /\ DataStore.get_history [pt 1; pt 2; pt 3] (Some (-1)) = [pt 2; pt 3].
Proof.
  destruct (get_history_slices [pt 1; pt 2; pt 3] 2) as (_ & _ & Hpos & _).
  destruct (get_history_slices [pt 1; pt 2; pt 3] (-1)) as (_ & _ & _ & Hneg).
  destruct Hpos as [H1 _]; [lia|]. split.
  - rewrite H1. reflexivity.
  - rewrite Hneg by lia. reflexivity.
Defined.

Lemma analyze_curve_settling_first_sustained_witness :
  exists c,
    DataStore.analyze_curve [pt 50; pt 100; pt 51; pt 49] 50 = Returned c
    /\ DataStore.settling_time c = Some 2%nat.
Proof.
  destruct (DataStore.analyze_curve [pt 50; pt 100; pt 51; pt 49] 50) as [c|e] eqn:E;
    [|vm_compute in E; discriminate].
  exists c. split; [reflexivity|].
  apply (analyze_curve_settling_first_sustained _ _ 2 c E).
  - simpl. lia.
  - reflexivity.
  - intros j Hj. destruct j as [|[|j]]; [reflexivity | reflexivity | lia].
Defined.

Lemma analyze_curve_overshoot_sign_witness :
  exists c q,
    DataStore.analyze_curve [pt 40; pt 60] 50 = Returned c
    /\ DataStore.overshoot c = Some q /\ (0 <= q)%Q.
Proof.
  destruct (analyze_curve_overshoot_sign [pt 40; pt 60] 50) as (c & q & H1 & H2 & H3 & _).
  - discriminate.
  - reflexivity.
  - exists c, q. split; [exact H1|]. split; [exact H2 | exact H3].
Defined.

Lemma analyze_curve_raises_iff_witness :
  DataStore.analyze_curve [pt 1] 0 = Raised ZeroDivisionError.
Proof.
  apply (proj1 (analyze_curve_raises_iff [pt 1] 0)).
  split; [discriminate|]. split; reflexivity.
Defined.

Lemma analyze_curve_rise_time_first_witness :
  exists c,
    DataStore.analyze_curve [pt 40; pt 60] 50 = Returned c
    /\ DataStore.rise_time c = Some 1%nat.
Proof.
  destruct (DataStore.analyze_curve [pt 40; pt 60] 50) as [c|e] eqn:E;
    [|vm_compute in E; discriminate].
  exists c. split; [reflexivity|].
  apply (proj1 (analyze_curve_rise_time_first _ _ c E) 1%nat).
  exists 60%Q. split; [reflexivity|]. split; [unfold Qle; simpl; lia|].
  intros j y Hj Hy. destruct j as [|j]; [|lia].
  injection Hy as <-. reflexivity.
Defined.

Lemma update_params_clamps_witness :
  exists self' ch',
    MockPIDSystem.update_params plant0 0 2 (15 # 100) (5 # 100) 50 5000 (-3)
    = (Returned (), self')
    /\ MockPIDSystem.channels self' !! 0 = Some ch'
    /\ MockPIDSystem.control_period ch' = 1000
    /\ MockPIDSystem.max_duty ch' = 0
    /\ MockPIDSystem.kp ch' = 2%Q.
Proof.
  destruct (update_params_clamps plant0 0 (MockPIDSystem.default_channel 0 0)
              2 (15 # 100) (5 # 100) 50 5000 (-3))
    as (self' & ch' & H1 & H2 & H3 & _ & _ & _ & _ & _ & H4 & H5 & _).
  - change (0 <= 0 < 4). lia.
  - vm_compute. reflexivity.
  - exists self', ch'. split; [exact H1|]. split; [exact H2|].
    split; [apply H4; lia|]. split; [apply H5; lia | exact H3].
Defined.


Lemma plant_heating_reachable : plant_reachable plant_heating.
Proof.
  apply (reach_step plant_tuned).
  - apply (reach_step plant0).
    + apply reach_init.
    + apply (step_update_params _ _ 0 2 (15 # 100) (5 # 100) 50 1000 90). reflexivity.
  - apply (step_set_heating _ _ 0 true). reflexivity.
Qed.

Lemma control_tick_raises_witness :
  (MockPIDSystem._calculate_next_temp plant_heating 0 (12 # 10) 0).1 = Raised TypeError.
Proof.
  destruct (control_tick_raises plant_heating 0
              (MockPIDSystem.with_heating tuned_channel true) (12 # 10) 0
              plant_heating_reachable) as [_ H].
  - change (0 <= 0 < 4). lia.
  - vm_compute. reflexivity.
  - reflexivity.
  - apply H; unfold Qle; simpl; lia.
Defined.


Lemma heating_commands_witness :
  (exists dev',
      SerialComm.start_heating manager4 1 = (true, SerialComm.mk_manager 4 (Some dev') None)
      /\ (SerialComm.heating <$> SerialComm.channels dev' !! 1) = Some true)
  /\ SerialComm.start_heating manager4 4 = (false, manager4).
Proof.
  destruct (heating_commands manager4 1) as [Hok _].
  destruct (heating_commands manager4 4) as [_ Hbad].
  split.
  - destruct (Hok device4) as [(dev' & H1 & H2 & _) _].
    + reflexivity.
    + reflexivity.
    + simpl. lia.
    + exists dev'. split; [exact H1 | exact H2].
  - apply Hbad. right. simpl. lia.
Defined.

Lemma router_pid_command_applied_witness :
  (exists vp vi vd vt,
    SerialComm.send_command manager4
      (SerialComm.router_pid_text repr_decimal 0 2 (15 # 100) (5 # 100) 50
         (Some 200) (Some 90))
    = (true,
       SerialComm.mk_manager 4
         (Some (SerialComm.with_channels device4
                  (<[0 := SerialComm.mk_mock_channel 25 vt vp vi vd 200 90 false]>
                     (SerialComm.channels device4))))
         None)
    /\ (vp == 2)%Q /\ (vi == 15 # 100)%Q /\ (vd == 5 # 100)%Q /\ (vt == 50)%Q)
  /\ SerialComm.send_command manager4
       (SerialComm.router_pid_text repr_decimal 0 2 (15 # 100) (5 # 100) 50
          None (Some 90))
     = (true, manager4).
Proof.
  split.
  - do 4 eexists. split.
    + apply (router_pid_command_applied repr_decimal manager4 device4 0 2 (15 # 100)
               (5 # 100) 50 (Some 200) (Some 90) _ _ _ _ eq_refl eq_refl
               eq_refl eq_refl eq_refl eq_refl eq_refl eq_refl eq_refl eq_refl);
        reflexivity.
    + split; [reflexivity|]. split; [reflexivity|]. split; reflexivity.
  - destruct (PyStr.float (repr_decimal 2)) as [vp|] eqn:Ep; [|vm_compute in Ep; discriminate].
    destruct (PyStr.float (repr_decimal (15 # 100))) as [vi|] eqn:Ei;
      [|vm_compute in Ei; discriminate].
    destruct (PyStr.float (repr_decimal (5 # 100))) as [vd|] eqn:Ed;
      [|vm_compute in Ed; discriminate].
    destruct (PyStr.float (repr_decimal 50)) as [vt|] eqn:Et;
      [|vm_compute in Et; discriminate].
    destruct (router_pid_command_applied repr_decimal manager4 device4 0 2 (15 # 100)
                (5 # 100) 50 None (Some 90) vp vi vd vt eq_refl eq_refl
                eq_refl Ep eq_refl Ei eq_refl Ed eq_refl Et) as [_ Hdrop].
    rewrite Hdrop by (left; reflexivity). reflexivity.
Defined.

Lemma write_touches_one_channel_witness :
  SerialComm.channels (SerialComm.write device4 "garbage").2 !! 2
  = SerialComm.channels device4 !! 2
  \/ SerialComm.channels (SerialComm.write device4 "garbage").2 !! 3
     = SerialComm.channels device4 !! 3.
Proof.
  destruct (write_touches_one_channel device4 "garbage") as (_ & _ & _ & _ & c & Hc).
  destruct (decide (c = 2)) as [->|Hne].
  - right. apply Hc. lia.
  - left. apply Hc. congruence.
Defined.

Lemma device_temperature_floor_witness :
  mock_temp_floor (SerialComm.write (SerialComm.write device4 "HEAT:1:1").2 "HEAT:1:0").2
  /\ mock_temp_floor (SerialComm.readline device_warm 1).2
  /\ mock_temp_floor (SerialComm.mock_reset device_warm).2
  /\ exists ch',
       SerialComm.channels
         (SerialComm.mock_add_disturbance device4 2 (fun _ => 1 # 4)) !! 1 = Some ch'
       /\ (23 <= SerialComm.temperature ch' <= 27)%Q.
Proof.
  assert (Hd : forall i : Z, (0 <= (fun _ : Z => 1 # 4) i <= 1)%Q)
    by (intros i; split; unfold Qle; simpl; lia).
  destruct (device_temperature_floor device4 4 0 "HEAT:1:1" (1 # 2) 2 (fun _ => 1 # 4) Hd)
    as (Hinit & Hkeep & Hadd).
  destruct (Hkeep Hinit) as (Hw & _ & _).
  destruct (device_temperature_floor (SerialComm.write device4 "HEAT:1:1").2 4 0
              "HEAT:1:0" (1 # 2) 2 (fun _ => 1 # 4) Hd) as (_ & Hkeep1 & _).
  destruct (Hkeep1 Hw) as (Hw2 & Hr & _).
  destruct (device_temperature_floor device_warm 4 0 "" 1 2 (fun _ => 1 # 4) Hd)
    as (_ & Hkeep2 & _).
  destruct (Hkeep2 Hr) as (_ & Hr2 & Hreset).
  split; [exact Hw2|]. split; [exact Hr2|]. split; [exact Hreset|].
  specialize (Hadd 1).
  change (SerialComm.channels device4 !! 1) with (Some SerialComm.fresh_channel) in Hadd.
  destruct Hadd as (ch' & Hch & [Hlo Hhi] & _).
  exists ch'. split; [exact Hch|].
  change (SerialComm.temperature SerialComm.fresh_channel) with 25%Q in Hlo, Hhi.
  change (Qabs 2) with 2%Q in Hlo, Hhi. split; lra.
Defined.

Lemma mock_reset_range_witness :
  SerialComm.channels
    (SerialComm.mock_reset (SerialComm.write device4 "HEAT:9:1").2).2 !! 9
  = SerialComm.channels (SerialComm.write device4 "HEAT:9:1").2 !! 9
  /\ SerialComm.channels
       (SerialComm.mock_reset (SerialComm.write device4 "HEAT:1:1").2).2 !! 1
     = Some SerialComm.fresh_channel
  /\ SerialComm.mock_reset (SerialComm.mock_init 0 0)
     = (Raised UnboundLocalError, SerialComm.mock_init 0 0).
Proof.
  destruct (mock_reset_range (SerialComm.write device4 "HEAT:9:1").2 9) as (H9 & _).
  destruct (mock_reset_range (SerialComm.write device4 "HEAT:1:1").2 1) as (H1 & _).
  destruct (mock_reset_range (SerialComm.mock_init 0 0) 0) as (_ & H0).
  destruct H9 as (_ & _ & Hout & _); [change (0 < 4); lia|].
  destruct H1 as (_ & Hin & _); [change (0 < 4); lia|].
  split; [|split].
  - apply Hout. change (~ (0 <= 9 < 4)). lia.
  - apply Hin. change (0 <= 1 < 4). lia.
  - apply H0. change (0 <= 0). lia.
Defined.


Lemma plant_front_rejects_manager_texts_witness :
  TestMockSerial.write front4
    (SerialComm.pid_text repr_decimal 0 2 (15 # 100) (5 # 100) 50 100 100
     ++ String "010" EmptyString)
  = (0, front4)
  /\ TestMockSerial.write front4
       ("HEAT:" ++ pretty 0 ++ ":" ++ pretty 1 ++ String "010" EmptyString)
     = (0, front4).
Proof.
  apply (plant_front_rejects_manager_texts repr_decimal front4 0 2 (15 # 100) (5 # 100) 50
           100 100 1); vm_compute; reflexivity.
Defined.

Lemma plant_front_heat_commands_witness :
  exists sys,
    (TestMockSerial.write front4 ("HEAT_ON:" ++ pretty 0 ++ String "010" EmptyString)).2
    = TestMockSerial.mk true sys
    /\ MockPIDSystem.disturbance sys = MockPIDSystem.DFloat 0.
Proof.
  destruct (plant_front_heat_commands front4 0 (MockPIDSystem.default_channel 0 0) true)
    as (sys & Hrun & _ & Hd & _).
  - reflexivity.
  - change (0 <= 0 < 4). lia.
  - vm_compute. reflexivity.
  - exists sys. simpl in Hrun. rewrite Hrun. split; [reflexivity | exact Hd].
Defined.

Lemma plant_front_pid_command_witness :
  exists sys ch',
    (TestMockSerial.write
       (TestMockSerial.mk true plant_tuned)
       ("PID:" ++ pretty 0 ++ "," ++ "3.0" ++ "," ++ "0.2" ++ "," ++ "0.1" ++ ","
        ++ "60" ++ String "010" EmptyString)).2
    = TestMockSerial.mk true sys
    /\ MockPIDSystem.channels sys !! 0 = Some ch'
    /\ MockPIDSystem.control_period ch' = 100
    /\ MockPIDSystem.max_duty ch' = 100.
Proof.
  destruct (PyStr.float "3.0") as [va|] eqn:Ea; [|vm_compute in Ea; discriminate].
  destruct (PyStr.float "0.2") as [vb|] eqn:Eb; [|vm_compute in Eb; discriminate].
  destruct (PyStr.float "0.1") as [vg|] eqn:Eg; [|vm_compute in Eg; discriminate].
  destruct (PyStr.float "60") as [vd|] eqn:Ed; [|vm_compute in Ed; discriminate].
  assert (Hr : 0 <= 0 < MockPIDSystem.num_channels
                         (TestMockSerial.pid_system (TestMockSerial.mk true plant_tuned)))
    by (change (0 <= 0 < 4); lia).
  assert (Hl : MockPIDSystem.channels
                 (TestMockSerial.pid_system (TestMockSerial.mk true plant_tuned)) !! 0
               = Some tuned_channel) by (vm_compute; reflexivity).
  destruct (plant_front_pid_command (TestMockSerial.mk true plant_tuned) 0 tuned_channel
              "3.0" "0.2" "0.1" "60" va vb vg vd eq_refl Hr Hl
              eq_refl Ea eq_refl Eb eq_refl Eg eq_refl Ed)
    as (sys & ch' & Hrun & Hc & _ & _ & _ & _ & Hp & Hd & _).
  exists sys, ch'.
  split; [exact (f_equal snd Hrun)|]. split; [exact Hc|]. split; [exact Hp | exact Hd].
Defined.

Lemma validate_clamps_witness :
  exists kv',
    PIDOptimizer.validate wide_reply = Some (Json.JObj kv')
    /\ (exists q, Json.dict_get kv' "kp" = Some (Json.JFloat q) /\ (q == 100)%Q)
    /\ (exists q, Json.dict_get kv' "ki" = Some (Json.JFloat q) /\ (q == 0)%Q)
    /\ (exists q, Json.dict_get kv' "kd" = Some (Json.JFloat q) /\ (q == 1)%Q)
    /\ Json.dict_get kv' "confidence" = Some (Json.JFloat (9 # 10)).
Proof.
  destruct (PIDOptimizer.validate wide_reply) as [r|] eqn:E;
    [|vm_compute in E; discriminate].
  destruct (validate_clamps wide_reply r E)
    as (kv & kv' & Hv & -> & Hkp & Hki & Hkd & _ & Hother).
  exists kv'. split; [reflexivity|]. injection Hv as <-.
  destruct Hkp as (sp & gp & Hsp & Hgp & _ & Hcp & _).
  destruct Hki as (si & gi & Hsi & Hgi & _ & Hci & _).
  destruct Hkd as (sd & gd & Hsd & Hgd & _ & Hcd & _).
  vm_compute in Hsp, Hsi, Hsd.
  injection Hsp as <-. injection Hsi as <-. injection Hsd as <-.
  destruct (Hcp _ eq_refl) as (qp & -> & _ & _ & Hp).
  destruct (Hci _ eq_refl) as (qi & -> & Hi & _).
  destruct (Hcd _ eq_refl) as (qd & -> & _ & Hd & _).
  split; [exists qp; split; [exact Hgp | apply Hp; reflexivity]|].
  split; [exists qi; split; [exact Hgi | apply Hi; reflexivity]|].
  split; [exists qd; split; [exact Hgd | apply Hd; split; discriminate]|].
  rewrite Hother by discriminate. reflexivity.
Defined.

